(** * Tool selection and iterative orchestration: a shallow embedding

    The development follows the Python sources
      - [src/tools/base_tool.py]                (capability model, default scorer),
      - [src/tools/database/mcp_database_tool.py] and the other concrete tools,
      - [src/tools/registry.py]                 (ranking of enabled tools),
      - [src/agent/context_manager.py]          (request context, session state),
      - [src/agent/intelligent_agent.py]        (orchestration loop, executor).

    Modelling conventions.
      - A Python [str] is a [string] of 8-bit characters; [str.lower],
        [str.strip] and [str.split] act on the ASCII range.
      - Confidence scores are Python floats built from small integers and the
        literals 0.1, 0.2, ...; they are modelled as exact rationals [Q] and
        compared with [==].
      - A [Dict[str, Any]] is a [gmap string Value]; [Value] is the JSON-like
        universe of values that circulate in a request context.
      - The language-model backend, the tools' external systems and the clock
        are an abstract world [W] threaded through every effectful call,
        together with a log of the calls made. *)

From Stdlib Require Import ZArith QArith Qminmax Lia Lqa Ascii String List
  Permutation Sorted DecimalString PrimFloat.
From stdpp Require Import base option list gmap strings.

Local Set Warnings "-register-all".
Local Open Scope string_scope.
Local Open Scope list_scope.

(* ===================================================================== *)
(** ** Python strings *)
(* ===================================================================== *)

Module PyStr.

(** [c.lower()] on one character: 'A'..'Z' are shifted by 32. *)
Definition lower_char (c : ascii) : ascii :=
  let n := nat_of_ascii c in
  if (65 <=? n)%nat && (n <=? 90)%nat then ascii_of_nat (n + 32) else c.

(** [s.lower()] *)
Fixpoint lower (s : string) : string :=
  match s with
  | EmptyString => EmptyString
  | String c s' => String (lower_char c) (lower s')
  end.

(** [c.upper()] on one character. *)
Definition upper_char (c : ascii) : ascii :=
  let n := nat_of_ascii c in
  if (97 <=? n)%nat && (n <=? 122)%nat then ascii_of_nat (n - 32) else c.

(** [s.upper()] *)
Fixpoint upper (s : string) : string :=
  match s with
  | EmptyString => EmptyString
  | String c s' => String (upper_char c) (upper s')
  end.

(** [c.isspace()]: TAB, LF, VT, FF, CR, the separators 28..31, and SPACE. *)
Definition is_space (c : ascii) : bool :=
  let n := nat_of_ascii c in
  ((9 <=? n)%nat && (n <=? 13)%nat) || ((28 <=? n)%nat && (n <=? 32)%nat).

(** [s.startswith(p)] *)
Fixpoint startswith (p s : string) : bool :=
  match p, s with
  | EmptyString, _ => true
  | String a p', String b s' => Ascii.eqb a b && startswith p' s'
  | String _ _, EmptyString => false
  end.

(** [p in s]: [p] occurs in [s] as a contiguous substring. *)
Fixpoint contains (p s : string) : bool :=
  startswith p s ||
  match s with
  | EmptyString => false
  | String _ s' => contains p s'
  end.

(** [s.lstrip()] *)
Fixpoint lstrip (s : string) : string :=
  match s with
  | EmptyString => EmptyString
  | String c s' => if is_space c then lstrip s' else s
  end.

(** [s.rstrip()] *)
Fixpoint rstrip (s : string) : string :=
  match s with
  | EmptyString => EmptyString
  | String c s' =>
      match rstrip s' with
      | EmptyString => if is_space c then EmptyString else String c EmptyString
      | r => String c r
      end
  end.

(** [s.strip()] *)
Definition strip (s : string) : string := lstrip (rstrip s).

(** [len(s.split())]: the number of maximal runs of non-space characters.
    [inword] tells whether the previous character belonged to a word. *)
Fixpoint count_words_from (inword : bool) (s : string) : nat :=
  match s with
  | EmptyString => 0
  | String c s' =>
      if is_space c then count_words_from false s'
      else if inword then count_words_from true s'
      else S (count_words_from true s')
  end.

Definition count_words (s : string) : nat := count_words_from false s.

Definition first_char (s : string) : option ascii :=
  match s with
  | EmptyString => None
  | String c _ => Some c
  end.

Fixpoint last_char (s : string) : option ascii :=
  match s with
  | EmptyString => None
  | String c EmptyString => Some c
  | String _ s' => last_char s'
  end.

(** A phrase whose first and last characters are not white space. *)
Definition trimmed (p : string) : bool :=
  match first_char p, last_char p with
  | Some a, Some b => negb (is_space a) && negb (is_space b)
  | _, _ => false
  end.

End PyStr.

(* ===================================================================== *)
(** ** Values, exceptions and Python's numeric helpers *)
(* ===================================================================== *)

(** The values stored in a request context ([Dict[str, Any]]) and
    returned by tools as data.  [VDatetime] is a [datetime.datetime], as
    the rows of a database hold them, given by its [str()]: a value that
    is always true, hashable, not iterable, and that [json.dumps]
    refuses. *)
Inductive Value : Type :=
| VNone
| VBool (b : bool)
| VInt (z : Z)
| VStr (s : string)
| VList (l : list Value)
| VDict (d : list (string * Value))
| VDatetime (text : string).

(** [bool(v)] *)
Definition truthy (v : Value) : bool :=
  match v with
  | VNone => false
  | VBool b => b
  | VInt z => negb (z =? 0)%Z
  | VStr s => negb (String.eqb s "")
  | VList l => match l with [] => false | _ => true end
  | VDict d => match d with [] => false | _ => true end
  | VDatetime _ => true
  end.

(** Whether [json.dumps(v)] returns: it raises a [TypeError] on an object
    it has no encoding for, wherever in [v] it sits. *)
Fixpoint json_serializable (v : Value) : bool :=
  match v with
  | VList l =>
      (fix every (l : list Value) : bool :=
         match l with
         | [] => true
         | x :: l' => json_serializable x && every l'
         end) l
  | VDict d =>
      (fix every (d : list (string * Value)) : bool :=
         match d with
         | [] => true
         | (_, x) :: d' => json_serializable x && every d'
         end) d
  | VDatetime _ => false
  | _ => true
  end.

(** [bool(o)] for an [Optional] value: [None] is false. *)
Definition truthy_opt (o : option Value) : bool :=
  match o with
  | None => false
  | Some v => truthy v
  end.

(** [bool(s)] for an [Optional[str]]. *)
Definition truthy_str (o : option string) : bool :=
  match o with
  | None => false
  | Some s => negb (String.eqb s "")
  end.

(** A raised [Exception]; [exn_message] is [str(e)]. *)
Record PyException : Type := { exn_message : string }.

(** The result of a call that may raise. *)
Inductive Outcome (A : Type) : Type :=
| Returned (a : A)
| Raised (e : PyException).
Arguments Returned {A} a.
Arguments Raised {A} e.

(** Sequencing of calls that may raise. *)
Definition obind {A B : Type} (o : Outcome A) (f : A -> Outcome B) : Outcome B :=
  match o with
  | Returned a => f a
  | Raised e => Raised e
  end.

(** Exceptions raised by the interpreter itself; the texts stand for the
    interpreter's messages. *)
Definition TypeError_not_iterable : PyException :=
  {| exn_message := "object is not iterable" |}.
Definition TypeError_unhashable : PyException :=
  {| exn_message := "unhashable type" |}.
Definition AttributeError_lower : PyException :=
  {| exn_message := "object has no attribute 'lower'" |}.
Definition KeyError (k : string) : PyException :=
  {| exn_message := "'" +:+ k +:+ "'" |}.
Definition TypeError_not_serializable : PyException :=
  {| exn_message := "Object of type datetime is not JSON serializable" |}.

(** [key in d] *)
Definition has_key (k : string) (d : gmap string Value) : bool :=
  match d !! k with
  | Some _ => true
  | None => false
  end.

(** [d.get(key)] followed by a truth test, as in [if context.get("user_id")]. *)
Definition get_truthy (k : string) (d : gmap string Value) : bool :=
  truthy_opt (d !! k).

(** Whether [json.dumps(context)] returns: the keys are strings, so it
    is a matter of the values. *)
Definition context_serializable (context : gmap string Value) : bool :=
  forallb (fun entry => json_serializable (snd entry)) (map_to_list context).

(** [max(a, b)]: Python returns the first argument unless the second is
    strictly greater. *)
Definition py_max (a b : Q) : Q :=
  match (b ?= a)%Q with
  | Gt => b
  | _ => a
  end.

(** [min(a, b)]: the first argument unless the second is strictly smaller. *)
Definition py_min (a b : Q) : Q :=
  match (b ?= a)%Q with
  | Lt => b
  | _ => a
  end.

(** An integer count as a float. *)
Definition Qnat (n : nat) : Q := inject_Z (Z.of_nat n).

(* ===================================================================== *)
(** ** Capability model and tools ([src/tools/base_tool.py]) *)
(* ===================================================================== *)

Module Tools.

Inductive ToolResultStatus : Type := SUCCESS | ERROR | PARTIAL | SKIPPED.

Definition status_eqb (a b : ToolResultStatus) : bool :=
  match a, b with
  | SUCCESS, SUCCESS | ERROR, ERROR | PARTIAL, PARTIAL | SKIPPED, SKIPPED => true
  | _, _ => false
  end.

(** [status.value] *)
Definition status_value (s : ToolResultStatus) : string :=
  match s with
  | SUCCESS => "success"
  | ERROR => "error"
  | PARTIAL => "partial"
  | SKIPPED => "skipped"
  end.

Record ToolCapability : Type := {
  name : string;
  description : string;
  parameters : list (string * Value);
  use_cases : list string;
  data_sources : list string;
  prerequisites : list string;
  confidence_keywords : list string
}.

(** [ToolResult]; the generated [result_id] (a fresh uuid) is left out. *)
Record ToolResult : Type := {
  tool_name : string;
  status : ToolResultStatus;
  data : option Value;
  error : option string;
  metadata : option Value
}.

(** [ToolAction], with the field types the dataclass declares; the
    generated [action_id] is left out. *)
Record ToolAction : Type := {
  action_tool_name : string;
  action_parameters : gmap string Value;
  priority : Z;
  depends_on : option (list string)
}.

(** The concrete subclasses of [BaseTool] in the repository.
    [SnowflakeTool] inherits [should_use]; the others override it. *)
Inductive ToolClass : Type :=
| SnowflakeTool
| MCPDatabaseTool
| GoogleDriveTool
| DataAnalysisTool
| SummaryTool
| NotionTool
| SlackTool.

(** A tool instance.  [validate_parameters] and [execute] may raise and may
    act on the outside world [W]; [is_configured] is the attribute that
    [NotionTool] and [SlackTool] set from their credentials (the other
    classes do not read it). *)
Record BaseTool (W : Type) : Type := {
  tool_class : ToolClass;
  enabled : bool;
  is_configured : bool;
  capabilities : ToolCapability;
  validate_parameters :
    gmap string Value -> W -> Outcome (gmap string Value) * W;
  execute : gmap string Value -> W -> Outcome ToolResult * W
}.
Arguments tool_class {W} _.
Arguments enabled {W} _.
Arguments is_configured {W} _.
Arguments capabilities {W} _.
Arguments validate_parameters {W} _ _ _.
Arguments execute {W} _ _ _.

Section Scoring.
Context {W : Type}.
Implicit Types (t : BaseTool W) (intent : string) (context : gmap string Value).

(** [sum(1 for p in phrases if p.lower() in intent_lower)] *)
Definition count_matches (phrases : list string) (intent_lower : string) : nat :=
  length (List.filter (fun p => PyStr.contains (PyStr.lower p) intent_lower) phrases).

(** [sum(1 for k in keywords if k in intent_lower)] (no lower-casing of [k]) *)
Definition count_plain (keywords : list string) (intent_lower : string) : nat :=
  length (List.filter (fun k => PyStr.contains k intent_lower) keywords).

(** The loop [for prereq in prerequisites: if prereq not in context:
    prereq_penalty += 0.2], started at 0. *)
Definition prereq_penalty (prereqs : list string) context : Q :=
  fold_left (fun acc prereq => if has_key prereq context then acc else (acc + 0.2)%Q)
            prereqs 0%Q.

(** [BaseTool.should_use] *)
Definition BaseTool_should_use t intent context : Q :=
  if negb (enabled t) then 0%Q
  else
    let intent_lower := PyStr.lower intent in
    let caps := capabilities t in
    let use_case_matches := count_matches (use_cases caps) intent_lower in
    let keyword_matches := count_matches (confidence_keywords caps) intent_lower in
    let penalty := prereq_penalty (prerequisites caps) context in
    let total_keywords :=
      (length (use_cases caps) + length (confidence_keywords caps))%nat in
    let base_score :=
      if (total_keywords =? 0)%nat then 0.1%Q
      else (Qnat (use_case_matches + keyword_matches) / Qnat total_keywords)%Q in
    let final_score := py_max 0 (base_score - penalty)%Q in
    py_min 1 final_score.

(** [MCPDatabaseTool.should_use] *)
Definition MCPDatabaseTool_should_use t intent context : Q :=
  let base_confidence := BaseTool_should_use t intent context in
  let base_confidence :=
    if get_truthy "user_id" context && get_truthy "date" context
    then (base_confidence + 0.3)%Q else base_confidence in
  let data_keywords := ["data"; "activity"; "history"; "user"; "database"; "query"] in
  let intent_lower := PyStr.lower intent in
  let keyword_matches := count_plain data_keywords intent_lower in
  let base_confidence :=
    if (0 <? keyword_matches)%nat
    then (base_confidence + (Qnat keyword_matches / Qnat (length data_keywords)) * 0.2)%Q
    else base_confidence in
  py_min 1 base_confidence.

(** [GoogleDriveTool.should_use] *)
Definition GoogleDriveTool_should_use t intent context : Q :=
  let base_confidence := BaseTool_should_use t intent context in
  let doc_keywords :=
    ["document"; "guide"; "guideline"; "template"; "policy";
     "manual"; "example"; "format"; "standard"; "documentation"] in
  let intent_lower := PyStr.lower intent in
  let keyword_matches := count_plain doc_keywords intent_lower in
  let base_confidence :=
    if (0 <? keyword_matches)%nat
    then (base_confidence + (Qnat keyword_matches / Qnat (length doc_keywords)) * 0.3)%Q
    else base_confidence in
  let data_keywords := ["user_id"; "database"; "activity"; "metrics"] in
  let data_matches := count_plain data_keywords intent_lower in
  let base_confidence :=
    if (0 <? data_matches)%nat then (base_confidence - 0.2)%Q else base_confidence in
  py_max 0 (py_min 1 base_confidence).

(** [DataAnalysisTool.should_use] *)
Definition DataAnalysisTool_should_use t intent context : Q :=
  let base_confidence := BaseTool_should_use t intent context in
  let base_confidence :=
    if get_truthy "tool_result_database_query" context || has_key "data" context
    then (base_confidence + 0.4)%Q else base_confidence in
  let analysis_keywords := ["analyze"; "process"; "insights"; "trends"; "summary"] in
  let intent_lower := PyStr.lower intent in
  let keyword_matches := count_plain analysis_keywords intent_lower in
  let base_confidence :=
    if (0 <? keyword_matches)%nat
    then (base_confidence + (Qnat keyword_matches / Qnat (length analysis_keywords)) * 0.2)%Q
    else base_confidence in
  py_min 1 base_confidence.

(** [SummaryTool.should_use] *)
Definition SummaryTool_should_use t intent context : Q :=
  let base_confidence := BaseTool_should_use t intent context in
  let base_confidence :=
    if get_truthy "tool_result_data_analysis" context || has_key "processed_data" context
    then (base_confidence + 0.4)%Q else base_confidence in
  let summary_keywords := ["summary"; "report"; "overview"; "digest"; "generate"] in
  let intent_lower := PyStr.lower intent in
  let keyword_matches := count_plain summary_keywords intent_lower in
  let base_confidence :=
    if (0 <? keyword_matches)%nat
    then (base_confidence + (Qnat keyword_matches / Qnat (length summary_keywords)) * 0.3)%Q
    else base_confidence in
  let base_confidence :=
    if existsb (fun term => PyStr.contains term intent_lower) ["weekly"; "daily"; "monthly"]
    then (base_confidence + 0.2)%Q else base_confidence in
  py_min 1 base_confidence.

(** [NotionTool.should_use] *)
Definition NotionTool_should_use t intent context : Q :=
  if negb (is_configured t) then 0%Q
  else
    let intent_lower := PyStr.lower intent in
    let high_confidence := ["notion"; "team docs"; "project docs"; "meeting notes"; "wiki"] in
    let high_matches := count_plain high_confidence intent_lower in
    let medium_confidence := ["team"; "project"; "collaboration"; "knowledge"; "docs"] in
    let medium_matches := count_plain medium_confidence intent_lower in
    if (0 <? high_matches)%nat then py_min 0.9 (0.7 + Qnat high_matches * 0.1)%Q
    else if (0 <? medium_matches)%nat then py_min 0.6 (0.3 + Qnat medium_matches * 0.1)%Q
    else 0.1%Q.

(** [SlackTool.should_use] *)
Definition SlackTool_should_use t intent context : Q :=
  if negb (is_configured t) then 0%Q
  else
    let intent_lower := PyStr.lower intent in
    let high_confidence := ["slack"; "notify"; "send message"; "alert team"; "update team"] in
    let high_matches := count_plain high_confidence intent_lower in
    let medium_confidence :=
      ["message"; "communicate"; "tell"; "inform"; "share"; "broadcast"] in
    let medium_matches := count_plain medium_confidence intent_lower in
    let communication_indicators := ["team"; "group"; "channel"; "everyone"; "colleagues"] in
    let comm_matches := count_plain communication_indicators intent_lower in
    if (0 <? high_matches)%nat then py_min 0.9 (0.7 + Qnat high_matches * 0.1)%Q
    else if (0 <? medium_matches)%nat && (0 <? comm_matches)%nat
    then py_min 0.7 (0.4 + Qnat medium_matches * 0.1 + Qnat comm_matches * 0.1)%Q
    else if (0 <? medium_matches)%nat then py_min 0.5 (0.2 + Qnat medium_matches * 0.1)%Q
    else 0.1%Q.

(** [tool.should_use(intent, context)] with dynamic dispatch on the class. *)
Definition should_use t intent context : Q :=
  match tool_class t with
  | SnowflakeTool => BaseTool_should_use t intent context
  | MCPDatabaseTool => MCPDatabaseTool_should_use t intent context
  | GoogleDriveTool => GoogleDriveTool_should_use t intent context
  | DataAnalysisTool => DataAnalysisTool_should_use t intent context
  | SummaryTool => SummaryTool_should_use t intent context
  | NotionTool => NotionTool_should_use t intent context
  | SlackTool => SlackTool_should_use t intent context
  end.

End Scoring.

(** The capabilities declared by [MCPDatabaseTool]. *)
Definition mcp_capabilities : ToolCapability := {|
  name := "database_query";
  description := "Retrieve user data from database using predefined queries";
  parameters := [];
  use_cases :=
    ["user_activity"; "historical_data"; "preferences"; "weekly_summary";
     "user_metrics"; "activity_logs"; "user_behavior"];
  data_sources := ["postgresql"; "mysql"; "database"];
  prerequisites := ["database_connection"];
  confidence_keywords :=
    ["user"; "activity"; "data"; "history"; "database"; "query";
     "metrics"; "preferences"; "summary"; "trends"]
|}.

(** The capabilities declared by [SnowflakeTool]. *)
Definition snowflake_capabilities : ToolCapability := {|
  name := "snowflake_query";
  description :=
    "Execute SQL queries against Snowflake data warehouse to retrieve and analyze data";
  parameters := [];
  use_cases :=
    ["Query user activity data"; "Retrieve historical analytics";
     "Get aggregated metrics"; "Extract data for recommendations";
     "Analyze user behavior patterns"; "Generate reports from warehouse data";
     "List available tables and schemas"; "Show database structure";
     "Describe table information"];
  data_sources := ["Snowflake Data Warehouse"; "LUMEN_PROD database"];
  prerequisites := [];
  confidence_keywords :=
    ["data"; "query"; "sql"; "database"; "analytics"; "metrics";
     "snowflake"; "warehouse"; "reports"; "activity"; "users";
     "tables"; "table"; "schema"; "schemas"; "columns"; "available";
     "list"; "show"; "describe"; "information"; "structure"]
|}.

End Tools.

(* ===================================================================== *)
(** ** The default scorer in the interpreter's arithmetic *)
(* ===================================================================== *)

(** [BaseTool.should_use] once more, with its score as the binary64 float
    the interpreter computes, roundings included.  (The scorers above
    take the same steps on exact rationals, which orders and bounds the
    scores as the floats are ordered and bounded.) *)
Module Binary64.
Import Tools.

(** [float(n)] for a count; exact below 2^53, which no length reaches. *)
Definition float_of_nat (n : nat) : float :=
  Nat.iter n (fun x => x + 1)%float 0%float.

(** The literals [0.2] and [0.1], as the nearest binary64 values. *)
Definition point_two : float := 0x1.999999999999ap-3%float.
Definition point_one : float := 0x1.999999999999ap-4%float.

(** [max(0, x)]: [x] when it is strictly greater, else 0. *)
Definition py_max_zero (x : float) : float :=
  if (0 <? x)%float then x else 0%float.

(** [min(1.0, x)]: [x] when it is strictly smaller, else 1.0. *)
Definition py_min_one (x : float) : float :=
  if (x <? 1)%float then x else 1%float.

(** The loop [for prereq in prerequisites: if prereq not in context:
    prereq_penalty += 0.2], started at 0. *)
Definition prereq_penalty (prereqs : list string) (context : gmap string Value) : float :=
  fold_left
    (fun acc prereq => if has_key prereq context then acc else (acc + point_two)%float)
    prereqs 0%float.

(** [BaseTool.should_use] *)
Definition BaseTool_should_use {W : Type} (t : BaseTool W) (intent : string)
    (context : gmap string Value) : float :=
  if negb (enabled t) then 0%float
  else
    let intent_lower := PyStr.lower intent in
    let caps := capabilities t in
    let use_case_matches := count_matches (use_cases caps) intent_lower in
    let keyword_matches := count_matches (confidence_keywords caps) intent_lower in
    let penalty := prereq_penalty (prerequisites caps) context in
    let total_keywords :=
      (length (use_cases caps) + length (confidence_keywords caps))%nat in
    let base_score :=
      if (total_keywords =? 0)%nat then point_one
      else (float_of_nat (use_case_matches + keyword_matches)
            / float_of_nat total_keywords)%float in
    let final_score := py_max_zero (base_score - penalty)%float in
    py_min_one final_score.

End Binary64.

(* ===================================================================== *)
(** ** Insertion-ordered dictionaries and the stable sort *)
(* ===================================================================== *)

Module PyList.

Section Assoc.
Context {K V : Type} (eqb : K -> K -> bool).

(** [d.get(k)] on a dictionary kept in insertion order. *)
Fixpoint assoc_get (k : K) (d : list (K * V)) : option V :=
  match d with
  | [] => None
  | (k', v) :: d' => if eqb k' k then Some v else assoc_get k d'
  end.

(** [d[k] = v]: an existing key keeps its position, a new key goes last. *)
Fixpoint assoc_set (k : K) (v : V) (d : list (K * V)) : list (K * V) :=
  match d with
  | [] => [(k, v)]
  | (k', v') :: d' =>
      if eqb k' k then (k', v) :: d' else (k', v') :: assoc_set k v d'
  end.

End Assoc.

Section Sort.
Context {A : Type} (before : A -> A -> bool).

(** Walk past the elements that are strictly ahead of [x] and put [x]
    in front of the first one that is not. *)
Fixpoint insert_sorted (x : A) (l : list A) : list A :=
  match l with
  | [] => [x]
  | y :: l' => if before y x then y :: insert_sorted x l' else x :: y :: l'
  end.

(** [sorted(l, key=...)] / [l.sort(key=..., reverse=...)]: a stable sort.
    [before y x] holds when [y]'s key is strictly ahead of [x]'s.  The head
    of the input is inserted last, so it ends up in front of every element
    with an equal key. *)
Fixpoint stable_sort (l : list A) : list A :=
  match l with
  | [] => []
  | x :: l' => insert_sorted x (stable_sort l')
  end.

(** [a] may stand in front of [b]: [b] is not strictly ahead of [a]. *)
Definition in_order (a b : A) : Prop := before b a = false.

End Sort.

(** [l[-n:]] for an integer [n], with Python's slice rules: a negative
    start counts from the end (clipped at 0), a start of 0 keeps the whole
    list, a positive start is clipped at [len(l)]. *)
Definition slice_from_neg {A : Type} (n : Z) (l : list A) : list A :=
  let len := Z.of_nat (length l) in
  let start := (- n)%Z in
  let start := if (start <? 0)%Z then Z.max (len + start) 0 else Z.min start len in
  drop (Z.to_nat start) l.

(** [x in l] for a list of strings. *)
Definition str_mem (x : string) (l : list string) : bool :=
  existsb (String.eqb x) l.

End PyList.

(* ===================================================================== *)
(** ** Tool registry ([src/tools/registry.py]) *)
(* ===================================================================== *)

Module Registry.
Import Tools.

Section Registry.
Context {W : Type}.

(** [ToolRegistry._tools]: tool name to instance, in registration order. *)
Definition ToolRegistry : Type := list (string * BaseTool W).

(** [register_tool] *)
Definition register_tool (tool : BaseTool W) (reg : ToolRegistry) : ToolRegistry :=
  PyList.assoc_set String.eqb (name (capabilities tool)) tool reg.

(** [get_tool] *)
Definition get_tool (tool_name : string) (reg : ToolRegistry) : option (BaseTool W) :=
  PyList.assoc_get String.eqb tool_name reg.

(** [get_enabled_tools] *)
Definition get_enabled_tools (reg : ToolRegistry) : ToolRegistry :=
  List.filter (fun entry => enabled (snd entry)) reg.

(** [score_before y x]: [y] has a strictly higher confidence than [x]
    (the order of [sort(key=lambda x: x[1], reverse=True)]). *)
Definition score_before (y x : BaseTool W * Q) : bool :=
  negb (Qle_bool (snd y) (snd x)).

(** The loop of [get_tools_for_intent] before sorting: score each tool and
    keep the pairs with [confidence >= min_confidence]. *)
Definition score_candidates (tools : list (BaseTool W)) (intent : string)
    (context : gmap string Value) (min_confidence : Q) : list (BaseTool W * Q) :=
  List.filter (fun entry => Qle_bool min_confidence (snd entry))
    (List.map (fun tool => (tool, should_use tool intent context)) tools).

(** [get_tools_for_intent] *)
Definition get_tools_for_intent (reg : ToolRegistry) (intent : string)
    (context : gmap string Value) (min_confidence : Q) : list (BaseTool W * Q) :=
  let tool_scores :=
    score_candidates (List.map snd (get_enabled_tools reg)) intent context min_confidence in
  PyList.stable_sort score_before tool_scores.

End Registry.
Arguments ToolRegistry W : clear implicits.
End Registry.

(* ===================================================================== *)
(** ** Tool selector ([src/agent/tool_selector.py]) *)
(* ===================================================================== *)

Module Selector.
Import Tools.

Section Selector.
Context {W : Type}.

(** [_check_prerequisites] *)
Definition _check_prerequisites (tool : BaseTool W) (context : gmap string Value) : bool :=
  forallb (fun prereq => has_key prereq context) (prerequisites (capabilities tool)).

(** [name in context.get("recent_tool_usage", [])]: membership in a list,
    substring of a string, key of a dictionary; a [TypeError] otherwise. *)
Definition name_in_recent (n : string) (context : gmap string Value) : Outcome bool :=
  match context !! "recent_tool_usage" with
  | None => Returned false
  | Some (VList l) =>
      Returned (existsb (fun x => match x with VStr s => String.eqb s n | _ => false end) l)
  | Some (VStr s) => Returned (PyStr.contains n s)
  | Some (VDict d) => Returned (existsb (fun kv => String.eqb (fst kv) n) d)
  | Some _ => Raised TypeError_not_iterable
  end.

(** [context.get("user_request", "").lower()]; only a string has [lower]. *)
Definition request_lower (context : gmap string Value) : Outcome string :=
  match context !! "user_request" with
  | None => Returned ""
  | Some (VStr s) => Returned (PyStr.lower s)
  | Some _ => Raised AttributeError_lower
  end.

(** [_adjust_confidence] *)
Definition _adjust_confidence (tool : BaseTool W) (base_confidence : Q)
    (context : gmap string Value) : Outcome Q :=
  let n := name (capabilities tool) in
  let adjusted := base_confidence in
  let adjusted :=
    if PyList.str_mem n ["database_query"; "user_data_tool"]
       && has_key "user_id" context && has_key "date" context
    then (adjusted + 0.2)%Q else adjusted in
  obind
    (if PyList.str_mem n ["drive_search"; "google_drive_tool"] then
       obind (request_lower context) (fun request_lower =>
         Returned
           (if existsb (fun keyword => PyStr.contains keyword request_lower)
                 ["guide"; "documentation"; "template"; "policy"; "format"]
            then (adjusted + 0.15)%Q else adjusted))
     else Returned adjusted)
    (fun adjusted =>
       obind (name_in_recent n context) (fun recent =>
         let adjusted := if recent then (adjusted - 0.1)%Q else adjusted in
         Returned (py_max 0 (py_min 1 adjusted)))).

(** [_apply_contextual_filtering] *)
Fixpoint _apply_contextual_filtering (min_confidence : Q)
    (tools : list (BaseTool W * Q)) (context : gmap string Value)
    : Outcome (list (BaseTool W * Q)) :=
  match tools with
  | [] => Returned []
  | (tool, confidence) :: rest =>
      if _check_prerequisites tool context then
        obind (_adjust_confidence tool confidence context) (fun adjusted =>
          obind (_apply_contextual_filtering min_confidence rest context) (fun tail =>
            Returned
              (if Qle_bool min_confidence adjusted then (tool, adjusted) :: tail
               else tail)))
      else _apply_contextual_filtering min_confidence rest context
  end.

(** [select_tools], for a selector built with [min_confidence]. *)
Definition select_tools (min_confidence : Q) (reg : Registry.ToolRegistry W)
    (user_request : string) (context : gmap string Value)
    : Outcome (list (BaseTool W * Q)) :=
  let suitable_tools :=
    Registry.get_tools_for_intent reg user_request context min_confidence in
  _apply_contextual_filtering min_confidence suitable_tools context.

End Selector.
End Selector.

(* ===================================================================== *)
(** ** Context manager ([src/agent/context_manager.py]) *)
(* ===================================================================== *)

Module ContextManager.
Import Tools.

(** One reading of the process clock: [datetime.now().isoformat()] and the
    calendar dates that [_parse_date] derives from [datetime.now()]. *)
Record Clock : Type := {
  now_iso : string;
  today : string;
  yesterday : string;
  tomorrow : string;
  a_week_ago : string;
  in_a_week : string
}.

(** One element of a history entry's ["tool_results"] list. *)
Record ResultSummary : Type := {
  rs_tool_name : string;
  rs_status : string;
  rs_has_data : bool
}.

Record HistoryEntry : Type := {
  he_timestamp : Value;
  he_user_request : Value;
  he_tool_results : list ResultSummary
}.

(** The ["preferences"] dictionary: the [requested_<data_type>] counters
    (keyed by the full key) and the optional ["tool_combinations"] map. *)
Record Preferences : Type := {
  requested : list (string * Z);
  tool_combinations : option (list (string * Z))
}.

(** The per-session dictionary created by [update_context]. *)
Record SessionContext : Type := {
  history : list HistoryEntry;
  recent_tools : list string;
  preferences : Preferences;
  created_at : string
}.

(** Dictionary keys must be hashable: lists and dictionaries are not. *)
Definition hashable (v : Value) : bool :=
  match v with
  | VList _ | VDict _ => false
  | _ => true
  end.

(** Equality of two hashable keys ([True == 1] and [False == 0]). *)
Definition key_eqb (a b : Value) : bool :=
  match a, b with
  | VNone, VNone => true
  | VBool x, VBool y => Bool.eqb x y
  | VInt x, VInt y => (x =? y)%Z
  | VBool x, VInt y | VInt y, VBool x => (y =? (if x then 1 else 0))%Z
  | VStr x, VStr y => String.eqb x y
  | VDatetime x, VDatetime y => String.eqb x y
  | _, _ => false
  end.

(** [ContextManager.session_contexts], in insertion order. *)
Definition SessionStore : Type := list (Value * SessionContext).

Definition get_session (session_id : Value) (store : SessionStore) : option SessionContext :=
  PyList.assoc_get key_eqb session_id store.

Definition set_session (session_id : Value) (sc : SessionContext) (store : SessionStore)
    : SessionStore :=
  PyList.assoc_set key_eqb session_id sc store.

(** The state of a [ContextManager] instance. *)
Record Manager : Type := {
  max_history_size : Z;
  session_contexts : SessionStore
}.

(** [ContextManager(max_history_size)]; the default size is 50. *)
Definition new_manager (size : Z) : Manager :=
  {| max_history_size := size; session_contexts := [] |}.
Definition default_max_history_size : Z := 50.

(** The values under which session state is copied into a context. *)
Definition summary_value (r : ResultSummary) : Value :=
  VDict [("tool_name", VStr (rs_tool_name r));
         ("status", VStr (rs_status r));
         ("has_data", VBool (rs_has_data r))].

Definition entry_value (e : HistoryEntry) : Value :=
  VDict [("timestamp", he_timestamp e);
         ("user_request", he_user_request e);
         ("tool_results", VList (List.map summary_value (he_tool_results e)))].

Definition counters_value (m : list (string * Z)) : list (string * Value) :=
  List.map (fun kv => (fst kv, VInt (snd kv))) m.

Definition preferences_value (p : Preferences) : Value :=
  VDict (counters_value (requested p) ++
         match tool_combinations p with
         | None => []
         | Some m => [("tool_combinations", VDict (counters_value m))]
         end).

Section WithLibraries.
(** [re.search(pattern, text, re.IGNORECASE)]: [group(1)] of the first
    match, if any. *)
Variable re_search : string -> string -> option string.
(** [dateutil.parser.parse(s).date().isoformat()]; [None] when it raises. *)
Variable dateutil_parse : string -> option string.
(** [str(v)] as used by an f-string. *)
Variable format_value : Value -> string.

(** [_parse_date] *)
Definition _parse_date (clk : Clock) (date_str : string) : option string :=
  let d := PyStr.lower date_str in
  if String.eqb d "today" then Some (today clk)
  else if String.eqb d "yesterday" then Some (yesterday clk)
  else if String.eqb d "tomorrow" then Some (tomorrow clk)
  else if PyStr.contains "last week" d then Some (a_week_ago clk)
  else if PyStr.contains "this week" d then Some (today clk)
  else if PyStr.contains "next week" d then Some (in_a_week clk)
  else dateutil_parse date_str.

(** The search loops of [_extract_entities]: the first pattern that matches
    wins. *)
Fixpoint first_match (patterns : list string) (text : string) : option string :=
  match patterns with
  | [] => None
  | pattern :: rest =>
      match re_search pattern text with
      | Some g => Some g
      | None => first_match rest text
      end
  end.

Definition date_patterns : list string :=
  ["\b(\d{4}-\d{2}-\d{2})\b";
   "\b(\d{1,2}/\d{1,2}/\d{4})\b";
   "\b(today|yesterday|tomorrow)\b";
   "\b(last week|this week|next week)\b";
   "\b(last month|this month|next month)\b"].

Definition user_patterns : list string :=
  ["\buser[_\s]*(?:id)?[:\s]+([a-zA-Z0-9_-]+)\b";
   "\bfor\s+user\s+([a-zA-Z0-9_-]+)\b";
   "\b([a-zA-Z0-9_-]+)@[a-zA-Z0-9.-]+\.[a-zA-Z]{2,}\b"].

Definition data_type_keywords : list (string * list string) :=
  [("activity", ["activity"; "activities"; "actions"; "behavior"]);
   ("preferences", ["preferences"; "settings"; "configuration"]);
   ("history", ["history"; "historical"; "past"; "previous"]);
   ("summary", ["summary"; "report"; "overview"; "digest"]);
   ("analysis", ["analysis"; "insights"; "trends"; "patterns"])].

(** The data types whose keywords occur in the lower-cased request. *)
Definition matching_data_types (request_lower : string) : list string :=
  List.map fst
    (List.filter
       (fun entry => existsb (fun keyword => PyStr.contains keyword request_lower) (snd entry))
       data_type_keywords).

(** [_extract_entities] *)
Definition _extract_entities (clk : Clock) (user_request : string) : gmap string Value :=
  let entities : gmap string Value := ∅ in
  let entities :=
    match first_match date_patterns user_request with
    | Some date_str =>
        match _parse_date clk date_str with
        | Some parsed_date =>
            <["original_date_text" := VStr date_str]>
              (<["date" := VStr parsed_date]> entities)
        | None => entities
        end
    | None => entities
    end in
  let entities :=
    match first_match user_patterns user_request with
    | Some uid => <["extracted_user_id" := VStr uid]> entities
    | None => entities
    end in
  match matching_data_types (PyStr.lower user_request) with
  | [] => entities
  | data_types => <["data_types" := VList (List.map VStr data_types)]> entities
  end.

(** [session_id or "default"] *)
Definition session_label (session_id : option string) : string :=
  match session_id with
  | Some s => if String.eqb s "" then "default" else s
  | None => "default"
  end.

(** [build_context].  [context.update(d)] lets the entries of [d] win, which
    is the left-biased union [d ∪ context]. *)
Definition build_context (m : Manager) (clk : Clock) (user_request : string)
    (user_id session_id : option string)
    (additional_context : option (gmap string Value)) : gmap string Value :=
  let context : gmap string Value :=
    <["session_id" := VStr (session_label session_id)]>
      (<["timestamp" := VStr (now_iso clk)]>
         (<["user_request" := VStr user_request]> ∅)) in
  let context :=
    match user_id with
    | Some uid => if truthy_str user_id then <["user_id" := VStr uid]> context else context
    | None => context
    end in
  let extracted_entities := _extract_entities clk user_request in
  let context := extracted_entities ∪ context in
  let context :=
    match session_id with
    | Some sid =>
        if truthy_str session_id then
          match get_session (VStr sid) (session_contexts m) with
          | Some session_context =>
              <["user_preferences" := preferences_value (preferences session_context)]>
                (<["recent_tool_usage" := VList (List.map VStr (recent_tools session_context))]>
                   (<["conversation_history" :=
                        VList (List.map entry_value (history session_context))]> context))
          | None => context
          end
        else context
    | None => context
    end in
  match additional_context with
  | Some extra => if decide (extra = ∅) then context else extra ∪ context
  | None => context
  end.

(** [for x in v]: the elements a [for] loop visits, or a [TypeError]. *)
Definition py_iter (v : Value) : Outcome (list Value) :=
  match v with
  | VList l => Returned l
  | VStr s => Returned (List.map (fun c => VStr (String c EmptyString)) (list_ascii_of_string s))
  | VDict d => Returned (List.map (fun kv => VStr (fst kv)) d)
  | _ => Raised TypeError_not_iterable
  end.

(** [f"requested_{data_type}"] *)
Definition requested_key (data_type : Value) : string :=
  "requested_" +:+
  match data_type with
  | VStr s => s
  | v => format_value v
  end.

(** [d[key] = d.get(key, 0) + 1] *)
Definition bump (key : string) (d : list (string * Z)) : list (string * Z) :=
  PyList.assoc_set String.eqb key
    (match PyList.assoc_get String.eqb key d with
     | Some n => n + 1
     | None => 0 + 1
     end)%Z d.

(** [sorted(names)] by code points. *)
Definition sorted_names (names : list string) : list string :=
  PyList.stable_sort String.ltb names.

(** [_extract_preferences] *)
Definition _extract_preferences (context : gmap string Value)
    (tool_results : list ToolResult) (prefs : Preferences) : Outcome Preferences :=
  obind
    (match context !! "data_types" with
     | Some v => py_iter v
     | None => Returned []
     end)
    (fun data_types =>
       let counters :=
         fold_left (fun acc data_type => bump (requested_key data_type) acc)
                   data_types (requested prefs) in
       let successful_tools :=
         List.map tool_name
           (List.filter (fun r => String.eqb (status_value (status r)) "success")
                        tool_results) in
       Returned
         (if (1 <? length successful_tools)%nat then
            let combos :=
              match tool_combinations prefs with
              | Some c => c
              | None => []
              end in
            let combo_str := String.concat " + " (sorted_names successful_tools) in
            {| requested := counters;
               tool_combinations := Some (bump combo_str combos) |}
          else
            {| requested := counters;
               tool_combinations := tool_combinations prefs |})).

(** The session dictionary created on first use. *)
Definition fresh_session (clk : Clock) : SessionContext :=
  {| history := [];
     recent_tools := [];
     preferences := {| requested := []; tool_combinations := None |};
     created_at := now_iso clk |}.

(** The loop [for result in tool_results: if result.tool_name not in
    recent_tools: recent_tools.append(result.tool_name)]. *)
Definition add_recent (recent : list string) (tool_results : list ToolResult)
    : list string :=
  fold_left
    (fun acc result =>
       if PyList.str_mem (tool_name result) acc then acc
       else acc ++ [tool_name result])
    tool_results recent.

Definition summarize (result : ToolResult) : ResultSummary :=
  {| rs_tool_name := tool_name result;
     rs_status := status_value (status result);
     rs_has_data := match data result with Some _ => true | None => false end |}.

(** [update_context]: the outcome of the call and the manager afterwards.
    State written before an exception is raised stays written. *)
Definition update_context (m : Manager) (clk : Clock)
    (context : gmap string Value) (tool_results : list ToolResult)
    : Outcome unit * Manager :=
  let with_store store :=
    {| max_history_size := max_history_size m; session_contexts := store |} in
  let session_id :=
    match context !! "session_id" with
    | Some v => v
    | None => VStr "default"
    end in
  if negb (hashable session_id) then (Raised TypeError_unhashable, m)
  else
    let store :=
      match get_session session_id (session_contexts m) with
      | Some _ => session_contexts m
      | None => set_session session_id (fresh_session clk) (session_contexts m)
      end in
    let session_context :=
      match get_session session_id store with
      | Some sc => sc
      | None => fresh_session clk
      end in
    match context !! "timestamp" with
    | None => (Raised (KeyError "timestamp"), with_store store)
    | Some timestamp =>
        match context !! "user_request" with
        | None => (Raised (KeyError "user_request"), with_store store)
        | Some user_request =>
            let history_entry :=
              {| he_timestamp := timestamp;
                 he_user_request := user_request;
                 he_tool_results := List.map summarize tool_results |} in
            let history1 := history session_context ++ [history_entry] in
            let recent :=
              PyList.slice_from_neg 10
                (add_recent (recent_tools session_context) tool_results) in
            let history2 :=
              if (max_history_size m <? Z.of_nat (length history1))%Z
              then PyList.slice_from_neg (max_history_size m) history1
              else history1 in
            let updated prefs :=
              with_store
                (set_session session_id
                   {| history := history2;
                      recent_tools := recent;
                      preferences := prefs;
                      created_at := created_at session_context |}
                   store) in
            match _extract_preferences context tool_results (preferences session_context) with
            | Returned prefs => (Returned tt, updated prefs)
            | Raised e => (Raised e, updated (preferences session_context))
            end
        end
    end.

End WithLibraries.
End ContextManager.

(* ===================================================================== *)
(** ** The agent ([src/agent/intelligent_agent.py]) *)
(* ===================================================================== *)

Module Agent.
Import Tools ContextManager.

(** The observable steps of a run, in order.  [IterationStarted],
    [ToolNotFound], [ToolExecuted] and [ToolFailed] are the places where the
    source writes to its logger; [ActionStarted] marks the entry of the
    executor's loop body with the context it sees, [ToolReturned] a result
    handed back by [execute]; the last four are the calls to the
    language-model backend. *)
Inductive Event : Type :=
| IterationStarted (iteration : nat)
| ActionStarted (action : ToolAction) (context : gmap string Value)
| ToolNotFound (action : ToolAction)
| ToolExecuted (action : ToolAction) (validated : gmap string Value)
| ToolReturned (action : ToolAction) (result : ToolResult)
| ToolFailed (action : ToolAction) (e : PyException)
| PlanningAsked
| SufficiencyAsked
| SynthesisAsked
| ConversationAsked.

(** The dictionary returned by [process_request]; the ["tool_results"] and
    ["tool_actions"] keys are absent from an error reply. *)
Record Reply : Type := {
  response : string;
  reply_status : string;
  reply_tool_results : option (list ToolResult);
  reply_tool_actions : option (list ToolAction);
  reply_error : option string;
  reply_context : gmap string Value;
  reply_timestamp : string
}.

Section Agent.
Context {W : Type}.

(** Everything the agent reaches through an interface: the global tool
    registry, the clock, the four call sites of the language-model backend
    ([None] when the call raises or yields no text), and the library
    functions used on its replies and on the request text. *)
Record Environment : Type := {
  tool_registry : Registry.ToolRegistry W;
  clock : W -> Clock;
  llm_plan :
    string -> list (ToolCapability * Q) -> gmap string Value -> W -> option string * W;
  llm_sufficiency : string -> list (string * bool) -> W -> option string * W;
  llm_synthesis :
    string -> list ToolResult -> gmap string Value -> W -> option string * W;
  llm_conversation : string -> W -> option string * W;
  (** the first bracketed JSON array of a planning reply, as tool actions
      of the declared types (a string [tool_name], a dictionary of
      [parameters], an integer [priority]); [None] when there is none or
      it does not parse.  What the agent does with a reply whose actions
      hold values of other types is outside this model. *)
  extract_actions : string -> option (list ToolAction);
  re_search : string -> string -> option string;
  dateutil_parse : string -> option string;
  format_value : Value -> string
}.

(** The mutable state of a run: the outside world, the agent's context
    manager and the log of events. *)
Record RunState : Type := {
  world : W;
  manager : Manager;
  trace : list Event
}.

Definition M (A : Type) : Type := RunState -> A * RunState.

#[local] Instance M_ret : MRet M := fun A a s => (a, s).

#[local] Instance M_bind : MBind M :=
  fun A B f c s => let (a, s') := c s in f a s'.

(** Record an event. *)
Definition emit (e : Event) : M unit :=
  fun s => (tt, {| world := world s; manager := manager s; trace := trace s ++ [e] |}).

(** A call that acts on the outside world. *)
Definition outside {A : Type} (f : W -> A * W) : M A :=
  fun s =>
    let (a, w) := f (world s) in
    (a, {| world := w; manager := manager s; trace := trace s |}).

(** [datetime.now()] *)
Definition read_clock (env : Environment) : M Clock :=
  fun s => (clock env (world s), s).

Variable env : Environment.

(** [str(n)] for a length. *)
Definition str_of_nat (n : nat) : string :=
  NilZero.string_of_uint (Nat.to_uint n).

Definition conversational_patterns : list string :=
  ["hi"; "hello"; "hey"; "what model are you"; "who are you"; "what are you";
   "how are you"; "what can you do"; "what do you do"; "help"; "thank you";
   "thanks"; "bye"; "goodbye"; "what's your name"; "introduce yourself";
   "tell me about yourself"; "what are your capabilities"; "how do you work"].

Definition data_keywords : list string :=
  ["table"; "data"; "query"; "search"; "find"; "show"; "get"; "list";
   "database"; "snowflake"].

(** [_is_conversational_request] *)
Definition _is_conversational_request (user_request : string) : bool :=
  let request_lower := PyStr.strip (PyStr.lower user_request) in
  if existsb (fun pattern => PyStr.contains pattern request_lower) conversational_patterns
  then true
  else if (PyStr.count_words request_lower <=? 3)%nat
          && negb (existsb (fun keyword => PyStr.contains keyword request_lower) data_keywords)
  then true
  else false.

(** [_generate_conversational_response] *)
Definition _generate_conversational_response (user_request : string)
    (context : gmap string Value) : M string :=
  emit ConversationAsked;;
  reply ← outside (llm_conversation env user_request);
  mret match reply with
      | Some content => content
      | None =>
          "Hello! I'm an AI assistant that can help you with database queries, document searches, data analysis, and more. How can I assist you today?"
      end.

(** Whether [json.dumps] accepts the summary that [_generate_response]
    makes of a result: it holds the data of a successful result, and
    [None] in its place for any other. *)
Definition result_serializable (r : ToolResult) : bool :=
  if status_eqb (status r) SUCCESS
  then match data r with
       | Some v => json_serializable v
       | None => true
       end
  else true.

(** [_generate_response].  The prompt is built, with [json.dumps] of the
    results summary and of the context, before the [try] that guards the
    call to the backend: a [TypeError] raised there leaves the function. *)
Definition _generate_response (user_request : string)
    (tool_results : list ToolResult) (context : gmap string Value)
    : M (Outcome string) :=
  if forallb result_serializable tool_results && context_serializable context then
    emit SynthesisAsked;;
    reply ← outside (llm_synthesis env user_request tool_results context);
    mret (Returned
           match reply with
           | Some content => content
           | None =>
               "I processed your request using " +:+ str_of_nat (length tool_results) +:+
               " tools, but encountered an error generating the final response. The tools executed successfully and gathered the requested information."
           end)
  else mret (Raised TypeError_not_serializable).

(** [_has_sufficient_information] *)
Definition _has_sufficient_information (user_request : string)
    (tool_results : list ToolResult) (context : gmap string Value) : M bool :=
  match tool_results with
  | [] => mret false
  | _ =>
      let successful_results :=
        List.filter (fun r => status_eqb (status r) SUCCESS) tool_results in
      match successful_results with
      | [] => mret false
      | _ =>
          let results_summary :=
            List.map (fun r => (tool_name r, truthy_opt (data r))) successful_results in
          emit SufficiencyAsked;;
          reply ← outside (llm_sufficiency env user_request results_summary);
          mret match reply with
              | Some content =>
                  PyStr.startswith "YES" (PyStr.upper (PyStr.strip content))
              | None => (0 <? length successful_results)%nat
              end
      end
  end.

(** [_extract_basic_parameters] *)
Definition _extract_basic_parameters (user_request : string)
    (context : gmap string Value) : gmap string Value :=
  let parameters : gmap string Value := ∅ in
  let parameters :=
    match context !! "user_id" with
    | Some v => <["user_id" := v]> parameters
    | None => parameters
    end in
  let parameters :=
    match context !! "date" with
    | Some v => <["date" := v]> parameters
    | None => parameters
    end in
  <["query" := VStr user_request]> parameters.

(** The fallback of [_get_tool_actions_from_llm]: one action per tool of
    [recommended_tools[:3]], with priority [i + 1]. *)
Fixpoint fallback_actions (i : nat) (tools : list (BaseTool W * Q))
    (user_request : string) (context : gmap string Value) : list ToolAction :=
  match tools with
  | [] => []
  | (tool, _) :: rest =>
      {| action_tool_name := name (capabilities tool);
         action_parameters := _extract_basic_parameters user_request context;
         priority := Z.of_nat i + 1;
         depends_on := None |}
      :: fallback_actions (S i) rest user_request context
  end.

(** Whether [json.dumps] accepts the description of a tool in the
    planning prompt: its name, its description, its parameters and the
    confidence. *)
Definition capability_serializable (caps : ToolCapability) : bool :=
  forallb (fun parameter => json_serializable (snd parameter)) (parameters caps).

(** [_get_tool_actions_from_llm].  Here too the prompt, with [json.dumps]
    of the tool descriptions and of the context, is built before the
    [try]. *)
Definition _get_tool_actions_from_llm (user_request : string)
    (recommended_tools : list (BaseTool W * Q)) (context : gmap string Value)
    : M (Outcome (list ToolAction)) :=
  let tools_info :=
    List.map (fun entry => (capabilities (fst entry), snd entry)) recommended_tools in
  if forallb (fun entry => capability_serializable (fst entry)) tools_info
     && context_serializable context then
    emit PlanningAsked;;
    reply ← outside (llm_plan env user_request tools_info context);
    mret (Returned
           match reply with
           | Some response_text =>
               match extract_actions env response_text with
               | Some tool_actions => tool_actions
               | None => fallback_actions 0 (take 3 recommended_tools) user_request context
               end
           | None => fallback_actions 0 (take 3 recommended_tools) user_request context
           end)
  else mret (Raised TypeError_not_serializable).

(** The selector is built with its default [min_confidence = 0.1]. *)
Definition selector_min_confidence : Q := 0.1.

(** [_analyze_and_select_tools] *)
Definition _analyze_and_select_tools (user_request : string)
    (context : gmap string Value) : M (Outcome (list ToolAction)) :=
  match Selector.select_tools selector_min_confidence (tool_registry env)
          user_request context with
  | Raised e => mret (Raised e)
  | Returned [] => mret (Returned [])
  | Returned recommended_tools =>
      _get_tool_actions_from_llm user_request recommended_tools context
  end.

(** The [ToolResult] built in the [except] branch of [_execute_tools]. *)
Definition error_result (action : ToolAction) (e : PyException) : ToolResult :=
  {| tool_name := action_tool_name action;
     status := ERROR;
     data := None;
     error := Some (exn_message e);
     metadata := None |}.

(** [result.data] as stored in a context: [None] is a value too. *)
Definition data_value (result : ToolResult) : Value :=
  match data result with
  | Some v => v
  | None => VNone
  end.

Definition result_key (action : ToolAction) : string :=
  "tool_result_" +:+ action_tool_name action.

(** The [for action in sorted_actions] loop of [_execute_tools]. *)
Fixpoint run_actions (sorted_actions : list ToolAction) (results : list ToolResult)
    (context : gmap string Value) : M (list ToolResult * gmap string Value) :=
  match sorted_actions with
  | [] => mret (results, context)
  | action :: rest =>
      emit (ActionStarted action context);;
      match Registry.get_tool (action_tool_name action) (tool_registry env) with
      | None =>
          emit (ToolNotFound action);;
          run_actions rest results context
      | Some tool =>
          validated ← outside (validate_parameters tool (action_parameters action));
          match validated with
          | Raised e =>
              emit (ToolFailed action e);;
              run_actions rest (results ++ [error_result action e]) context
          | Returned validated_params =>
              emit (ToolExecuted action validated_params);;
              outcome ← outside (execute tool validated_params);
              match outcome with
              | Raised e =>
                  emit (ToolFailed action e);;
                  run_actions rest (results ++ [error_result action e]) context
              | Returned result =>
                  emit (ToolReturned action result);;
                  run_actions rest (results ++ [result])
                    (<[result_key action := data_value result]> context)
              end
          end
      end
  end.

(** [priority_before y x]: [y] has a strictly lower priority number. *)
Definition priority_before (y x : ToolAction) : bool :=
  (priority y <? priority x)%Z.

(** [_execute_tools]: the results and the context as the call leaves it.
    [sorted] and [get_tool] run outside the [try]; on actions of the
    declared types (integer priorities, string names) they do not raise. *)
Definition _execute_tools (tool_actions : list ToolAction)
    (context : gmap string Value) : M (list ToolResult * gmap string Value) :=
  let sorted_actions := PyList.stable_sort priority_before tool_actions in
  run_actions sorted_actions [] context.

(** [self.context_manager.update_context(context, tool_results)] *)
Definition manager_update (context : gmap string Value)
    (tool_results : list ToolResult) : M (Outcome unit) :=
  fun s =>
    let (outcome, m) :=
      update_context (format_value env) (manager s) (clock env (world s))
        context tool_results in
    (outcome, {| world := world s; manager := m; trace := trace s |}).

(** One entry of ["previous_results"]. *)
Definition previous_result (r : ToolResult) : Value :=
  VDict [("tool", VStr (tool_name r));
         ("status", VStr (status_value (status r)));
         ("has_data", VBool (truthy_opt (data r)))].

Definition max_iterations : nat := 3.

(** The [while iteration < max_iterations] loop of [process_request];
    [remaining] is [max_iterations - iteration].  The loop ends with the
    accumulated results and actions, or with the exception that escaped. *)
Fixpoint tool_loop (remaining : nat) (user_request : string)
    (context : gmap string Value)
    (all_tool_results : list ToolResult) (all_tool_actions : list ToolAction)
    : M (Outcome (list ToolResult * list ToolAction)) :=
  match remaining with
  | O => mret (Returned (all_tool_results, all_tool_actions))
  | S remaining' =>
      emit (IterationStarted (max_iterations - remaining'));;
      let current_context :=
        <["previous_results" := VList (List.map previous_result all_tool_results)]>
          context in
      selected ← _analyze_and_select_tools user_request current_context;
      match selected with
      | Raised e => mret (Raised e)
      | Returned [] => mret (Returned (all_tool_results, all_tool_actions))
      | Returned tool_actions =>
          executed ← _execute_tools tool_actions current_context;
          let tool_results := fst executed in
          let current_context := snd executed in
          let all_tool_results := all_tool_results ++ tool_results in
          let all_tool_actions := all_tool_actions ++ tool_actions in
          sufficient ←
            _has_sufficient_information user_request all_tool_results current_context;
          if (sufficient : bool)
          then mret (Returned (all_tool_results, all_tool_actions))
          else
            updated ← manager_update context tool_results;
            match updated with
            | Raised e => mret (Raised e)
            | Returned _ =>
                tool_loop remaining' user_request context
                  all_tool_results all_tool_actions
            end
      end
  end.

(** The reply built in the [except Exception] branch. *)
Definition error_reply (e : PyException) (context : gmap string Value) : M Reply :=
  clk ← read_clock env;
  mret {| response :=
           "I encountered an error while processing your request: " +:+ exn_message e;
         reply_status := "error";
         reply_tool_results := None;
         reply_tool_actions := None;
         reply_error := Some (exn_message e);
         reply_context := context;
         reply_timestamp := now_iso clk |}.

(** The two conversational replies. *)
Definition conversational_reply (status_label : string) (user_request : string)
    (context : gmap string Value) : M Reply :=
  text ← _generate_conversational_response user_request context;
  clk ← read_clock env;
  mret {| response := text;
         reply_status := status_label;
         reply_tool_results := Some [];
         reply_tool_actions := Some [];
         reply_error := None;
         reply_context := context;
         reply_timestamp := now_iso clk |}.

(** [additional_context or {}] *)
Definition or_empty (additional_context : option (gmap string Value))
    : gmap string Value :=
  match additional_context with
  | Some d => d
  | None => ∅
  end.

(** [self.context_manager.build_context(user_request=..., user_id=...,
    additional_context=additional_context or {})]: no [session_id] is
    passed, so the parameter keeps its default [None]. *)
Definition manager_build_context (clk : Clock) (user_request : string)
    (user_id : option string) (additional_context : option (gmap string Value))
    : M (gmap string Value) :=
  fun s =>
    (build_context (re_search env) (dateutil_parse env) (manager s) clk
       user_request user_id None (Some (or_empty additional_context)), s).

(** The end of [process_request], once the loop is over: the error reply
    when an exception escaped the loop, the conversational fallback when no
    tool was used at all, and otherwise the final response (Step 3) and the
    update of the context with all results (Step 4). *)
Definition conclude (user_request : string) (context : gmap string Value)
    (looped : Outcome (list ToolResult * list ToolAction)) : M Reply :=
  match looped with
  | Raised e => error_reply e context
  | Returned ([], _) =>
      conversational_reply "conversational_fallback" user_request context
  | Returned (all_tool_results, all_tool_actions) =>
      generated ← _generate_response user_request all_tool_results context;
      match generated with
      | Raised e => error_reply e context
      | Returned final_response =>
          updated ← manager_update context all_tool_results;
          match updated with
          | Raised e => error_reply e context
          | Returned _ =>
              clk ← read_clock env;
              mret {| response := final_response;
                      reply_status := "success";
                      reply_tool_results := Some all_tool_results;
                      reply_tool_actions := Some all_tool_actions;
                      reply_error := None;
                      reply_context := context;
                      reply_timestamp := now_iso clk |}
          end
      end
  end.

(** [process_request] *)
Definition process_request (user_request : string) (user_id : option string)
    (additional_context : option (gmap string Value)) : M Reply :=
  clk ← read_clock env;
  context ← manager_build_context clk user_request user_id additional_context;
  if _is_conversational_request user_request then
    conversational_reply "conversational" user_request context
  else
    looped ← tool_loop max_iterations user_request context [] [];
    conclude user_request context looped.

End Agent.
Arguments Environment W : clear implicits.
Arguments RunState W : clear implicits.
Arguments M W A : clear implicits.
End Agent.

(* ===================================================================== *)
(** ** Reading a trace *)
(* ===================================================================== *)

Module Observations.
Import Tools Agent.

(** The actions whose loop body was entered, with the context each saw. *)
Fixpoint started (evs : list Event) : list (ToolAction * gmap string Value) :=
  match evs with
  | [] => []
  | ActionStarted a c :: rest => (a, c) :: started rest
  | _ :: rest => started rest
  end.

(** The results the executor appends: a returned result, or the error
    result built for a failure. *)
Fixpoint produced (evs : list Event) : list ToolResult :=
  match evs with
  | [] => []
  | ToolReturned _ r :: rest => r :: produced rest
  | ToolFailed a e :: rest => error_result a e :: produced rest
  | _ :: rest => produced rest
  end.

(** The actions skipped because their tool is not registered. *)
Fixpoint skipped (evs : list Event) : list ToolAction :=
  match evs with
  | [] => []
  | ToolNotFound a :: rest => a :: skipped rest
  | _ :: rest => skipped rest
  end.

Section Ranking.
Context {W : Type}.

(** Every registered tool with its score, in registration order. *)
Definition scored (reg : Registry.ToolRegistry W) (intent : string)
    (context : gmap string Value) : list (BaseTool W * Q) :=
  List.map (fun tool => (tool, should_use tool intent context)) (List.map snd reg).

(** The entries a ranking must return: enabled, and at or above the
    threshold. *)
Definition qualifies (min_confidence : Q) (e : BaseTool W * Q) : bool :=
  enabled (fst e) && Qle_bool min_confidence (snd e).

(** The entries whose score equals [q]. *)
Definition scores (q : Q) (e : BaseTool W * Q) : bool := Qeq_bool (snd e) q.

End Ranking.

(** The context keys under which [build_context] copies session state. *)
Definition session_keys : list string :=
  ["conversation_history"; "recent_tool_usage"; "user_preferences"].

(** The contexts [update_context] folds into the session state without
    raising: a hashable [session_id] (or none), iterable [data_types] (or
    none), and the [timestamp] and [user_request] entries. *)
Definition foldable (context : gmap string Value) : bool :=
  match context !! "session_id" with
  | Some v => ContextManager.hashable v
  | None => true
  end
  && match context !! "data_types" with
     | Some (VList _ | VStr _ | VDict _) | None => true
     | Some _ => false
     end
  && has_key "timestamp" context
  && has_key "user_request" context.

(** The bounds a session is meant to respect for a history cap [cap]. *)
Definition session_bounded (cap : Z) (sc : ContextManager.SessionContext) : Prop :=
  (Z.of_nat (length (ContextManager.history sc)) <= cap)%Z /\
  (length (ContextManager.recent_tools sc) <= 10)%nat /\
  NoDup (ContextManager.recent_tools sc).

(** The bounds on recent tools alone. *)
Definition recent_bounded (sc : ContextManager.SessionContext) : Prop :=
  (length (ContextManager.recent_tools sc) <= 10)%nat /\
  NoDup (ContextManager.recent_tools sc).

Definition manager_bounded (m : ContextManager.Manager) : Prop :=
  Forall (fun entry => session_bounded (ContextManager.max_history_size m) (snd entry))
         (ContextManager.session_contexts m).

Definition manager_recent_bounded (m : ContextManager.Manager) : Prop :=
  Forall (fun entry => recent_bounded (snd entry)) (ContextManager.session_contexts m).

(** One call of [update_context]: the clock reading, the context and the
    results it is given. *)
Record Call : Type := {
  call_clock : ContextManager.Clock;
  call_context : gmap string Value;
  call_results : list ToolResult
}.

(** The manager after a sequence of [update_context] calls, whether they
    return or raise. *)
Definition after_calls (format_value : Value -> string)
    (m : ContextManager.Manager) (calls : list Call) : ContextManager.Manager :=
  fold_left
    (fun m c =>
       snd (ContextManager.update_context format_value m
              (call_clock c) (call_context c) (call_results c)))
    calls m.

Section States.
Context {W : Type}.

(** The state once the outside world has moved to [w] and the events [evs]
    have been logged. *)
Definition advance (s : RunState W) (w : W) (evs : list Event) : RunState W :=
  {| world := w; manager := manager s; trace := trace s ++ evs |}.

(** Whether the registry of [env] has a tool for the action. *)
Definition known (env : Environment W) (a : ToolAction) : bool :=
  match Registry.get_tool (action_tool_name a) (tool_registry env) with
  | Some _ => true
  | None => false
  end.

End States.

(** The number of loop iterations started. *)
Fixpoint iterations (evs : list Event) : nat :=
  match evs with
  | [] => 0
  | IterationStarted _ :: rest => S (iterations rest)
  | _ :: rest => iterations rest
  end.


(** What comes right after a result [r] returned for action [a]: either the
    next action starts, and the context it sees holds [r]'s data under
    [tool_result_<name>], or the executor is done and hands back such a
    context. *)
Definition handed_over (a : ToolAction) (r : ToolResult) (after : list Event)
    (final : gmap string Value) : Prop :=
  match after with
  | [] => final !! result_key a = Some (data_value r)
  | ActionStarted _ c :: _ => c !! result_key a = Some (data_value r)
  | _ :: _ => False
  end.

(** Every returned result of the trace is handed over. *)
Fixpoint all_handed_over (evs : list Event) (final : gmap string Value) : Prop :=
  match evs with
  | [] => True
  | ToolReturned a r :: rest => handed_over a r rest final /\ all_handed_over rest final
  | _ :: rest => all_handed_over rest final
  end.

Section Runs.
Context {W : Type}.

(** What one run of the loop over [acts] leaves behind. *)
Definition run_spec (env : Environment W)
    (acts : list ToolAction) (results : list ToolResult)
    (ctx : gmap string Value) (s : RunState W)
    (out : list ToolResult * gmap string Value * RunState W) (evs : list Event) : Prop :=
  trace (snd out) = trace s ++ evs /\
  manager (snd out) = manager s /\
  List.map fst (started evs) = acts /\
  match acts with
  | [] => evs = [] /\ snd (fst out) = ctx
  | a :: _ => exists tl, evs = ActionStarted a ctx :: tl
  end /\
  fst (fst out) = results ++ produced evs /\
  skipped evs = List.filter (fun a => negb (known env a)) acts /\
  all_handed_over evs (snd (fst out)) /\
  length acts = (length (produced evs) + length (skipped evs))%nat /\
  iterations evs = 0%nat.


End Runs.

End Observations.

(* ===================================================================== *)
(** ** The scoring rule in the words of the specification *)
(* ===================================================================== *)

Module ScoringSpec.
Import Tools.

(** [clamp(x, lo, hi)] *)
Definition clamp (x lo hi : Q) : Q :=
  if Qle_bool lo x then (if Qle_bool x hi then x else hi) else lo.

(** The number of prerequisite keys absent from the context. *)
Definition missing_prerequisites (caps : ToolCapability)
    (context : gmap string Value) : nat :=
  length (List.filter (fun prereq => negb (has_key prereq context)) (prerequisites caps)).

(** The number of phrases that are substrings of [text], the phrases taken
    as they are written. *)
Definition literal_matches (phrases : list string) (text : string) : nat :=
  length (List.filter (fun p => PyStr.contains p text) phrases).

(** The number of phrases whose lower-cased form is a substring of [text]. *)
Definition lowered_matches (phrases : list string) (text : string) : nat :=
  length (List.filter (fun p => PyStr.contains (PyStr.lower p) text) phrases).

(** The score with [U] and [K] counted by [matches]. *)
Definition score_with (matches : list string -> string -> nat)
    (caps : ToolCapability) (intent : string) (context : gmap string Value) : Q :=
  let U := matches (use_cases caps) (PyStr.lower intent) in
  let K := matches (confidence_keywords caps) (PyStr.lower intent) in
  let T := (length (use_cases caps) + length (confidence_keywords caps))%nat in
  let base := if (T =? 0)%nat then 0.1%Q else (Qnat (U + K) / Qnat T)%Q in
  clamp (base - 0.2 * Qnat (missing_prerequisites caps context))%Q 0 1.

(** The score as the specification words it: phrases matched literally. *)
Definition claimed_score := score_with literal_matches.

(** The score with the phrases lower-cased before matching. *)
Definition lowered_score := score_with lowered_matches.


Definition double_penalty (missing : nat) : float :=
  Nat.iter missing (fun acc => acc + Binary64.point_two)%float 0%float.



End ScoringSpec.

(* ===================================================================== *)
(** ** Concrete tools, registries and environments *)
(* ===================================================================== *)

Module Scenarios.
Import Tools ContextManager Agent.

(** [BaseTool.validate_parameters] returns its keyword arguments. *)
Definition accept_parameters (kwargs : gmap string Value) (w : unit)
    : Outcome (gmap string Value) * unit :=
  (Returned kwargs, w).

Definition success_result (n : string) : ToolResult :=
  {| tool_name := n;
     status := SUCCESS;
     data := Some (VDict [("rows", VInt 1)]);
     error := None;
     metadata := None |}.

(** [MCPDatabaseTool(config={"enabled": False})] *)
Definition disabled_mcp_tool : BaseTool unit :=
  {| tool_class := MCPDatabaseTool;
     enabled := false;
     is_configured := false;
     capabilities := mcp_capabilities;
     validate_parameters := accept_parameters;
     execute := fun _ w => (Returned (success_result "database_query"), w) |}.

(** [SnowflakeTool()] with a warehouse that answers every query. *)
Definition snowflake_tool : BaseTool unit :=
  {| tool_class := SnowflakeTool;
     enabled := true;
     is_configured := false;
     capabilities := snowflake_capabilities;
     validate_parameters := accept_parameters;
     execute := fun _ w => (Returned (success_result "snowflake_query"), w) |}.

(** A tool whose [execute] raises an exception created without a message,
    such as [TimeoutError()]. *)
Definition silent_failure : PyException := {| exn_message := "" |}.

Definition timing_out_tool : BaseTool unit :=
  {| tool_class := SnowflakeTool;
     enabled := true;
     is_configured := false;
     capabilities := snowflake_capabilities;
     validate_parameters := accept_parameters;
     execute := fun _ w => (Raised silent_failure, w) |}.

Definition query_action (n : string) (p : Z) : ToolAction :=
  {| action_tool_name := n;
     action_parameters := {[ "query" := VStr "select 1" ]};
     priority := p;
     depends_on := None |}.

Definition noon : Clock :=
  {| now_iso := "2024-05-02T12:00:00";
     today := "2024-05-02";
     yesterday := "2024-05-01";
     tomorrow := "2024-05-03";
     a_week_ago := "2024-04-25";
     in_a_week := "2024-05-09" |}.

(** An environment whose planner always asks for one Snowflake query and
    whose sufficiency judge always answers NO. *)
Definition insistent_env (reg : Registry.ToolRegistry unit) : Environment unit :=
  {| tool_registry := reg;
     clock := fun _ => noon;
     llm_plan := fun _ _ _ w => (Some "[...]", w);
     llm_sufficiency := fun _ _ w => (Some "NO", w);
     llm_synthesis := fun _ _ _ w => (Some "Here is what I found.", w);
     llm_conversation := fun _ w => (Some "Hello!", w);
     extract_actions := fun _ => Some [query_action "snowflake_query" 1];
     re_search := fun _ _ => None;
     dateutil_parse := fun _ => None;
     format_value := fun _ => "" |}.

Definition snowflake_registry : Registry.ToolRegistry unit :=
  Registry.register_tool snowflake_tool [].

Definition failing_registry : Registry.ToolRegistry unit :=
  Registry.register_tool timing_out_tool [].

Definition initial_state (m : Manager) : RunState unit :=
  {| world := tt; manager := m; trace := [] |}.

(** A manager asked to keep no history at all. *)
Definition forgetful_manager : Manager := new_manager 0.

(** A context as [build_context] makes it for a request without entities. *)
Definition plain_context (request : string) : gmap string Value :=
  build_context (fun _ _ => None) (fun _ => None) (new_manager default_max_history_size)
    noon request None None None.

(** A data request that no conversational rule catches. *)
Definition table_request : string := "show data tables".


Definition table_env : Environment unit := insistent_env snowflake_registry.

Definition fresh_state : RunState unit :=
  initial_state (new_manager default_max_history_size).

(** [update_context(context, [])] for a plain request. *)
Definition plain_call : Observations.Call :=
  {| Observations.call_clock := noon;
     Observations.call_context := plain_context "list the tables";
     Observations.call_results := [] |}.

End Scenarios.

(* ===================================================================== *)
(** ** More of the registry, the context manager and the MCP database tool *)
(* ===================================================================== *)

Module RegistryOps.
Import Tools Registry.

Section RegistryOps.
Context {W : Type}.

(** [ToolRegistry.__len__] *)
Definition registry_len (reg : ToolRegistry W) : nat := length reg.

(** [ToolRegistry.__contains__] *)
Definition registry_contains (tool_name : string) (reg : ToolRegistry W) : bool :=
  match get_tool tool_name reg with
  | Some _ => true
  | None => false
  end.

(** [ToolRegistry.__getitem__]: a missing name is a [KeyError]. *)
Definition registry_getitem (tool_name : string) (reg : ToolRegistry W)
    : Outcome (BaseTool W) :=
  match get_tool tool_name reg with
  | Some tool => Returned tool
  | None => Raised (KeyError tool_name)
  end.

(** Whether a tool declares the name [n]. *)
Definition tool_named (n : string) (tool : BaseTool W) : bool :=
  String.eqb (name (capabilities tool)) n.

(** The registry after [register_tool] has been called on each tool of
    [tools] in turn, starting from an empty registry. *)
Definition registered (tools : list (BaseTool W)) : ToolRegistry W :=
  fold_left (fun reg tool => register_tool tool reg) tools [].

End RegistryOps.

(** The names of a list in the order of their first occurrence. *)
Definition first_seen (names : list string) : list string :=
  fold_left (fun acc n => if PyList.str_mem n acc then acc else acc ++ [n]) names [].

End RegistryOps.

Module ContextOps.
Import Tools ContextManager.

(** [del d[k]]: a dictionary holds one entry per key, and that entry goes. *)
Definition assoc_del {V : Type} (k : Value) (d : list (Value * V)) : list (Value * V) :=
  List.filter (fun entry => negb (key_eqb (fst entry) k)) d.

(** [get_session_context] *)
Definition get_session_context (m : Manager) (session_id : string) : option SessionContext :=
  get_session (VStr session_id) (session_contexts m).

(** [clear_session_context] *)
Definition clear_session_context (m : Manager) (session_id : string) : Manager :=
  match get_session (VStr session_id) (session_contexts m) with
  | Some _ =>
      {| max_history_size := max_history_size m;
         session_contexts := assoc_del (VStr session_id) (session_contexts m) |}
  | None => m
  end.

(** [get_user_preferences]: the empty dictionary for an unknown session. *)
Definition get_user_preferences (m : Manager) (session_id : string) : Preferences :=
  match get_session (VStr session_id) (session_contexts m) with
  | Some session_context => preferences session_context
  | None => {| requested := []; tool_combinations := None |}
  end.

(** [d.get(key, 0)] *)
Definition counter (key : string) (d : list (string * Z)) : Z :=
  match PyList.assoc_get String.eqb key d with
  | Some n => n
  | None => 0
  end.

(** [preferences.get(f"requested_{data_type}", 0)] *)
Definition requested_count (prefs : Preferences) (data_type : string) : Z :=
  match PyList.assoc_get String.eqb ("requested_" +:+ data_type) (requested prefs) with
  | Some n => n
  | None => 0
  end.


(** [context.get("session_id", "default")] *)
Definition session_of (context : gmap string Value) : Value :=
  match context !! "session_id" with
  | Some v => v
  | None => VStr "default"
  end.

(** The history entry [update_context] writes for a context and a batch. *)
Definition entry_of (timestamp user_request : Value) (tool_results : list ToolResult)
    : HistoryEntry :=
  {| he_timestamp := timestamp;
     he_user_request := user_request;
     he_tool_results := List.map summarize tool_results |}.

(** The labels of the topic vocabulary. *)
Definition data_type_labels : list string := List.map fst data_type_keywords.

(** An additional context that leaves alone the entries [update_context]
    relies on. *)
Definition untouched (additional_context : option (gmap string Value)) : Prop :=
  forall extra, additional_context = Some extra ->
    Forall (fun k => extra !! k = None)
           ["session_id"; "data_types"; "timestamp"; "user_request"].

End ContextOps.

Module MCPDatabase.
Import Tools.

(** The keys of [MCPDatabaseTool.predefined_queries]; the SQL text each
    one stands for is left out. *)
Definition predefined_queries : list string :=
  ["user_activity"; "user_weekly_summary"; "user_preferences"; "user_historical_trends"].

(** The character class [[a-zA-Z0-9_@.-]]. *)
Definition safe_char (c : ascii) : bool :=
  let n := nat_of_ascii c in
  ((97 <=? n)%nat && (n <=? 122)%nat)
  || ((65 <=? n)%nat && (n <=? 90)%nat)
  || ((48 <=? n)%nat && (n <=? 57)%nat)
  || (n =? 95)%nat || (n =? 64)%nat || (n =? 46)%nat || (n =? 45)%nat.

(** [re.match(r'^[a-zA-Z0-9_@.-]+$', s)]: one or more characters of the
    class, up to the end of the string or up to the line feed that ends
    it (where [$] also matches). *)
Fixpoint matches_safe (s : string) : bool :=
  match s with
  | EmptyString => false
  | String c rest =>
      safe_char c &&
      match rest with
      | EmptyString => true
      | String "010"%char EmptyString => true
      | _ => matches_safe rest
      end
  end.

(** [str(z)] *)
Definition str_of_Z (z : Z) : string := NilZero.string_of_int (Z.to_int z).

(** [str(user_id)] for the values whose text can match the pattern; the
    text of a list or of a dictionary opens with a bracket and the text
    of a datetime has a blank in it, which the pattern refuses. *)
Definition user_id_text (v : Value) : option string :=
  match v with
  | VStr s => Some s
  | VInt z => Some (str_of_Z z)
  | VBool b => Some (if b then "True" else "False")
  | VNone => Some "None"
  | VList _ | VDict _ | VDatetime _ => None
  end.

Definition ValueError (message : string) : PyException := {| exn_message := message |}.
Definition TypeError_strptime : PyException :=
  {| exn_message := "strptime() argument 1 must be str" |}.

Section MCPDatabase.
Context {W : Type}.
(** [str(v)] as used by an f-string. *)
Variable format_value : Value -> string.
(** Whether [datetime.strptime(s, "%Y-%m-%d")] returns. *)
Variable strptime_ok : string -> bool.
(** [_execute_query] for the query of a type, a user id and a date: the
    rows, or the exception the database layer raises. *)
Variable run_query : string -> Value -> Value -> W -> Outcome (list Value) * W.

Definition text_of (v : Value) : string :=
  match v with
  | VStr s => s
  | _ => format_value v
  end.

(** The [user_id] step of [validate_parameters]. *)
Definition validate_user_id (kwargs validated : gmap string Value)
    : Outcome (gmap string Value) :=
  match kwargs !! "user_id" with
  | Some user_id =>
      if truthy user_id then
        match user_id_text user_id with
        | Some text =>
            if matches_safe text then Returned (<["user_id" := VStr text]> validated)
            else Raised (ValueError ("Invalid user_id format: " +:+ text_of user_id))
        | None => Raised (ValueError ("Invalid user_id format: " +:+ text_of user_id))
        end
      else Returned validated
  | None => Returned validated
  end.

(** The [date] step: [strptime] wants a string and raises a [TypeError],
    which the [except ValueError] around it lets through, otherwise. *)
Definition validate_date (kwargs validated : gmap string Value)
    : Outcome (gmap string Value) :=
  match kwargs !! "date" with
  | Some date =>
      if truthy date then
        match date with
        | VStr s =>
            if strptime_ok s then Returned (<["date" := date]> validated)
            else Raised (ValueError
                           ("Invalid date format: " +:+ s +:+ ". Expected YYYY-MM-DD"))
        | _ => Raised TypeError_strptime
        end
      else Returned validated
  | None => Returned validated
  end.

(** [kwargs.get("query_type", "user_activity")] *)
Definition query_type_of (kwargs : gmap string Value) : Value :=
  match kwargs !! "query_type" with
  | Some v => v
  | None => VStr "user_activity"
  end.

(** The [query_type] step. *)
Definition validate_query_type (kwargs validated : gmap string Value)
    : Outcome (gmap string Value) :=
  match query_type_of kwargs with
  | VStr q =>
      if PyList.str_mem q predefined_queries
      then Returned (<["query_type" := VStr q]> validated)
      else Raised (ValueError ("Invalid query_type: " +:+ q))
  | (VList _ | VDict _) => Raised TypeError_unhashable
  | v => Raised (ValueError ("Invalid query_type: " +:+ format_value v))
  end.

(** [MCPDatabaseTool.validate_parameters] *)
Definition MCP_validate_parameters (kwargs : gmap string Value)
    : Outcome (gmap string Value) :=
  obind (validate_user_id kwargs ∅) (fun validated =>
  obind (validate_date kwargs validated) (fun validated =>
  validate_query_type kwargs validated)).

Definition mcp_error (message : string) : ToolResult :=
  {| tool_name := name mcp_capabilities;
     status := ERROR;
     data := None;
     error := Some message;
     metadata := None |}.

Definition mcp_success (query_type : string) (user_id date : Value) (rows : list Value)
    : ToolResult :=
  {| tool_name := name mcp_capabilities;
     status := SUCCESS;
     data := Some (VDict [("query_type", VStr query_type);
                          ("user_id", user_id);
                          ("date", date);
                          ("results", VList rows);
                          ("record_count", VInt (Z.of_nat (length rows)))]);
     error := None;
     metadata := Some (VDict [("query_executed", VStr query_type);
                              ("parameters_used",
                               VDict [("user_id", user_id); ("date", date)])]) |}.

(** [MCPDatabaseTool.execute] for a tool whose [_initialized] flag is
    [initialized].  Everything raised inside its [try] block comes back as
    an error result. *)
Definition MCP_execute (initialized : bool) (kwargs : gmap string Value) (w : W)
    : Outcome ToolResult * W :=
  if negb initialized then (Returned (mcp_error "Tool not initialized"), w)
  else if negb (truthy_opt (kwargs !! "user_id"))
  then (Returned (mcp_error "user_id parameter is required"), w)
  else if negb (truthy_opt (kwargs !! "date"))
  then (Returned (mcp_error "date parameter is required"), w)
  else
    let user_id := match kwargs !! "user_id" with Some v => v | None => VNone end in
    let date := match kwargs !! "date" with Some v => v | None => VNone end in
    match query_type_of kwargs with
    | VStr q =>
        if PyList.str_mem q predefined_queries then
          let (rows, w') := run_query q user_id date w in
          match rows with
          | Returned result_data => (Returned (mcp_success q user_id date result_data), w')
          | Raised e => (Returned (mcp_error (exn_message e)), w')
          end
        else (Returned (mcp_error ("Unknown query type: " +:+ q)), w)
    | (VList _ | VDict _) => (Returned (mcp_error (exn_message TypeError_unhashable)), w)
    | v => (Returned (mcp_error ("Unknown query type: " +:+ format_value v)), w)
    end.

(** An [MCPDatabaseTool] instance. *)
Definition mcp_tool (is_enabled initialized : bool) : BaseTool W :=
  {| tool_class := MCPDatabaseTool;
     enabled := is_enabled;
     is_configured := false;
     capabilities := mcp_capabilities;
     validate_parameters := fun kwargs w => (MCP_validate_parameters kwargs, w);
     execute := MCP_execute initialized |}.

End MCPDatabase.
End MCPDatabase.

Module MoreScenarios.
Import Tools ContextManager Agent Scenarios.

(** An environment whose language-model backend is out of reach: every
    call to it fails. *)
Definition offline_env (reg : Registry.ToolRegistry unit) : Environment unit :=
  {| tool_registry := reg;
     clock := fun _ => noon;
     llm_plan := fun _ _ _ w => (None, w);
     llm_sufficiency := fun _ _ w => (None, w);
     llm_synthesis := fun _ _ _ w => (None, w);
     llm_conversation := fun _ w => (None, w);
     extract_actions := fun _ => None;
     re_search := fun _ _ => None;
     dateutil_parse := fun _ => None;
     format_value := fun _ => "" |}.

(** A database that has no rows for any query. *)
Definition empty_database (query_type : string) (user_id date : Value) (w : unit)
    : Outcome (list Value) * unit :=
  (Returned [], w).

(** A stand-in for [strptime] that knows one day. *)
Definition one_day (s : string) : bool := String.eqb s "2024-05-02".

(** An enabled and initialized [MCPDatabaseTool]. *)
Definition mcp_ready : BaseTool unit :=
  MCPDatabase.mcp_tool (fun _ => "") one_day empty_database true true.

(** The keyword arguments of a call as the fallback plan makes it, with a
    numeric user id. *)
Definition activity_kwargs : gmap string Value :=
  {[ "user_id" := VInt 42; "date" := VStr "2024-05-02"; "query" := VStr "my activity" ]}.

(** A context that names the session "alice". *)
Definition alice_context : gmap string Value :=
  <["session_id" := VStr "alice"]> (plain_context "list the tables").

(** A manager that has seen one request of the session "alice". *)
Definition alice_manager : Manager :=
  snd (update_context (fun _ => "") (new_manager default_max_history_size) noon
         alice_context [success_result "snowflake_query"]).

End MoreScenarios.

(* ===================================================================== *)
(** * Properties *)
(* ===================================================================== *)

(** ** Applicability scores *)

Module ScoringFacts.
Import Tools ScoringSpec Scenarios.

Lemma Qnat_S (n : nat) : (Qnat (S n) == Qnat n + 1)%Q.
Proof.
  unfold Qnat. rewrite Nat2Z.inj_succ, <- Z.add_1_r, inject_Z_plus. reflexivity.
Qed.

Lemma py_max_zero (x : Q) :
  ((0 < x)%Q /\ py_max 0 x = x) \/ ((x <= 0)%Q /\ py_max 0 x = 0%Q).
Proof.
  unfold py_max. destruct (Qcompare_spec x 0) as [E | L | G].
  - right. split; [rewrite E; apply Qle_refl | reflexivity].
  - right. split; [apply Qlt_le_weak, L | reflexivity].
  - left. split; [exact G | reflexivity].
Qed.

Lemma py_min_one (x : Q) :
  ((x < 1)%Q /\ py_min 1 x = x) \/ ((1 <= x)%Q /\ py_min 1 x = 1%Q).
Proof.
  unfold py_min. destruct (Qcompare_spec x 1) as [E | L | G].
  - right. split; [rewrite E; apply Qle_refl | reflexivity].
  - left. split; [exact L | reflexivity].
  - right. split; [apply Qlt_le_weak, G | reflexivity].
Qed.

(** [min(1.0, max(0, x))] is the clamp of [x] to the unit interval. *)
Lemma min_max_is_clamp (x y : Q) :
  (x == y)%Q -> (py_min 1 (py_max 0 x) == clamp y 0 1)%Q.
Proof.
  intros E. unfold clamp.
  destruct (Qle_bool 0 y) eqn:H0.
  - apply Qle_bool_iff in H0.
    destruct (Qle_bool y 1) eqn:H1.
    + apply Qle_bool_iff in H1.
      destruct (py_max_zero x) as [[Hx ->] | [Hx ->]].
      * destruct (py_min_one x) as [[Hy ->] | [Hy ->]]; lra.
      * destruct (py_min_one 0) as [[Hy ->] | [Hy ->]]; lra.
    + assert (1 < y)%Q as H1'.
      { apply Qnot_le_lt. intros C. apply Qle_bool_iff in C. congruence. }
      destruct (py_max_zero x) as [[Hx ->] | [Hx ->]].
      * destruct (py_min_one x) as [[Hy ->] | [Hy ->]]; lra.
      * lra.
  - assert (y < 0)%Q as H0'.
    { apply Qnot_le_lt. intros C. apply Qle_bool_iff in C. congruence. }
    destruct (py_max_zero x) as [[Hx ->] | [Hx ->]].
    + lra.
    + destruct (py_min_one 0) as [[Hy ->] | [Hy ->]]; lra.
Qed.

(** The penalty loop adds 0.2 once per absent prerequisite. *)
Lemma prereq_penalty_from (prereqs : list string) (context : gmap string Value) (acc : Q) :
  (fold_left (fun a prereq => if has_key prereq context then a else (a + 0.2)%Q) prereqs acc
   == acc + 0.2 * Qnat (length (List.filter (fun p => negb (has_key p context)) prereqs)))%Q.
Proof.
  revert acc. induction prereqs as [| p rest IH]; intros acc.
  - cbn [fold_left List.filter length]. change (Qnat 0) with 0%Q. lra.
  - cbn [fold_left List.filter]. rewrite IH.
    destruct (has_key p context); cbn [negb length].
    + reflexivity.
    + rewrite Qnat_S. lra.
Qed.

Lemma prereq_penalty_count {W} (t : BaseTool W) (context : gmap string Value) :
  (prereq_penalty (prerequisites (capabilities t)) context
   == 0.2 * Qnat (missing_prerequisites (capabilities t) context))%Q.
Proof.
  unfold prereq_penalty, missing_prerequisites.
  rewrite prereq_penalty_from. lra.
Qed.

(** The guard of the base scorer: a disabled tool scores 0. *)
Lemma BaseTool_should_use_disabled {W} (t : BaseTool W) intent context :
  enabled t = false -> BaseTool_should_use t intent context = 0%Q.
Proof. intros H. unfold BaseTool_should_use. rewrite H. reflexivity. Qed.

(** The base scorer stays within the unit interval. *)
Lemma BaseTool_should_use_bounds {W} (t : BaseTool W) intent context :
  (0 <= BaseTool_should_use t intent context <= 1)%Q.
Proof.
  unfold BaseTool_should_use. destruct (enabled t); simpl; [| lra].
  match goal with |- context [py_max 0 ?x] => set (v := x) end.
  destruct (py_max_zero v) as [[Hx ->] | [Hx ->]].
  - destruct (py_min_one v) as [[Hy ->] | [Hy ->]]; lra.
  - destruct (py_min_one 0) as [[Hy ->] | [Hy ->]]; lra.
Qed.

Example warehouse_request_selects_snowflake :
  (should_use snowflake_tool "show me tables available in the warehouse" ∅ == 5 # 31)%Q /\
  Qle_bool 0.1 (should_use snowflake_tool "show me tables available in the warehouse" ∅)
  = true.
Proof. split; reflexivity. Qed.

(** C1 (the code departs from the claim).  [MCPDatabaseTool.should_use] calls
    the base scorer, which returns 0 for a disabled tool, and then adds its
    keyword boost to that 0: the disabled tool
    [MCPDatabaseTool(config={"enabled": False})] scores 1/15 on the intent
    "user data" with an empty context, not 0.0. *)
Theorem disabled_mcp_tool_scores_above_zero :
  enabled disabled_mcp_tool = false /\
  (BaseTool_should_use disabled_mcp_tool "user data" ∅ == 0)%Q /\
  (should_use disabled_mcp_tool "user data" ∅ == 1 # 15)%Q /\
  ~ (should_use disabled_mcp_tool "user data" ∅ == 0)%Q.
Proof.
  split; [reflexivity |].
  split; [reflexivity |].
  split; [reflexivity |].
  vm_compute. discriminate.
Qed.



Example double_penalty_is_not_product :
  (double_penalty 6 <? Binary64.point_two * Binary64.float_of_nat 6)%float = true.
Proof. reflexivity. Qed.

(** The rational score and the score the interpreter computes part ways
    in the last place: three matches out of ten less one penalty is
    0.09999999999999998 as a float, and 1/10 as a rational. *)
Example rounding_shows_in_the_score :
  (Binary64.float_of_nat 3 / Binary64.float_of_nat 10 - Binary64.point_two
   <? Binary64.point_one)%float = true /\
  (Qnat 3 / Qnat 10 - 0.2 == 0.1)%Q.
Proof. split; reflexivity. Qed.

(** The same rule on exact rationals. *)
Lemma rational_score_lowered_phrases {W} (t : BaseTool W) intent context :
  enabled t = true ->
  (BaseTool_should_use t intent context
   == lowered_score (capabilities t) intent context)%Q.
Proof.
  intros H. unfold BaseTool_should_use, lowered_score, score_with. rewrite H. simpl.
  apply min_max_is_clamp.
  rewrite prereq_penalty_count.
  unfold count_matches, lowered_matches. reflexivity.
Qed.




End ScoringFacts.

(** ** The stable sort *)

Module SortFacts.
Import PyList.

Section Sort.
Context {A : Type} (before : A -> A -> bool).

Lemma insert_sorted_perm (x : A) (l : list A) :
  Permutation (x :: l) (insert_sorted before x l).
Proof.
  induction l as [| y l IH]; simpl.
  - apply Permutation_refl.
  - destruct (before y x).
    + eapply Permutation_trans; [apply perm_swap |].
      apply perm_skip, IH.
    + apply Permutation_refl.
Qed.

Lemma stable_sort_perm (l : list A) : Permutation l (stable_sort before l).
Proof.
  induction l as [| x l IH]; simpl.
  - apply perm_nil.
  - eapply Permutation_trans; [apply perm_skip, IH |].
    apply insert_sorted_perm.
Qed.

Hypothesis before_asym : forall a b, before a b = true -> before b a = false.
Hypothesis in_order_trans :
  forall a b c, in_order before a b -> in_order before b c -> in_order before a c.

Lemma insert_sorted_sorted (x : A) (l : list A) :
  StronglySorted (in_order before) l ->
  StronglySorted (in_order before) (insert_sorted before x l).
Proof.
  induction l as [| y l IH]; simpl; intros Hs.
  - constructor; [constructor | constructor].
  - apply StronglySorted_inv in Hs as [Hs Hy].
    destruct (before y x) eqn:E.
    + constructor; [apply IH, Hs |].
      eapply Permutation_Forall; [apply insert_sorted_perm |].
      constructor; [| exact Hy].
      unfold in_order. apply before_asym, E.
    + constructor; [constructor; assumption |].
      constructor; [exact E |].
      eapply Forall_impl; [exact Hy |].
      intros z Hz. eapply in_order_trans; [exact E | exact Hz].
Qed.

Lemma stable_sort_sorted (l : list A) :
  StronglySorted (in_order before) (stable_sort before l).
Proof.
  induction l as [| x l IH]; simpl.
  - constructor.
  - apply insert_sorted_sorted, IH.
Qed.

End Sort.

Lemma StronglySorted_weaken {A : Type} (R R' : A -> A -> Prop) (l : list A) :
  (forall a b, R a b -> R' a b) -> StronglySorted R l -> StronglySorted R' l.
Proof.
  intros Himp Hs. induction Hs as [| x l Hs IH Hx]; constructor.
  - exact IH.
  - eapply Forall_impl; [exact Hx |]. intros z. apply Himp.
Qed.

Section Stable.
Context {A : Type} (before : A -> A -> bool) (P : A -> bool).
(** The elements selected by [P] are tied: none is strictly ahead of
    another. *)
Hypothesis tied : forall a b, P a = true -> P b = true -> before a b = false.

Lemma insert_sorted_filter (x : A) (l : list A) :
  List.filter P (insert_sorted before x l) = List.filter P (x :: l).
Proof.
  induction l as [| y l IH]; simpl.
  - reflexivity.
  - destruct (before y x) eqn:E; simpl.
    + simpl in IH. rewrite IH.
      destruct (P x) eqn:Px, (P y) eqn:Py; try reflexivity.
      rewrite (tied y x Py Px) in E. discriminate.
    + reflexivity.
Qed.

(** Stability: the tied elements keep the order they had in the input. *)
Lemma stable_sort_filter (l : list A) :
  List.filter P (stable_sort before l) = List.filter P l.
Proof.
  induction l as [| x l IH]; simpl.
  - reflexivity.
  - rewrite insert_sorted_filter. simpl. rewrite IH. reflexivity.
Qed.

End Stable.

Example stable_sort_keeps_ties :
  stable_sort (fun y x => (fst y <? fst x)%Z) [(2, "a"); (1, "b"); (2, "c"); (1, "d")]%Z
  = [(1, "b"); (1, "d"); (2, "a"); (2, "c")]%Z.
Proof. reflexivity. Qed.

Example slice_keeps_the_last : slice_from_neg 2 [1; 2; 3]%nat = [2; 3]%nat.
Proof. reflexivity. Qed.

Example slice_of_a_short_list : slice_from_neg 10 [1; 2; 3]%nat = [1; 2; 3]%nat.
Proof. reflexivity. Qed.

Example slice_from_minus_zero : slice_from_neg 0 [1; 2; 3]%nat = [1; 2; 3]%nat.
Proof. reflexivity. Qed.

End SortFacts.

(** ** Ranking in the registry *)

Module RegistryFacts.
Import Tools Registry Observations.

Section Ranking.
Context {W : Type}.
Implicit Types (reg : ToolRegistry W) (e : BaseTool W * Q).

Lemma score_candidates_enabled reg intent context min_confidence :
  score_candidates (List.map snd (get_enabled_tools reg)) intent context min_confidence
  = List.filter (qualifies min_confidence) (scored reg intent context).
Proof.
  unfold score_candidates, get_enabled_tools, scored, qualifies.
  induction reg as [| [n t] reg IH]; simpl.
  - reflexivity.
  - destruct (enabled t) eqn:E; simpl.
    + rewrite IH. reflexivity.
    + exact IH.
Qed.

Lemma score_before_asym (a b : BaseTool W * Q) :
  score_before a b = true -> score_before b a = false.
Proof.
  unfold score_before. intros H.
  apply Bool.negb_true_iff in H. apply Bool.negb_false_iff.
  apply Qle_bool_iff.
  destruct (Qlt_le_dec (snd b) (snd a)) as [L | L].
  - apply Qlt_le_weak, L.
  - apply Qle_bool_iff in L. congruence.
Qed.

Lemma score_in_order_iff (a b : BaseTool W * Q) :
  PyList.in_order score_before a b <-> (snd b <= snd a)%Q.
Proof.
  unfold PyList.in_order, score_before.
  rewrite Bool.negb_false_iff. apply Qle_bool_iff.
Qed.

Lemma score_in_order_trans (a b c : BaseTool W * Q) :
  PyList.in_order score_before a b ->
  PyList.in_order score_before b c ->
  PyList.in_order score_before a c.
Proof.
  rewrite !score_in_order_iff. intros H1 H2. eapply Qle_trans; eassumption.
Qed.

Lemma scores_tied (q : Q) (a b : BaseTool W * Q) :
  scores q a = true -> scores q b = true -> score_before a b = false.
Proof.
  unfold scores, score_before. intros Ha Hb.
  apply Qeq_bool_iff in Ha. apply Qeq_bool_iff in Hb.
  apply Bool.negb_false_iff, Qle_bool_iff. rewrite Ha, Hb. apply Qle_refl.
Qed.

(** C6.  For every registry, intent, context and threshold,
    [get_tools_for_intent] returns exactly the enabled tools whose score is
    at or above [min_confidence] (each once, with its score), sorted by
    descending score, and the tools that share a score appear in their
    registration order. *)
Theorem get_tools_for_intent_ranked reg intent context min_confidence :
  let out := get_tools_for_intent reg intent context min_confidence in
  let kept := List.filter (qualifies min_confidence) (scored reg intent context) in
  Permutation kept out /\
  StronglySorted (fun a b => (snd b <= snd a)%Q) out /\
  (forall q, List.filter (scores q) out = List.filter (scores q) kept).
Proof.
  intros out kept. unfold out, get_tools_for_intent.
  rewrite score_candidates_enabled. fold kept.
  split; [apply SortFacts.stable_sort_perm |].
  split.
  - eapply SortFacts.StronglySorted_weaken;
      [| apply (SortFacts.stable_sort_sorted score_before
                  score_before_asym score_in_order_trans)].
    intros a b. apply score_in_order_iff.
  - intros q. apply SortFacts.stable_sort_filter. apply scores_tied.
Qed.

End Ranking.
End RegistryFacts.

(** ** The sequential executor *)

Module ExecutorFacts.
Import Tools Agent Observations Scenarios.

Section Executor.
Context {W : Type} (env : Environment W).

Ltac step_run :=
  cbn [run_actions]; unfold mbind, M_bind, emit, outside; cbn [world manager trace].

(** An action naming an unknown tool is logged and skipped. *)
Lemma run_actions_unknown a rest results ctx s :
  Registry.get_tool (action_tool_name a) (tool_registry env) = None ->
  run_actions env (a :: rest) results ctx s
  = run_actions env rest results ctx
      (advance s (world s) [ActionStarted a ctx; ToolNotFound a]).
Proof.
  intros Eg. step_run. rewrite Eg. cbn.
  unfold advance. rewrite <- app_assoc. reflexivity.
Qed.

(** A validation that raises is turned into an error result. *)
Lemma run_actions_invalid a rest results ctx s tool e w1 :
  Registry.get_tool (action_tool_name a) (tool_registry env) = Some tool ->
  validate_parameters tool (action_parameters a) (world s) = (Raised e, w1) ->
  run_actions env (a :: rest) results ctx s
  = run_actions env rest (results ++ [error_result a e]) ctx
      (advance s w1 [ActionStarted a ctx; ToolFailed a e]).
Proof.
  intros Eg Ev. step_run. rewrite Eg. cbn. rewrite Ev. cbn.
  unfold advance. rewrite <- app_assoc. reflexivity.
Qed.

(** An execution that raises is turned into an error result. *)
Lemma run_actions_raised a rest results ctx s tool p e w1 w2 :
  Registry.get_tool (action_tool_name a) (tool_registry env) = Some tool ->
  validate_parameters tool (action_parameters a) (world s) = (Returned p, w1) ->
  execute tool p w1 = (Raised e, w2) ->
  run_actions env (a :: rest) results ctx s
  = run_actions env rest (results ++ [error_result a e]) ctx
      (advance s w2 [ActionStarted a ctx; ToolExecuted a p; ToolFailed a e]).
Proof.
  intros Eg Ev Ee. step_run. rewrite Eg. cbn. rewrite Ev. cbn. rewrite Ee. cbn.
  unfold advance. rewrite <- !app_assoc. reflexivity.
Qed.

(** A returned result is appended and its data stored in the context. *)
Lemma run_actions_returned a rest results ctx s tool p r w1 w2 :
  Registry.get_tool (action_tool_name a) (tool_registry env) = Some tool ->
  validate_parameters tool (action_parameters a) (world s) = (Returned p, w1) ->
  execute tool p w1 = (Returned r, w2) ->
  run_actions env (a :: rest) results ctx s
  = run_actions env rest (results ++ [r]) (<[result_key a := data_value r]> ctx)
      (advance s w2 [ActionStarted a ctx; ToolExecuted a p; ToolReturned a r]).
Proof.
  intros Eg Ev Ee. step_run. rewrite Eg. cbn. rewrite Ev. cbn. rewrite Ee. cbn.
  unfold advance. rewrite <- !app_assoc. reflexivity.
Qed.

Lemma handed_over_head rest results ctx s a r evs :
  run_spec env rest results ctx s (run_actions env rest results ctx s) evs ->
  ctx !! result_key a = Some (data_value r) ->
  handed_over a r evs (snd (fst (run_actions env rest results ctx s))).
Proof.
  intros (_ & _ & _ & Hhead & _) Hk. destruct rest as [| b rest'].
  - destruct Hhead as [-> ->]. exact Hk.
  - destruct Hhead as [tl ->]. exact Hk.
Qed.

Ltac assemble Eg Ht Hm Hs Hr Hsk Hlen :=
  unfold run_spec;
  cbn [started produced skipped all_handed_over iterations List.map fst List.filter length];
  unfold known at 1; rewrite Eg; cbn [negb];
  rewrite Ht, Hm, Hs, Hr, Hlen; cbn [advance trace manager length];
  rewrite <- !app_assoc; cbn [app];
  repeat split; first [assumption | lia | solve [eauto] | f_equal; exact Hsk].

Lemma run_actions_spec acts : forall results ctx s,
  exists evs, run_spec env acts results ctx s (run_actions env acts results ctx s) evs.
Proof.
  induction acts as [| a rest IH]; intros results ctx s.
  - exists []. unfold run_spec. simpl. rewrite !app_nil_r. auto 10.
  - destruct (Registry.get_tool (action_tool_name a) (tool_registry env))
      as [tool |] eqn:Eg.
    + destruct (validate_parameters tool (action_parameters a) (world s))
        as [[p | e] w1] eqn:Ev.
      * destruct (execute tool p w1) as [[r | e] w2] eqn:Ee.
        -- rewrite (run_actions_returned _ _ _ _ _ _ _ _ _ _ Eg Ev Ee).
           destruct (IH (results ++ [r]) (<[result_key a := data_value r]> ctx)
                       (advance s w2
                          [ActionStarted a ctx; ToolExecuted a p; ToolReturned a r]))
             as [evs Hspec].
           pose proof (handed_over_head _ _ _ _ a r _ Hspec (lookup_insert_eq _ _ _)) as Hh.
           destruct Hspec as (Ht & Hm & Hs & Hhead & Hr & Hsk & Hho & Hlen & Hit).
           exists (ActionStarted a ctx :: ToolExecuted a p :: ToolReturned a r :: evs).
           assemble Eg Ht Hm Hs Hr Hsk Hlen.
        -- rewrite (run_actions_raised _ _ _ _ _ _ _ _ _ _ Eg Ev Ee).
           destruct (IH (results ++ [error_result a e]) ctx
                       (advance s w2
                          [ActionStarted a ctx; ToolExecuted a p; ToolFailed a e]))
             as (evs & Ht & Hm & Hs & Hhead & Hr & Hsk & Hho & Hlen & Hit).
           exists (ActionStarted a ctx :: ToolExecuted a p :: ToolFailed a e :: evs).
           assemble Eg Ht Hm Hs Hr Hsk Hlen.
      * rewrite (run_actions_invalid _ _ _ _ _ _ _ _ Eg Ev).
        destruct (IH (results ++ [error_result a e]) ctx
                    (advance s w1 [ActionStarted a ctx; ToolFailed a e]))
          as (evs & Ht & Hm & Hs & Hhead & Hr & Hsk & Hho & Hlen & Hit).
        exists (ActionStarted a ctx :: ToolFailed a e :: evs).
        assemble Eg Ht Hm Hs Hr Hsk Hlen.
    + rewrite (run_actions_unknown _ _ _ _ _ Eg).
      destruct (IH results ctx (advance s (world s) [ActionStarted a ctx; ToolNotFound a]))
        as (evs & Ht & Hm & Hs & Hhead & Hr & Hsk & Hho & Hlen & Hit).
      exists (ActionStarted a ctx :: ToolNotFound a :: evs).
      assemble Eg Ht Hm Hs Hr Hsk Hlen.
Qed.







(** C8 (amended).  A validation or an execution that raises is turned into
    a result with status [error] whose error string is the text of the
    exception, and the loop goes on with the remaining actions; an action
    naming an unknown tool is skipped and the loop goes on.  Over a whole
    call every action is attempted, the results are the returned results
    and the error results in the order of the attempts, and each action
    yields either one result or one skip: no exception leaves the
    executor. *)
Theorem execute_tools_absorbs_failures :
  (forall a rest results ctx s tool e w1,
      Registry.get_tool (action_tool_name a) (tool_registry env) = Some tool ->
      validate_parameters tool (action_parameters a) (world s) = (Raised e, w1) ->
      exists s1,
        run_actions env (a :: rest) results ctx s
        = run_actions env rest (results ++ [error_result a e]) ctx s1) /\
  (forall a rest results ctx s tool p e w1 w2,
      Registry.get_tool (action_tool_name a) (tool_registry env) = Some tool ->
      validate_parameters tool (action_parameters a) (world s) = (Returned p, w1) ->
      execute tool p w1 = (Raised e, w2) ->
      exists s1,
        run_actions env (a :: rest) results ctx s
        = run_actions env rest (results ++ [error_result a e]) ctx s1) /\
  (forall a rest results ctx s,
      Registry.get_tool (action_tool_name a) (tool_registry env) = None ->
      exists s1,
        run_actions env (a :: rest) results ctx s = run_actions env rest results ctx s1) /\
  (forall a e,
      tool_name (error_result a e) = action_tool_name a /\
      status (error_result a e) = ERROR /\
      error (error_result a e) = Some (exn_message e)) /\
  (forall tool_actions context s,
      let out := _execute_tools env tool_actions context s in
      exists evs,
        trace (snd out) = trace s ++ evs /\
        Permutation tool_actions (List.map fst (started evs)) /\
        fst (fst out) = produced evs /\
        skipped evs
        = List.filter (fun a => negb (known env a))
            (PyList.stable_sort priority_before tool_actions) /\
        length tool_actions = (length (produced evs) + length (skipped evs))%nat).
Proof.
  split; [| split; [| split; [| split]]].
  - intros a rest results ctx s tool e w1 Eg Ev. eexists.
    apply (run_actions_invalid _ _ _ _ _ _ _ _ Eg Ev).
  - intros a rest results ctx s tool p e w1 w2 Eg Ev Ee. eexists.
    apply (run_actions_raised _ _ _ _ _ _ _ _ _ _ Eg Ev Ee).
  - intros a rest results ctx s Eg. eexists.
    apply (run_actions_unknown _ _ _ _ _ Eg).
  - intros a e. repeat split.
  - intros tool_actions context s out. unfold out, _execute_tools.
    destruct (run_actions_spec (PyList.stable_sort priority_before tool_actions) [] context s)
      as (evs & Ht & _ & Hs & _ & Hr & Hsk & _ & Hlen & _).
    exists evs. rewrite Hs.
    split; [exact Ht |].
    split; [apply SortFacts.stable_sort_perm |].
    split; [exact Hr |].
    split; [exact Hsk |].
    rewrite <- Hlen. apply Permutation_length, SortFacts.stable_sort_perm.
Qed.

End Executor.

(** C8 as stated fails: an exception raised without a message, such as
    [TimeoutError()], has an empty text, and the error result built for it
    carries the empty error string. *)
Lemma silent_failure_has_empty_error :
  let env := insistent_env failing_registry in
  let action := query_action "snowflake_query" 1 in
  execute timing_out_tool (action_parameters action) tt = (Raised silent_failure, tt) /\
  fst (fst (_execute_tools env [action] ∅ (initial_state (ContextManager.new_manager 50))))
  = [ {| tool_name := "snowflake_query";
         status := ERROR;
         data := None;
         error := Some "";
         metadata := None |} ].
Proof. split; reflexivity. Qed.


(** A tool whose execution raises: the error result is appended and the
    loop goes on with what is left. *)
Lemma execute_tools_absorbs_failures_witness :
  let env := insistent_env failing_registry in
  let failing := query_action "snowflake_query" 1 in
  let next := query_action "snowflake_query" 2 in
  Registry.get_tool (action_tool_name failing) (tool_registry env) = Some timing_out_tool /\
  execute timing_out_tool (action_parameters failing) tt = (Raised silent_failure, tt) /\
  exists s1,
    run_actions env [failing; next] [] ∅ fresh_state
    = run_actions env [next] ([] ++ [error_result failing silent_failure]) ∅ s1.
Proof.
  intros env failing next.
  split; [reflexivity |]. split; [reflexivity |].
  exact (proj1 (proj2 (execute_tools_absorbs_failures env))
           failing [next] [] ∅ fresh_state timing_out_tool
           (action_parameters failing) silent_failure tt tt
           eq_refl eq_refl eq_refl).
Defined.

End ExecutorFacts.

(** ** Substrings and stripping *)

Module StringFacts.
Import PyStr.

Lemma startswith_spec (p s : string) :
  startswith p s = true <-> exists post, s = p +:+ post.
Proof.
  revert s. induction p as [| a p IH]; intros s; simpl.
  - split; [intros _; exists s; reflexivity | reflexivity].
  - destruct s as [| b s].
    + split; [discriminate | intros [post H]; discriminate].
    + rewrite andb_true_iff, Ascii.eqb_eq, IH. split.
      * intros [-> [post ->]]. exists post. reflexivity.
      * intros [post H]. injection H as -> ->. split; [reflexivity | eauto].
Qed.

Lemma contains_spec (p s : string) :
  contains p s = true <-> exists pre post, s = pre +:+ p +:+ post.
Proof.
  induction s as [| c s IH]; simpl.
  - rewrite orb_false_r, startswith_spec. split.
    + intros [post H]. exists "", post. exact H.
    + intros (pre & post & H). destruct pre; simpl in H.
      * exists post. exact H.
      * discriminate.
  - rewrite orb_true_iff, startswith_spec, IH. split.
    + intros [[post H] | (pre & post & H)].
      * exists "", post. exact H.
      * exists (String c pre), post. simpl. rewrite H. reflexivity.
    + intros (pre & post & H). destruct pre as [| d pre]; simpl in H.
      * left. exists post. exact H.
      * right. injection H as -> ->. eauto.
Qed.

Lemma contains_nonempty (p s : string) :
  contains p s = true -> p <> "" -> s <> "".
Proof. intros H Hp ->. simpl in H. destruct p; [congruence | discriminate]. Qed.

Lemma contains_lstrip (p s : string) c :
  first_char p = Some c -> is_space c = false ->
  contains p s = true -> contains p (lstrip s) = true.
Proof.
  intros Hc Hsp. induction s as [| d s IH]; simpl; [auto |].
  destruct (is_space d) eqn:Ed; [| auto].
  destruct p as [| a p]; [discriminate |]. simpl in Hc. injection Hc as ->.
  simpl. destruct (Ascii.eqb c d) eqn:E.
  - apply Ascii.eqb_eq in E. subst. congruence.
  - simpl. exact IH.
Qed.

Lemma startswith_rstrip (p s : string) c :
  last_char p = Some c -> is_space c = false ->
  startswith p s = true -> startswith p (rstrip s) = true.
Proof.
  intros Hc Hsp. revert s. induction p as [| a p IH]; intros s; [discriminate |].
  destruct s as [| b s]; [discriminate |].
  cbn [startswith]. rewrite andb_true_iff. intros [Hab Hps].
  destruct p as [| a' p'].
  - simpl in Hc. injection Hc as ->. apply Ascii.eqb_eq in Hab. subst b.
    cbn [rstrip]. destruct (rstrip s); [rewrite Hsp |]; simpl; rewrite Ascii.eqb_refl; reflexivity.
  - specialize (IH Hc s Hps).
    cbn [rstrip]. destruct (rstrip s) as [| r rs] eqn:Er.
    + discriminate.
    + cbn [startswith]. rewrite Hab. exact IH.
Qed.

Lemma contains_rstrip (p s : string) c :
  last_char p = Some c -> is_space c = false ->
  contains p s = true -> contains p (rstrip s) = true.
Proof.
  intros Hc Hsp. induction s as [| d s IH]; [auto |].
  cbn [contains]. rewrite orb_true_iff. intros [H | H].
  - apply (startswith_rstrip _ _ _ Hc Hsp) in H.
    destruct (rstrip (String d s)); simpl; rewrite H; reflexivity.
  - specialize (IH H).
    assert (rstrip s <> "") as Hne.
    { eapply contains_nonempty; [exact IH |]. intros ->. discriminate. }
    cbn [rstrip]. destruct (rstrip s) as [| r rs]; [congruence |].
    cbn [contains] in *. rewrite IH. apply orb_true_r.
Qed.

Lemma contains_strip (p s : string) :
  trimmed p = true -> contains p s = true -> contains p (strip s) = true.
Proof.
  unfold trimmed, strip.
  destruct (first_char p) as [a |] eqn:Ha; [| discriminate].
  destruct (last_char p) as [b |] eqn:Hb; [| discriminate].
  rewrite andb_true_iff, !negb_true_iff. intros [Hsa Hsb] H.
  eapply contains_lstrip; eauto. eapply contains_rstrip; eauto.
Qed.

Example lower_example : lower "Show Me the DATA" = "show me the data".
Proof. reflexivity. Qed.

Example strip_example : strip "  hello world
" = "hello world".
Proof. reflexivity. Qed.

Example count_words_example : count_words " what  is this " = 3%nat.
Proof. reflexivity. Qed.

Example contains_inside_word : contains "hi" "shipping" = true.
Proof. reflexivity. Qed.

Example contains_empty_phrase : contains "" "abc" = true.
Proof. reflexivity. Qed.

Example contains_is_case_sensitive : contains "Show" "show tables" = false.
Proof. reflexivity. Qed.

End StringFacts.

(** ** The sufficiency check and the conversational path *)

Module AgentFacts.
Import Tools ContextManager Agent Observations Scenarios.

Section Agent.
Context {W : Type} (env : Environment W).

Lemma no_success_filter (tool_results : list ToolResult) :
  (forall r, In r tool_results -> status r <> SUCCESS) ->
  List.filter (fun r => status_eqb (status r) SUCCESS) tool_results = [].
Proof.
  induction tool_results as [| r rest IH]; intros H; simpl.
  - reflexivity.
  - destruct (status r) eqn:E; simpl.
    + exfalso. apply (H r); [left; reflexivity | exact E].
    + apply IH. intros r' Hr'. apply H. right. exact Hr'.
    + apply IH. intros r' Hr'. apply H. right. exact Hr'.
    + apply IH. intros r' Hr'. apply H. right. exact Hr'.
Qed.

(** C4.  When no result of the batch has status [success] (the empty batch
    included), [_has_sufficient_information] returns false and leaves the
    run state as it found it: the backend is not called, so neither its
    answer nor a failure to read it can matter. *)
Theorem no_success_is_insufficient (user_request : string)
    (tool_results : list ToolResult) (context : gmap string Value) (s : RunState W) :
  (forall r, In r tool_results -> status r <> SUCCESS) ->
  _has_sufficient_information env user_request tool_results context s = (false, s).
Proof.
  intros H. unfold _has_sufficient_information.
  rewrite (no_success_filter _ H).
  destruct tool_results; reflexivity.
Qed.

Example hello_is_conversational : _is_conversational_request "hello" = true.
Proof. reflexivity. Qed.

Example short_request_is_conversational :
  _is_conversational_request "good morning" = true.
Proof. reflexivity. Qed.

Example table_request_needs_tools :
  _is_conversational_request "show me tables available in the warehouse" = false.
Proof. reflexivity. Qed.

Lemma conversational_patterns_trimmed :
  Forall (fun p => PyStr.trimmed p = true) conversational_patterns.
Proof. repeat constructor. Qed.

(** A request whose lower-cased text contains a conversational phrase is
    conversational, whatever else it contains. *)
Lemma phrase_is_conversational (user_request pattern pre post : string) :
  In pattern conversational_patterns ->
  PyStr.lower user_request = pre +:+ pattern +:+ post ->
  _is_conversational_request user_request = true.
Proof.
  intros Hin Hsub. unfold _is_conversational_request.
  assert (existsb
            (fun p => PyStr.contains p (PyStr.strip (PyStr.lower user_request)))
            conversational_patterns = true) as ->; [| reflexivity].
  apply existsb_exists. exists pattern. split; [exact Hin |].
  apply StringFacts.contains_strip.
  - pose proof conversational_patterns_trimmed as Ht.
    rewrite List.Forall_forall in Ht. apply Ht, Hin.
  - apply StringFacts.contains_spec. eauto.
Qed.

(** C9.  If the lower-cased request contains one of the conversational
    phrases as a substring (inside a longer word or a long data request as
    well), [process_request] answers on the conversational path: status
    [conversational], empty [tool_results] and [tool_actions], and the only
    step of the run is the request for a conversational reply. *)
Theorem conversational_phrase_short_circuits (user_request : string)
    (user_id : option string) (additional_context : option (gmap string Value))
    (s : RunState W) (pattern pre post : string) :
  In pattern conversational_patterns ->
  PyStr.lower user_request = pre +:+ pattern +:+ post ->
  let out := process_request env user_request user_id additional_context s in
  reply_status (fst out) = "conversational" /\
  reply_tool_results (fst out) = Some [] /\
  reply_tool_actions (fst out) = Some [] /\
  trace (snd out) = trace s ++ [ConversationAsked] /\
  manager (snd out) = manager s.
Proof.
  intros Hin Hsub out. subst out. unfold process_request.
  unfold mbind at 1 2. unfold M_bind at 1 2.
  unfold read_clock at 1. unfold manager_build_context.
  rewrite (phrase_is_conversational _ _ _ _ Hin Hsub).
  unfold conversational_reply, _generate_conversational_response.
  unfold mbind, M_bind, emit, outside, read_clock, mret, M_ret. cbn.
  destruct (llm_conversation env user_request (world s)) as [reply w]. cbn.
  repeat split.
Qed.

End Agent.

Lemma no_success_is_insufficient_witness :
  let env := insistent_env snowflake_registry in
  let failed := error_result (query_action "snowflake_query" 1) silent_failure in
  (forall r, In r [failed] -> status r <> SUCCESS) /\
  _has_sufficient_information env "show data tables" [failed] ∅
    (initial_state (new_manager default_max_history_size))
  = (false, initial_state (new_manager default_max_history_size)).
Proof.
  intros env failed.
  assert (forall r, In r [failed] -> status r <> SUCCESS) as H.
  { intros r [<- | []]. discriminate. }
  split; [exact H |].
  apply (no_success_is_insufficient env "show data tables" [failed] ∅ _ H).
Defined.

Lemma conversational_phrase_short_circuits_witness :
  let env := insistent_env snowflake_registry in
  let request := "Show me the shipping table data" in
  In "hi" conversational_patterns /\
  PyStr.lower request = "show me the s" +:+ "hi" +:+ "pping table data" /\
  let out :=
    process_request env request None None
      (initial_state (new_manager default_max_history_size)) in
  reply_status (fst out) = "conversational" /\
  reply_tool_results (fst out) = Some [] /\
  reply_tool_actions (fst out) = Some [] /\
  trace (snd out) = [ConversationAsked] /\
  manager (snd out) = new_manager default_max_history_size.
Proof.
  intros env request.
  assert (In "hi" conversational_patterns) as Hin by (left; reflexivity).
  assert (PyStr.lower request = "show me the s" +:+ "hi" +:+ "pping table data")
    as Hsub by reflexivity.
  split; [exact Hin |]. split; [exact Hsub |].
  exact (conversational_phrase_short_circuits env request None None
           (initial_state (new_manager default_max_history_size))
           "hi" "show me the s" "pping table data" Hin Hsub).
Defined.

End AgentFacts.

(** ** Request contexts and session state *)

Module ContextFacts.
Import Tools ContextManager Agent Observations Scenarios.

Section Build.
Variable re_search : string -> string -> option string.
Variable dateutil_parse : string -> option string.

Lemma extract_entities_no_session_key clk user_request k :
  In k session_keys -> _extract_entities re_search dateutil_parse clk user_request !! k = None.
Proof.
  intros Hin. unfold _extract_entities.
  destruct Hin as [<- | [<- | [<- | []]]];
    repeat case_match; simplify_map_eq; reflexivity.
Qed.

Lemma build_context_without_session_id m clk user_request user_id additional_context k :
  In k session_keys ->
  build_context re_search dateutil_parse m clk user_request user_id None additional_context !! k
  = match additional_context with Some extra => extra !! k | None => None end.
Proof.
  intros Hin. unfold build_context.
  set (base := match user_id with Some uid => _ | None => _ end).
  assert (base !! k = None) as Hbase.
  { subst base. destruct Hin as [<- | [<- | [<- | []]]];
      repeat case_match; simplify_map_eq; reflexivity. }
  assert ((_extract_entities re_search dateutil_parse clk user_request ∪ base) !! k = None) as Hctx.
  { apply lookup_union_None. split; [apply extract_entities_no_session_key, Hin | exact Hbase]. }
  destruct additional_context as [extra |]; [| exact Hctx].
  destruct (decide (extra = ∅)) as [-> | Hne].
  - rewrite Hctx, lookup_empty. reflexivity.
  - rewrite lookup_union_l; [reflexivity | exact Hctx].
Qed.
End Build.

Section Slices.
Context {A : Type}.

Lemma slice_from_neg_length (n : Z) (l : list A) :
  (1 <= n)%Z -> (Z.of_nat (length (PyList.slice_from_neg n l)) <= n)%Z.
Proof.
  intros Hn. unfold PyList.slice_from_neg.
  destruct (Z.ltb_spec (- n) 0) as [_ | H]; [| lia].
  rewrite length_drop. lia.
Qed.

Lemma slice_from_neg_NoDup (n : Z) (l : list A) :
  NoDup l -> NoDup (PyList.slice_from_neg n l).
Proof.
  intros H. unfold PyList.slice_from_neg.
  eapply sublist_NoDup; [exact H | apply sublist_drop].
Qed.
End Slices.

Lemma str_mem_false (x : string) (l : list string) :
  PyList.str_mem x l = false -> x ∉ l.
Proof.
  unfold PyList.str_mem. intros H Hin.
  assert (existsb (String.eqb x) l = true) as E.
  { apply existsb_exists. exists x. split; [apply list_elem_of_In, Hin | apply String.eqb_refl]. }
  congruence.
Qed.

Lemma add_recent_NoDup (tool_results : list ToolResult) (recent : list string) :
  NoDup recent -> NoDup (add_recent recent tool_results).
Proof.
  unfold add_recent. revert recent.
  induction tool_results as [| r rest IH]; intros recent H; simpl; [exact H |].
  apply IH. destruct (PyList.str_mem (tool_name r) recent) eqn:E; [exact H |].
  apply NoDup_app. split; [exact H |]. split.
  - intros x Hx Hx'. apply list_elem_of_singleton in Hx'. subst x.
    exact (str_mem_false _ _ E Hx).
  - apply NoDup_singleton.
Qed.

Section Store.
Context (P : SessionContext -> Prop).

Lemma set_session_Forall (k : Value) (sc : SessionContext) (store : SessionStore) :
  P sc -> Forall (fun entry => P (snd entry)) store ->
  Forall (fun entry => P (snd entry)) (set_session k sc store).
Proof.
  intros Hsc. unfold set_session.
  induction store as [| [k' v'] store IH]; intros H; simpl.
  - constructor; [exact Hsc | constructor].
  - apply Forall_cons in H as [Hv Hrest].
    destruct (key_eqb k' k); constructor; auto.
Qed.

Lemma get_session_Forall (k : Value) (sc : SessionContext) (store : SessionStore) :
  Forall (fun entry => P (snd entry)) store ->
  get_session k store = Some sc -> P sc.
Proof.
  unfold get_session.
  induction store as [| [k' v'] store IH]; intros H; simpl; [discriminate |].
  apply Forall_cons in H as [Hv Hrest].
  destruct (key_eqb k' k); [intros [= <-]; exact Hv | apply IH, Hrest].
Qed.
End Store.

Section Update.
Variable format_value : Value -> string.

(** [update_context] keeps any property of sessions that holds of a fresh session and
    is kept by the rewriting of history and recent tools. *)
Lemma update_context_Forall (P : Z -> SessionContext -> Prop) (m : Manager) clk context tool_results :
  (forall c, P (max_history_size m) (fresh_session c)) ->
  (forall sc h prefs entry,
      P (max_history_size m) sc ->
      h = (let history1 := history sc ++ [entry] in
           if (max_history_size m <? Z.of_nat (length history1))%Z
           then PyList.slice_from_neg (max_history_size m) history1 else history1) ->
      P (max_history_size m)
        {| history := h;
           recent_tools := PyList.slice_from_neg 10 (add_recent (recent_tools sc) tool_results);
           preferences := prefs;
           created_at := created_at sc |}) ->
  Forall (fun entry => P (max_history_size m) (snd entry)) (session_contexts m) ->
  let m' := snd (update_context format_value m clk context tool_results) in
  max_history_size m' = max_history_size m /\
  Forall (fun entry => P (max_history_size m) (snd entry)) (session_contexts m').
Proof.
  intros Hfresh Hstep Hm. unfold update_context.
  set (sid := match context !! "session_id" with Some v => v | None => VStr "default" end).
  destruct (hashable sid); cbn [negb]; [| split; [reflexivity | exact Hm]].
  set (store := match get_session sid (session_contexts m) with
                | Some _ => session_contexts m
                | None => set_session sid (fresh_session clk) (session_contexts m)
                end).
  assert (Forall (fun entry => P (max_history_size m) (snd entry)) store) as Hstore.
  { subst store. destruct (get_session sid (session_contexts m)); [exact Hm |].
    apply set_session_Forall; [apply Hfresh | exact Hm]. }
  set (sc := match get_session sid store with Some sc => sc | None => fresh_session clk end).
  assert (P (max_history_size m) sc) as Hsc.
  { subst sc. destruct (get_session sid store) eqn:E; [| apply Hfresh].
    eapply (get_session_Forall (P (max_history_size m))); eassumption. }
  destruct (context !! "timestamp") as [ts |]; [| split; [reflexivity | exact Hstore]].
  destruct (context !! "user_request") as [ur |]; [| split; [reflexivity | exact Hstore]].
  destruct (_extract_preferences format_value context tool_results (preferences sc));
    cbn [snd max_history_size session_contexts];
    (split; [reflexivity |]);
    (apply set_session_Forall; [| exact Hstore]);
    (eapply Hstep; [exact Hsc | reflexivity]).
Qed.

End Update.

Section Bounds.
Variable format_value : Value -> string.

Lemma update_context_bounded (m : Manager) clk context tool_results :
  (1 <= max_history_size m)%Z ->
  manager_bounded m ->
  manager_bounded (snd (update_context format_value m clk context tool_results)).
Proof.
  intros Hcap Hm. unfold manager_bounded in *.
  destruct (update_context_Forall format_value session_bounded m clk context tool_results)
    as [Hsize Hall]; [| | exact Hm | rewrite Hsize; exact Hall].
  - intros c. unfold session_bounded. cbn. repeat split; [lia | lia | constructor].
  - intros sc h prefs entry (Hh & Hr & Hn) ->. unfold session_bounded. cbn.
    repeat split.
    + destruct (Z.ltb_spec (max_history_size m)
                  (Z.of_nat (length (history sc ++ [entry])))) as [Hlt | Hge].
      * apply slice_from_neg_length, Hcap.
      * exact Hge.
    + pose proof (slice_from_neg_length 10 (add_recent (recent_tools sc) tool_results)). lia.
    + apply slice_from_neg_NoDup, add_recent_NoDup, Hn.
Qed.

Lemma update_context_recent_bounded (m : Manager) clk context tool_results :
  manager_recent_bounded m ->
  manager_recent_bounded (snd (update_context format_value m clk context tool_results)).
Proof.
  intros Hm. unfold manager_recent_bounded in *.
  destruct (update_context_Forall format_value (fun _ => recent_bounded)
              m clk context tool_results) as [_ Hall]; [| | exact Hm | exact Hall].
  - intros c. unfold recent_bounded. cbn. split; [lia | constructor].
  - intros sc h prefs entry (Hr & Hn) _. unfold recent_bounded. cbn. split.
    + pose proof (slice_from_neg_length 10 (add_recent (recent_tools sc) tool_results)). lia.
    + apply slice_from_neg_NoDup, add_recent_NoDup, Hn.
Qed.

Lemma update_context_keeps_cap (m : Manager) clk context tool_results :
  max_history_size (snd (update_context format_value m clk context tool_results))
  = max_history_size m.
Proof.
  unfold update_context. repeat case_match; reflexivity.
Qed.

Lemma after_calls_keeps_cap (calls : list Call) (m : Manager) :
  max_history_size (after_calls format_value m calls) = max_history_size m.
Proof.
  unfold after_calls. revert m. induction calls as [| c calls IH]; intros m; simpl.
  - reflexivity.
  - rewrite IH. apply update_context_keeps_cap.
Qed.

(** For a history cap of at least 1, after any sequence of [update_context]
    calls every session keeps at most [cap] history entries and at most 10
    recent tools, without duplicates. *)
Theorem positive_cap_bounds_sessions (cap : Z) (calls : list Call) :
  (1 <= cap)%Z ->
  manager_bounded (after_calls format_value (new_manager cap) calls).
Proof.
  intros Hcap.
  assert (forall m, (1 <= max_history_size m)%Z -> manager_bounded m ->
                    manager_bounded (after_calls format_value m calls)) as Hgen.
  { unfold after_calls. induction calls as [| c calls IH]; intros m Hc Hm; simpl.
    - exact Hm.
    - apply IH.
      + rewrite update_context_keeps_cap. exact Hc.
      + apply update_context_bounded; assumption. }
  apply Hgen; [exact Hcap | constructor].
Qed.

(** Whatever the cap, [recent_tools] never exceeds 10 names and holds no
    duplicate. *)
Theorem recent_tools_bounded (cap : Z) (calls : list Call) :
  manager_recent_bounded (after_calls format_value (new_manager cap) calls).
Proof.
  assert (forall m, manager_recent_bounded m ->
                    manager_recent_bounded (after_calls format_value m calls)) as Hgen.
  { unfold after_calls. induction calls as [| c calls IH]; intros m Hm; simpl.
    - exact Hm.
    - apply IH, update_context_recent_bounded, Hm. }
  apply Hgen. constructor.
Qed.
End Bounds.

(** C3 (the code departs from the claim).  With [max_history_size = 0] the
    test [len(history) > 0] succeeds and the truncation keeps [history[-0:]],
    which is the whole list: after two [update_context] calls the default
    session holds two history entries, more than the configured cap of 0. *)
Theorem zero_cap_history_grows :
  let m := after_calls (fun _ => "") forgetful_manager [plain_call; plain_call] in
  max_history_size m = 0%Z /\
  (exists sc,
      get_session (VStr "default") (session_contexts m) = Some sc /\
      length (history sc) = 2%nat) /\
  ~ manager_bounded m.
Proof.
  intros m. split; [reflexivity |]. split.
  - eexists. split; [vm_compute; reflexivity | reflexivity].
  - intros H. unfold manager_bounded in H.
    apply Forall_cons in H as [[Hh _] _].
    vm_compute in Hh. apply Hh. reflexivity.
Qed.


Section Requests.
Context {W : Type} (env : Environment W).

(** The context of every reply is the context built at the start. *)
Lemma process_request_context user_request user_id additional_context (s : RunState W) :
  reply_context (fst (process_request env user_request user_id additional_context s))
  = build_context (re_search env) (dateutil_parse env) (manager s) (clock env (world s))
      user_request user_id None (Some (or_empty additional_context)).
Proof.
  unfold process_request.
  unfold mbind at 1 2. unfold M_bind at 1 2.
  unfold read_clock at 1. unfold manager_build_context.
  set (context := build_context _ _ _ _ _ _ _ _).
  destruct (_is_conversational_request user_request).
  - unfold conversational_reply. unfold mbind, M_bind, read_clock, mret, M_ret.
    destruct (_generate_conversational_response env user_request context s) as [text s1].
    reflexivity.
  - unfold mbind at 1. unfold M_bind at 1.
    destruct (tool_loop env max_iterations user_request context [] [] s)
      as [[[results actions] | e] s1]; cbn [conclude].
    + destruct results as [| r results].
      * unfold conversational_reply. unfold mbind, M_bind, read_clock, mret, M_ret.
        destruct (_generate_conversational_response env user_request context s1) as [text s2].
        reflexivity.
      * unfold mbind, M_bind.
        destruct (_generate_response env user_request (r :: results) context s1)
          as [[text | e] s2]; [| reflexivity].
        destruct (manager_update env context (r :: results) s2) as [[[] | e] s3];
          reflexivity.
    + reflexivity.
Qed.

(** C10.  When [build_context] is called without a [session_id], the keys
    [conversation_history], [recent_tool_usage] and [user_preferences] of
    the result are exactly those of [additional_context] (absent when it is
    absent or does not supply them), whatever the manager has stored, the
    "default" session included; [process_request] builds its context this
    way, so the context of its reply has those keys only as the caller
    supplied them. *)
Theorem no_session_id_no_session_keys (m : Manager) (clk : Clock)
    (user_request : string) (user_id : option string)
    (additional_context : option (gmap string Value)) (s : RunState W) (k : string) :
  In k session_keys ->
  build_context (re_search env) (dateutil_parse env) m clk
    user_request user_id None additional_context !! k
  = match additional_context with
    | Some extra => extra !! k
    | None => None
    end /\
  reply_context (fst (process_request env user_request user_id additional_context s)) !! k
  = or_empty additional_context !! k.
Proof.
  intros Hin. split.
  - apply build_context_without_session_id, Hin.
  - rewrite process_request_context.
    rewrite (build_context_without_session_id _ _ _ _ _ _ _ _ Hin). reflexivity.
Qed.

End Requests.

(** A manager whose default session already holds history, recent tools
    and preferences. *)
Lemma no_session_id_no_session_keys_witness :
  let env := insistent_env snowflake_registry in
  let used :=
    snd (update_context (fun _ => "") (new_manager default_max_history_size) noon
           (plain_context "list the tables") [success_result "snowflake_query"]) in
  let s := {| world := tt; manager := used; trace := [] |} in
  In "conversation_history" session_keys /\
  is_Some (get_session (VStr "default") (session_contexts used)) /\
  build_context (re_search env) (dateutil_parse env) used noon
    "list the tables" None None None !! "conversation_history" = None /\
  reply_context (fst (process_request env "list the tables" None None s))
    !! "conversation_history" = None.
Proof.
  intros env used s.
  assert (In "conversation_history" session_keys) as Hin by (left; reflexivity).
  split; [exact Hin |].
  split; [vm_compute; eauto |].
  exact (no_session_id_no_session_keys env used noon "list the tables" None None s
           "conversation_history" Hin).
Defined.

End ContextFacts.

(** ** The orchestration loop *)

Module JsonFacts.



End JsonFacts.

Module LoopFacts.
Import Tools ContextManager Agent Observations Scenarios.

Lemma update_context_returns fmt m clk context tool_results :
  foldable context = true ->
  fst (update_context fmt m clk context tool_results) = Returned tt.
Proof.
  unfold foldable, has_key, update_context, _extract_preferences, py_iter.
  rewrite !andb_true_iff. intros [[[Hs Hd] Ht] Hu].
  destruct (context !! "timestamp"); [| discriminate].
  destruct (context !! "user_request"); [| discriminate].
  destruct (context !! "session_id") as [sid |]; [rewrite Hs |]; cbn [negb hashable];
    (destruct (context !! "data_types") as [[] |]; try discriminate; reflexivity).
Qed.



Section Loop.
Context {W : Type} (env : Environment W).






Section Scenario.
Variables (user_request : string) (context : gmap string Value).
Hypothesis planner_insists :
  forall results (s1 : RunState W), exists a l s2,
    _analyze_and_select_tools env user_request
      (<["previous_results" := VList (List.map previous_result results)]> context) s1
    = (Returned (a :: l), s2).
Hypothesis judge_says_no :
  forall results c (s1 : RunState W),
    fst (_has_sufficient_information env user_request results c s1) = false.
Hypothesis context_foldable : foldable context = true.

End Scenario.



Lemma error_reply_trace e context (s : RunState W) :
  trace (snd (error_reply env e context s)) = trace s.
Proof. reflexivity. Qed.


Lemma process_request_conversational user_request user_id additional_context
    (s : RunState W) :
  _is_conversational_request user_request = true ->
  process_request env user_request user_id additional_context s
  = conversational_reply env "conversational" user_request
      (build_context (re_search env) (dateutil_parse env) (manager s)
         (clock env (world s)) user_request user_id None
         (Some (or_empty additional_context))) s.
Proof.
  intros H. unfold process_request.
  unfold mbind at 1 2. unfold M_bind at 1 2.
  unfold read_clock at 1. unfold manager_build_context. rewrite H. reflexivity.
Qed.

Lemma process_request_with_tools user_request user_id additional_context
    (s : RunState W) :
  _is_conversational_request user_request = false ->
  let context :=
    build_context (re_search env) (dateutil_parse env) (manager s)
      (clock env (world s)) user_request user_id None
      (Some (or_empty additional_context)) in
  let looped := tool_loop env max_iterations user_request context [] [] s in
  process_request env user_request user_id additional_context s
  = conclude env user_request context (fst looped) (snd looped).
Proof.
  intros H context looped. unfold process_request.
  unfold mbind at 1 2. unfold M_bind at 1 2.
  unfold read_clock at 1. unfold manager_build_context. rewrite H.
  fold context. unfold mbind, M_bind. fold looped.
  destruct looped. reflexivity.
Qed.



End Loop.






End LoopFacts.

(** ** Further properties of the registry, the selector, the context
    manager, the request loop and the MCP database tool *)

Module DictFacts.

Section Dict.
Context {V : Type}.
Implicit Types (d : list (string * V)) (k : string) (v : V).

Lemma str_assoc_get_set_same k v d :
  PyList.assoc_get String.eqb k (PyList.assoc_set String.eqb k v d) = Some v.
Proof.
  induction d as [| [k' v'] d IH]; cbn.
  - rewrite String.eqb_refl. reflexivity.
  - destruct (String.eqb k' k) eqn:E; cbn; rewrite E; [reflexivity | exact IH].
Qed.

Lemma str_assoc_get_set_other k k' v d :
  k <> k' ->
  PyList.assoc_get String.eqb k' (PyList.assoc_set String.eqb k v d)
  = PyList.assoc_get String.eqb k' d.
Proof.
  intros Hne. induction d as [| [k0 v0] d IH]; cbn.
  - destruct (String.eqb k k') eqn:E; [apply String.eqb_eq in E; contradiction | reflexivity].
  - destruct (String.eqb k0 k) eqn:E; cbn.
    + apply String.eqb_eq in E. subst k0.
      destruct (String.eqb k k') eqn:E'; [apply String.eqb_eq in E'; contradiction | reflexivity].
    + rewrite IH. reflexivity.
Qed.

Lemma str_assoc_set_keys k v d :
  List.map fst (PyList.assoc_set String.eqb k v d)
  = if PyList.str_mem k (List.map fst d) then List.map fst d else List.map fst d ++ [k].
Proof.
  induction d as [| [k0 v0] d IH]; [reflexivity |].
  cbn. rewrite (String.eqb_sym k k0).
  destruct (String.eqb k0 k) eqn:E; cbn; [reflexivity |].
  rewrite IH. fold (PyList.str_mem k (List.map fst d)).
  destruct (PyList.str_mem k (List.map fst d)); reflexivity.
Qed.

Lemma str_assoc_get_none k d :
  PyList.assoc_get String.eqb k d = None <-> PyList.str_mem k (List.map fst d) = false.
Proof.
  induction d as [| [k0 v0] d IH]; cbn; [tauto |].
  rewrite (String.eqb_sym k k0). destruct (String.eqb k0 k); cbn; [split; discriminate | exact IH].
Qed.

End Dict.

Lemma str_mem_In (x : string) (l : list string) : PyList.str_mem x l = true <-> In x l.
Proof.
  unfold PyList.str_mem. rewrite existsb_exists. split.
  - intros (y & Hy & E). apply String.eqb_eq in E. subst. exact Hy.
  - intros H. exists x. split; [exact H | apply String.eqb_refl].
Qed.

End DictFacts.

Module ScoreRange.
Import Tools ScoringSpec Scenarios.

Lemma py_min_cases (a x : Q) :
  ((x < a)%Q /\ py_min a x = x) \/ ((a <= x)%Q /\ py_min a x = a).
Proof.
  unfold py_min. destruct (Qcompare_spec x a) as [E | L | G].
  - right. split; [rewrite E; apply Qle_refl | reflexivity].
  - left. split; [exact L | reflexivity].
  - right. split; [apply Qlt_le_weak, G | reflexivity].
Qed.

Lemma py_max_cases (a x : Q) :
  ((a < x)%Q /\ py_max a x = x) \/ ((x <= a)%Q /\ py_max a x = a).
Proof.
  unfold py_max. destruct (Qcompare_spec x a) as [E | L | G].
  - right. split; [rewrite E; apply Qle_refl | reflexivity].
  - right. split; [apply Qlt_le_weak, L | reflexivity].
  - left. split; [exact G | reflexivity].
Qed.

Lemma Qnat_nonneg (n : nat) : (0 <= Qnat n)%Q.
Proof.
  unfold Qnat. change 0%Q with (inject_Z 0). rewrite <- Zle_Qle. lia.
Qed.

Lemma boost_nonneg (k n : nat) (c : Q) : (0 <= c)%Q -> (0 <= Qnat k / Qnat n * c)%Q.
Proof.
  intros Hc. apply Qmult_le_0_compat; [| exact Hc].
  unfold Qdiv. apply Qmult_le_0_compat; [apply Qnat_nonneg |].
  apply Qinv_le_0_compat, Qnat_nonneg.
Qed.

Ltac bound_min a x :=
  let H := fresh in let E := fresh in
  destruct (py_min_cases a x) as [[H E] | [H E]]; rewrite E.

Lemma missing_fewer (prereqs : list string) (context context' : gmap string Value) :
  (forall k, has_key k context = true -> has_key k context' = true) ->
  (length (List.filter (fun p => negb (has_key p context')) prereqs)
   <= length (List.filter (fun p => negb (has_key p context)) prereqs))%nat.
Proof.
  intros Hsub. induction prereqs as [| p rest IH]; [reflexivity |].
  cbn [List.filter]. destruct (has_key p context) eqn:Hk.
  - rewrite (Hsub _ Hk). exact IH.
  - destruct (has_key p context'); cbn [negb length]; lia.
Qed.

Section Range.
Context {W : Type}.
Implicit Types (t : BaseTool W) (intent : string) (context : gmap string Value).

Ltac split_min :=
  match goal with
  | |- context [py_min ?a ?x] =>
      let H := fresh in let E := fresh in
      destruct (py_min_cases a x) as [[H E] | [H E]]; rewrite E
  end.

Ltac split_max :=
  match goal with
  | |- context [py_max ?a ?x] =>
      let H := fresh in let E := fresh in
      destruct (py_max_cases a x) as [[H E] | [H E]]; rewrite E
  end.

Lemma MCPDatabaseTool_should_use_bounds t intent context :
  (0 <= MCPDatabaseTool_should_use t intent context <= 1)%Q.
Proof.
  unfold MCPDatabaseTool_should_use. pose proof (ScoringFacts.BaseTool_should_use_bounds t intent context) as Hb.
  cbv zeta.
  match goal with |- context [(Qnat ?k / Qnat ?n * ?c)%Q] =>
    pose proof (boost_nonneg k n c ltac:(lra)) end.
  match goal with |- context [py_min 1 ?x] => set (v := x) end.
  assert (0 <= v)%Q as Hv by (subst v; destruct (_ && _); destruct (0 <? _)%nat; lra).
  split_min; lra.
Qed.

Lemma GoogleDriveTool_should_use_bounds t intent context :
  (0 <= GoogleDriveTool_should_use t intent context <= 1)%Q.
Proof.
  unfold GoogleDriveTool_should_use. cbv zeta.
  match goal with |- context [py_min 1 ?x] => set (v := x) end.
  destruct (py_min_cases 1 v) as [[H E] | [H E]]; rewrite E; split_max; lra.
Qed.

Lemma DataAnalysisTool_should_use_bounds t intent context :
  (0 <= DataAnalysisTool_should_use t intent context <= 1)%Q.
Proof.
  unfold DataAnalysisTool_should_use. pose proof (ScoringFacts.BaseTool_should_use_bounds t intent context) as Hb.
  cbv zeta.
  match goal with |- context [(Qnat ?k / Qnat ?n * ?c)%Q] =>
    pose proof (boost_nonneg k n c ltac:(lra)) end.
  match goal with |- context [py_min 1 ?x] => set (v := x) end.
  assert (0 <= v)%Q as Hv by (subst v; destruct (_ || _); destruct (0 <? _)%nat; lra).
  split_min; lra.
Qed.

Lemma SummaryTool_should_use_bounds t intent context :
  (0 <= SummaryTool_should_use t intent context <= 1)%Q.
Proof.
  unfold SummaryTool_should_use. pose proof (ScoringFacts.BaseTool_should_use_bounds t intent context) as Hb.
  cbv zeta.
  match goal with |- context [(Qnat ?k / Qnat ?n * ?c)%Q] =>
    pose proof (boost_nonneg k n c ltac:(lra)) end.
  match goal with |- context [py_min 1 ?x] => set (v := x) end.
  assert (0 <= v)%Q as Hv.
  { subst v. destruct (_ || _); destruct (0 <? _)%nat; destruct (existsb _ _); lra. }
  split_min; lra.
Qed.

Lemma NotionTool_should_use_bounds t intent context :
  (0 <= NotionTool_should_use t intent context <= 1)%Q.
Proof.
  unfold NotionTool_should_use. cbv zeta.
  destruct (is_configured t); cbn [negb]; [| lra].
  repeat match goal with |- context [Qnat ?k] =>
    let x := fresh "x" in
    pose proof (Qnat_nonneg k); set (x := Qnat k) in * end.
  repeat (destruct (0 <? _)%nat); try split_min; lra.
Qed.

Lemma SlackTool_should_use_bounds t intent context :
  (0 <= SlackTool_should_use t intent context <= 1)%Q.
Proof.
  unfold SlackTool_should_use. cbv zeta.
  destruct (is_configured t); cbn [negb]; [| lra].
  repeat match goal with |- context [Qnat ?k] =>
    let x := fresh "x" in
    pose proof (Qnat_nonneg k); set (x := Qnat k) in * end.
  repeat (destruct (0 <? _)%nat); cbn [andb]; try split_min; lra.
Qed.

(** Whatever its class, a tool's applicability estimate lies in the unit
    interval: every override of [should_use] clips what it adds to the
    default score. *)
Theorem should_use_in_unit_interval t intent context :
  (0 <= should_use t intent context <= 1)%Q.
Proof.
  unfold should_use. destruct (tool_class t).
  - apply ScoringFacts.BaseTool_should_use_bounds.
  - apply MCPDatabaseTool_should_use_bounds.
  - apply GoogleDriveTool_should_use_bounds.
  - apply DataAnalysisTool_should_use_bounds.
  - apply SummaryTool_should_use_bounds.
  - apply NotionTool_should_use_bounds.
  - apply SlackTool_should_use_bounds.
Qed.

(** A context that has more keys never lowers the default score. *)
Theorem default_score_grows_with_context t intent (context context' : gmap string Value) :
  (forall k, has_key k context = true -> has_key k context' = true) ->
  (BaseTool_should_use t intent context <= BaseTool_should_use t intent context')%Q.
Proof.
  intros Hsub. unfold BaseTool_should_use.
  destruct (enabled t); cbn [negb]; [| lra]. cbv zeta.
  set (b := if (_ =? 0)%nat then _ else _).
  assert (prereq_penalty (prerequisites (capabilities t)) context'
          <= prereq_penalty (prerequisites (capabilities t)) context)%Q as Hp.
  { unfold prereq_penalty. rewrite !ScoringFacts.prereq_penalty_from.
    pose proof (missing_fewer (prerequisites (capabilities t)) context context' Hsub) as Hn.
    apply Nat2Z.inj_le in Hn. rewrite Zle_Qle in Hn. unfold Qnat. lra. }
  set (p := prereq_penalty _ context) in *. set (p' := prereq_penalty _ context') in *.
  destruct (py_max_cases 0 (b - p)) as [[H1 E1] | [H1 E1]]; rewrite E1;
  destruct (py_max_cases 0 (b - p')) as [[H2 E2] | [H2 E2]]; rewrite E2;
  repeat split_min; lra.
Qed.

End Range.

Lemma default_score_grows_with_context_witness :
  let context' : gmap string Value := {[ "database_connection" := VBool true ]} in
  (BaseTool_should_use MoreScenarios.mcp_ready "user activity" ∅ == 0)%Q /\
  (BaseTool_should_use MoreScenarios.mcp_ready "user activity" ∅
   <= BaseTool_should_use MoreScenarios.mcp_ready "user activity" context')%Q.
Proof.
  intros context'. split; [reflexivity |].
  apply default_score_grows_with_context.
  intros k H. unfold has_key in H. rewrite lookup_empty in H. discriminate.
Defined.

End ScoreRange.

Module RegistryOpsFacts.
Import Tools Registry RegistryOps.



Lemma first_seen_snoc (names : list string) (n : string) :
  first_seen (names ++ [n])
  = if PyList.str_mem n (first_seen names) then first_seen names else first_seen names ++ [n].
Proof. unfold first_seen. rewrite fold_left_app. reflexivity. Qed.

Lemma first_seen_In (names : list string) (n : string) :
  In n (first_seen names) <-> In n names.
Proof.
  induction names as [| m names IH] using rev_ind; [reflexivity |].
  rewrite first_seen_snoc, in_app_iff. cbn [In].
  destruct (PyList.str_mem m (first_seen names)) eqn:E.
  - apply DictFacts.str_mem_In in E. rewrite IH. split; [tauto |].
    intros [H | [<- | []]]; [exact H | apply IH, E].
  - rewrite in_app_iff. cbn [In]. rewrite IH. tauto.
Qed.

Lemma first_seen_NoDup (names : list string) : List.NoDup (first_seen names).
Proof.
  induction names as [| m names IH] using rev_ind; [constructor |].
  rewrite first_seen_snoc.
  destruct (PyList.str_mem m (first_seen names)) eqn:E; [exact IH |].
  apply NoDup_ListNoDup, NoDup_app. apply NoDup_ListNoDup in IH.
  split; [exact IH |]. split; [| apply NoDup_singleton].
  intros x Hx Hx'. apply list_elem_of_singleton in Hx'. subst x.
  apply list_elem_of_In, DictFacts.str_mem_In in Hx. congruence.
Qed.

Section Facts.
Context {W : Type}.
Implicit Types (reg : ToolRegistry W) (t tool : BaseTool W).

Lemma registered_snoc (tools : list (BaseTool W)) t :
  registered (tools ++ [t]) = register_tool t (registered tools).
Proof. unfold registered. rewrite fold_left_app. reflexivity. Qed.

(** What was registered under a name is what a lookup of that name
    returns, and no other name is affected. *)
Theorem register_tool_then_get_tool t reg :
  get_tool (name (capabilities t)) (register_tool t reg) = Some t /\
  registry_getitem (name (capabilities t)) (register_tool t reg) = Returned t /\
  (forall n, n <> name (capabilities t) -> get_tool n (register_tool t reg) = get_tool n reg) /\
  registry_len (register_tool t reg)
  = (if registry_contains (name (capabilities t)) reg
     then registry_len reg else S (registry_len reg)).
Proof.
  unfold registry_getitem, get_tool, register_tool, registry_len, registry_contains,
    get_tool.
  rewrite DictFacts.str_assoc_get_set_same.
  split; [reflexivity |]. split; [reflexivity |].
  split; [intros n Hn; apply DictFacts.str_assoc_get_set_other; congruence |].
  rewrite <- (length_map fst), DictFacts.str_assoc_set_keys.
  destruct (PyList.assoc_get String.eqb (name (capabilities t)) reg) eqn:E.
  - destruct (PyList.str_mem _ _) eqn:M; [apply length_map |].
    apply DictFacts.str_assoc_get_none in M. congruence.
  - apply DictFacts.str_assoc_get_none in E. rewrite E, length_app, length_map. cbn. lia.
Qed.

(** After any sequence of registrations the registry lists each name
    once, in the order of first registration, and a lookup returns the
    tool registered last under the name. *)
Theorem registered_first_position_last_instance (tools : list (BaseTool W)) :
  List.map fst (registered tools)
  = first_seen (List.map (fun t => name (capabilities t)) tools) /\
  List.NoDup (List.map fst (registered tools)) /\
  (forall n, get_tool n (registered tools) = List.find (tool_named n) (rev tools)) /\
  (forall n t, get_tool n (registered tools) = Some t -> name (capabilities t) = n).
Proof.
  assert (List.map fst (registered tools)
          = first_seen (List.map (fun t => name (capabilities t)) tools)) as Hnames.
  { induction tools as [| t tools IH] using rev_ind; [reflexivity |].
    rewrite registered_snoc, List.map_app. cbn [List.map]. rewrite first_seen_snoc.
    unfold register_tool. rewrite DictFacts.str_assoc_set_keys, IH. reflexivity. }
  assert (forall n, get_tool n (registered tools) = List.find (tool_named n) (rev tools))
    as Hfind.
  { clear Hnames. induction tools as [| t tools IH] using rev_ind; [reflexivity |].
    intros n. rewrite registered_snoc, rev_app_distr. cbn [rev app List.find].
    unfold tool_named at 1. destruct (String.eqb (name (capabilities t)) n) eqn:E.
    - apply String.eqb_eq in E. subst n. unfold get_tool, register_tool.
      apply DictFacts.str_assoc_get_set_same.
    - unfold get_tool, register_tool. rewrite DictFacts.str_assoc_get_set_other.
      + apply IH.
      + intros C. rewrite C, String.eqb_refl in E. discriminate. }
  split; [exact Hnames |]. split; [rewrite Hnames; apply first_seen_NoDup |].
  split; [exact Hfind |].
  intros n t Ht. rewrite Hfind in Ht. apply find_some in Ht as [_ Ht].
  apply String.eqb_eq, Ht.
Qed.

End Facts.
End RegistryOpsFacts.

Module SelectorFacts.
Import Tools Registry Selector Scenarios.

Section Facts.
Context {W : Type}.
Implicit Types (reg : ToolRegistry W) (tools : list (BaseTool W * Q)).

Lemma adjusted_in_unit_interval (t : BaseTool W) (c : Q) context (a : Q) :
  _adjust_confidence t c context = Returned a -> (0 <= a <= 1)%Q.
Proof.
  unfold _adjust_confidence. cbv zeta.
  match goal with |- obind ?x _ = _ -> _ => destruct x as [v | e] end; cbn [obind];
    [| discriminate].
  destruct (name_in_recent _ _) as [r | e]; cbn [obind]; [| discriminate].
  intros [= <-].
  match goal with |- context [py_min 1 ?x] => set (y := x) end.
  destruct (ScoringFacts.py_min_one y) as [[H ->] | [H ->]];
  match goal with |- context [py_max 0 ?x] =>
    destruct (ScoringFacts.py_max_zero x) as [[H' ->] | [H' ->]] end; lra.
Qed.

Lemma filtering_spec min_confidence tools context l :
  _apply_contextual_filtering min_confidence tools context = Returned l ->
  Forall (fun e => _check_prerequisites (fst e) context = true /\
                   (min_confidence <= snd e)%Q /\ (0 <= snd e <= 1)%Q) l /\
  sublist (List.map fst l) (List.map fst tools).
Proof.
  revert l. induction tools as [| [t c] tools IH]; intros l; cbn.
  - intros [= <-]. split; [constructor | constructor].
  - destruct (_check_prerequisites t context) eqn:Hp.
    + destruct (_adjust_confidence t c context) as [a | e] eqn:Ha; cbn [obind];
        [| discriminate].
      destruct (_apply_contextual_filtering _ tools context) as [tl | e]; cbn [obind];
        [| discriminate].
      destruct (IH tl eq_refl) as [IH1 IH2].
      destruct (Qle_bool min_confidence a) eqn:Hq; intros [= <-].
      * split.
        -- constructor; [| exact IH1]. cbn.
           split; [exact Hp |]. split; [apply Qle_bool_iff, Hq |].
           eapply adjusted_in_unit_interval, Ha.
        -- cbn. apply sublist_skip, IH2.
      * split; [exact IH1 | apply sublist_cons, IH2].
    + intros H. destruct (IH l H) as [IH1 IH2].
      split; [exact IH1 | apply sublist_cons, IH2].
Qed.

Lemma ranked_tools_enabled reg intent context min_confidence :
  Forall (fun e => enabled (fst e) = true)
         (get_tools_for_intent reg intent context min_confidence).
Proof.
  unfold get_tools_for_intent.
  eapply Permutation_Forall; [apply SortFacts.stable_sort_perm |].
  unfold score_candidates. apply Forall_forall. intros e He.
  apply list_elem_of_In, filter_In in He as [He _].
  apply in_map_iff in He as (t & <- & Ht). cbn.
  apply in_map_iff in Ht as ([n t'] & <- & Ht).
  unfold get_enabled_tools in Ht. apply filter_In in Ht as [_ Ht]. exact Ht.
Qed.

(** Every tool the selector returns is enabled, has all its
    prerequisites in the context and carries an adjusted confidence of at
    least the threshold, within the unit interval; the tools come in the
    order of the registry's ranking, which the adjustment does not redo. *)
Theorem select_tools_sound min_confidence reg (user_request : string) context l :
  select_tools min_confidence reg user_request context = Returned l ->
  Forall (fun e => enabled (fst e) = true /\
                   _check_prerequisites (fst e) context = true /\
                   (min_confidence <= snd e)%Q /\ (0 <= snd e <= 1)%Q) l /\
  sublist (List.map fst l)
          (List.map fst (get_tools_for_intent reg user_request context min_confidence)).
Proof.
  unfold select_tools. intros H. apply filtering_spec in H as [H1 H2].
  split; [| exact H2].
  pose proof (ranked_tools_enabled reg user_request context min_confidence) as He.
  apply Forall_forall. intros e Hin.
  rewrite Forall_forall in H1. split; [| apply H1, Hin].
  assert (fst e ∈ List.map fst l) as Hm.
  { apply list_elem_of_In, in_map, list_elem_of_In, Hin. }
  eapply elem_of_sublist in Hm; [| exact H2].
  apply list_elem_of_In, in_map_iff in Hm as (e' & <- & He').
  rewrite Forall_forall in He. apply He, list_elem_of_In, He'.
Qed.

End Facts.

Lemma select_tools_sound_witness :
  exists l,
    select_tools 0.1 snowflake_registry table_request (plain_context table_request)
    = Returned l /\
    Forall (fun e => enabled (fst e) = true /\
                     _check_prerequisites (fst e) (plain_context table_request) = true /\
                     (0.1 <= snd e)%Q /\ (0 <= snd e <= 1)%Q) l.
Proof.
  eexists. split; [vm_compute; reflexivity |].
  refine (proj1 (select_tools_sound 0.1 snowflake_registry table_request
                   (plain_context table_request) _ _)).
  vm_compute. reflexivity.
Defined.

End SelectorFacts.

Module SessionFacts.
Import Tools ContextManager ContextOps Observations Scenarios.

Lemma key_eqb_refl (k : Value) : hashable k = true -> key_eqb k k = true.
Proof.
  destruct k; cbn; try discriminate; intros _;
    [reflexivity | apply Bool.eqb_reflx | apply Z.eqb_refl | apply String.eqb_refl
    | apply String.eqb_refl].
Qed.

Lemma key_eqb_sym (a b : Value) : key_eqb a b = key_eqb b a.
Proof.
  destruct a, b; cbn; try reflexivity.
  - destruct b, b0; reflexivity.
  - apply Z.eqb_sym.
  - apply String.eqb_sym.
  - apply String.eqb_sym.
Qed.

Lemma key_eqb_trans (a b c : Value) :
  key_eqb a b = true -> key_eqb b c = true -> key_eqb a c = true.
Proof.
  destruct a, b, c; cbn; try discriminate; try reflexivity;
    repeat match goal with b : bool |- _ => destruct b end; cbn;
    rewrite ?Z.eqb_eq, ?String.eqb_eq; try discriminate; try congruence; try lia.
Qed.

Section Store.
Context {V : Type}.
Implicit Types (d : list (Value * V)) (k : Value) (v : V).

Lemma assoc_get_set_same k v d :
  hashable k = true ->
  PyList.assoc_get key_eqb k (PyList.assoc_set key_eqb k v d) = Some v.
Proof.
  intros Hk. induction d as [| [k' v'] d IH]; cbn.
  - rewrite key_eqb_refl by exact Hk. reflexivity.
  - destruct (key_eqb k' k) eqn:E; cbn; rewrite E; [reflexivity | exact IH].
Qed.

Lemma assoc_get_set_other k k2 v d :
  key_eqb k k2 = false ->
  PyList.assoc_get key_eqb k2 (PyList.assoc_set key_eqb k v d)
  = PyList.assoc_get key_eqb k2 d.
Proof.
  intros Hne. induction d as [| [k' v'] d IH]; cbn.
  - rewrite Hne. reflexivity.
  - destruct (key_eqb k' k) eqn:E; cbn.
    + destruct (key_eqb k' k2) eqn:E2; [| reflexivity].
      rewrite key_eqb_sym in E.
      rewrite (key_eqb_trans _ _ _ E E2) in Hne. discriminate.
    + rewrite IH. reflexivity.
Qed.

Lemma assoc_get_del_same k d :
  PyList.assoc_get key_eqb k (assoc_del k d) = None.
Proof.
  unfold assoc_del. induction d as [| [k' v'] d IH]; cbn; [reflexivity |].
  destruct (key_eqb k' k) eqn:E; cbn; [exact IH | rewrite E; exact IH].
Qed.

Lemma assoc_get_del_other k k2 d :
  key_eqb k k2 = false ->
  PyList.assoc_get key_eqb k2 (assoc_del k d) = PyList.assoc_get key_eqb k2 d.
Proof.
  intros Hne. unfold assoc_del. induction d as [| [k' v'] d IH]; cbn; [reflexivity |].
  destruct (key_eqb k' k) eqn:E; cbn.
  - destruct (key_eqb k' k2) eqn:E2; [| exact IH].
    rewrite key_eqb_sym in E.
    rewrite (key_eqb_trans _ _ _ E E2) in Hne. discriminate.
  - rewrite IH. reflexivity.
Qed.

End Store.

Section Update.
Variable format_value : Value -> string.

(** The session [update_context] leaves behind when it returns. *)
Lemma update_context_session (m : Manager) clk context tool_results :
  fst (update_context format_value m clk context tool_results) = Returned tt ->
  exists timestamp user_request sc prefs,
    context !! "timestamp" = Some timestamp /\
    context !! "user_request" = Some user_request /\
    hashable (session_of context) = true /\
    sc = match get_session (session_of context) (session_contexts m) with
         | Some sc => sc
         | None => fresh_session clk
         end /\
    get_session (session_of context)
      (session_contexts (snd (update_context format_value m clk context tool_results)))
    = Some {| history :=
                (let history1 := history sc ++ [entry_of timestamp user_request tool_results] in
                 if (max_history_size m <? Z.of_nat (length history1))%Z
                 then PyList.slice_from_neg (max_history_size m) history1 else history1);
              recent_tools :=
                PyList.slice_from_neg 10 (add_recent (recent_tools sc) tool_results);
              preferences := prefs;
              created_at := created_at sc |} /\
    _extract_preferences format_value context tool_results (preferences sc) = Returned prefs.
Proof.
  unfold update_context, session_of.
  set (sid := match context !! "session_id" with Some v => v | None => VStr "default" end).
  destruct (hashable sid) eqn:Hh; cbn [negb]; [| discriminate].
  set (store := match get_session sid (session_contexts m) with
                | Some _ => session_contexts m
                | None => set_session sid (fresh_session clk) (session_contexts m)
                end).
  assert (match get_session sid store with Some sc => sc | None => fresh_session clk end
          = match get_session sid (session_contexts m) with
            | Some sc => sc | None => fresh_session clk end) as Hsc.
  { subst store. destruct (get_session sid (session_contexts m)) eqn:E.
    - rewrite E. reflexivity.
    - unfold get_session, set_session. rewrite assoc_get_set_same by exact Hh. reflexivity. }
  rewrite Hsc.
  set (sc := match get_session sid (session_contexts m) with
             | Some sc => sc | None => fresh_session clk end).
  destruct (context !! "timestamp") as [ts |]; [| discriminate].
  destruct (context !! "user_request") as [ur |]; [| discriminate].
  destruct (_extract_preferences format_value context tool_results (preferences sc))
    as [prefs | e] eqn:Hp; [| discriminate].
  intros _. exists ts, ur, sc, prefs.
  split; [reflexivity |]. split; [reflexivity |]. split; [reflexivity |].
  split; [reflexivity |]. split; [| exact Hp].
  cbn [snd session_contexts]. unfold get_session, set_session.
  rewrite assoc_get_set_same by exact Hh. reflexivity.
Qed.

Lemma update_context_frame (m : Manager) clk context tool_results (other : Value) :
  key_eqb (session_of context) other = false ->
  get_session other
    (session_contexts (snd (update_context format_value m clk context tool_results)))
  = get_session other (session_contexts m).
Proof.
  intros Hne. unfold update_context. fold (session_of context).
  destruct (hashable (session_of context)); cbn [negb]; [| reflexivity].
  set (store := match get_session (session_of context) (session_contexts m) with
                | Some _ => session_contexts m
                | None => set_session (session_of context) (fresh_session clk)
                            (session_contexts m)
                end).
  assert (get_session other store = get_session other (session_contexts m)) as Hstore.
  { subst store. destruct (get_session (session_of context) (session_contexts m));
      [reflexivity |].
    apply assoc_get_set_other, Hne. }
  destruct (context !! "timestamp"); [| exact Hstore].
  destruct (context !! "user_request"); [| exact Hstore].
  destruct (_extract_preferences _ _ _ _); cbn [snd session_contexts];
    unfold get_session, set_session; rewrite assoc_get_set_other by exact Hne;
    exact Hstore.
Qed.

(** [update_context] reads and writes the session named by the context
    and no other: whether it returns or raises, every other session is as
    it was and the cap is kept; and once the session id is hashable the
    context's own session exists afterwards, also when the call goes on
    to raise. *)
Theorem update_context_leaves_other_sessions (m : Manager) clk context tool_results
    (other : Value) :
  key_eqb (session_of context) other = false ->
  let m' := snd (update_context format_value m clk context tool_results) in
  get_session other (session_contexts m') = get_session other (session_contexts m) /\
  max_history_size m' = max_history_size m /\
  (hashable (session_of context) = true ->
   is_Some (get_session (session_of context) (session_contexts m'))).
Proof.
  intros Hne m'. subst m'.
  split; [apply update_context_frame, Hne |].
  split; [apply ContextFacts.update_context_keeps_cap |].
  intros Hh. unfold update_context. fold (session_of context). rewrite Hh. cbn [negb].
  set (store := match get_session (session_of context) (session_contexts m) with
                | Some _ => session_contexts m
                | None => set_session (session_of context) (fresh_session clk)
                            (session_contexts m)
                end).
  assert (is_Some (get_session (session_of context) store)) as Hstore.
  { subst store. destruct (get_session (session_of context) (session_contexts m)) eqn:E.
    - rewrite E. eauto.
    - unfold get_session, set_session. rewrite assoc_get_set_same by exact Hh. eauto. }
  destruct (context !! "timestamp"); [| exact Hstore].
  destruct (context !! "user_request"); [| exact Hstore].
  destruct (_extract_preferences _ _ _ _); cbn [snd session_contexts];
    unfold get_session, set_session; rewrite assoc_get_set_same by exact Hh; eauto.
Qed.

(** [update_context] returns exactly on the contexts with a hashable
    session id (or none), an iterable [data_types] entry (or none) and
    the [timestamp] and [user_request] entries; on every other context
    it raises. *)
Theorem update_context_returns_iff_foldable (m : Manager) clk context tool_results :
  fst (update_context format_value m clk context tool_results) = Returned tt
  <-> foldable context = true.
Proof.
  unfold foldable, has_key, update_context, _extract_preferences, py_iter.
  destruct (context !! "session_id") as [sid |].
  - destruct (hashable sid); cbn [negb andb]; [| split; discriminate].
    destruct (context !! "timestamp"); [| rewrite !andb_false_r; split; discriminate].
    destruct (context !! "user_request"); [| rewrite !andb_false_r; split; discriminate].
    destruct (context !! "data_types") as [[] |]; cbn; split; try discriminate; reflexivity.
  - cbn [negb hashable andb].
    destruct (context !! "timestamp"); [| rewrite !andb_false_r; split; discriminate].
    destruct (context !! "user_request"); [| rewrite !andb_false_r; split; discriminate].
    destruct (context !! "data_types") as [[] |]; cbn; split; try discriminate; reflexivity.
Qed.

Lemma slice_from_neg_snoc {A : Type} (n : Z) (l : list A) (x : A) :
  (1 <= n)%Z -> exists earlier, PyList.slice_from_neg n (l ++ [x]) = earlier ++ [x].
Proof.
  intros Hn. unfold PyList.slice_from_neg.
  destruct (Z.ltb_spec (- n) 0) as [_ | H]; [| lia].
  rewrite length_app. cbn [length].
  exists (drop (Z.to_nat (Z.max (Z.of_nat (length l + 1) + - n) 0)) l).
  apply drop_app_le. lia.
Qed.

Lemma capped_history_ends_with {A : Type} (cap : Z) (l : list A) (x : A) :
  (1 <= cap)%Z ->
  exists earlier,
    (let history1 := l ++ [x] in
     if (cap <? Z.of_nat (length history1))%Z
     then PyList.slice_from_neg cap history1 else history1) = earlier ++ [x].
Proof.
  intros Hcap. cbv zeta. destruct (cap <? _)%Z.
  - apply slice_from_neg_snoc, Hcap.
  - exists l. reflexivity.
Qed.



Section Build.
Variable re_search : string -> string -> option string.
Variable dateutil_parse : string -> option string.

(** What [update_context] records under a session id is what the next
    [build_context] for that session id shows: the last entry of its
    [conversation_history] is the request just folded, with one summary
    per tool result. *)
Theorem updated_history_reaches_next_context (m : Manager) clk context tool_results
    (sid : string) clk' (user_request : string) (user_id : option string) :
  context !! "session_id" = Some (VStr sid) ->
  sid <> "" ->
  (1 <= max_history_size m)%Z ->
  fst (update_context format_value m clk context tool_results) = Returned tt ->
  exists earlier timestamp request,
    context !! "timestamp" = Some timestamp /\
    context !! "user_request" = Some request /\
    build_context re_search dateutil_parse
      (snd (update_context format_value m clk context tool_results))
      clk' user_request user_id (Some sid) None !! "conversation_history"
    = Some (VList (earlier ++ [entry_value (entry_of timestamp request tool_results)])).
Proof.
  intros Hsid Hne Hcap Hret.
  destruct (update_context_session m clk context tool_results Hret)
    as (ts & ur & sc & prefs & Hts & Hur & _ & _ & Hget & _).
  assert (session_of context = VStr sid) as Hs by (unfold session_of; rewrite Hsid; reflexivity).
  rewrite Hs in Hget.
  destruct (capped_history_ends_with (max_history_size m) (history sc)
              (entry_of ts ur tool_results) Hcap) as [earlier Hh].
  exists (List.map entry_value earlier), ts, ur.
  split; [exact Hts |]. split; [exact Hur |].
  unfold build_context. rewrite Hget.
  assert (truthy_str (Some sid) = true) as ->.
  { destruct sid; [contradiction | reflexivity]. }
  cbn [history recent_tools preferences].
  rewrite lookup_insert_ne by discriminate.
  rewrite lookup_insert_ne by discriminate.
  rewrite lookup_insert_eq. cbv zeta in Hh |- *. rewrite Hh, List.map_app. reflexivity.
Qed.

End Build.

(** A cleared session is gone, its preferences with it, and the other
    sessions stay. *)
Theorem clear_session_context_forgets (m : Manager) (session_id : string) :
  get_session_context (clear_session_context m session_id) session_id = None /\
  get_user_preferences (clear_session_context m session_id) session_id
  = {| requested := []; tool_combinations := None |} /\
  (forall other, other <> session_id ->
     get_session_context (clear_session_context m session_id) other
     = get_session_context m other) /\
  max_history_size (clear_session_context m session_id) = max_history_size m.
Proof.
  unfold get_session_context, get_user_preferences, clear_session_context.
  destruct (get_session (VStr session_id) (session_contexts m)) as [sc |] eqn:E;
    cbn [session_contexts max_history_size].
  - unfold get_session. rewrite assoc_get_del_same.
    split; [reflexivity |]. split; [reflexivity |]. split; [| reflexivity].
    intros other Hne. apply assoc_get_del_other. cbn.
    apply String.eqb_neq. congruence.
  - rewrite E. repeat split; reflexivity.
Qed.

End Update.

Lemma update_context_leaves_other_sessions_witness :
  let m :=
    snd (update_context (fun _ => "") MoreScenarios.alice_manager noon
           (plain_context "list the tables") [success_result "snowflake_query"]) in
  session_of (plain_context "list the tables") = VStr "default" /\
  is_Some (get_session (VStr "default") (session_contexts m)) /\
  is_Some (get_session (VStr "alice") (session_contexts m)) /\
  get_session (VStr "alice") (session_contexts m)
  = get_session (VStr "alice") (session_contexts MoreScenarios.alice_manager).
Proof.
  intros m. split; [reflexivity |].
  split; [vm_compute; eauto |]. split; [vm_compute; eauto |].
  refine (proj1 (update_context_leaves_other_sessions (fun _ => "")
                   MoreScenarios.alice_manager noon (plain_context "list the tables")
                   [success_result "snowflake_query"] (VStr "alice") _)).
  reflexivity.
Defined.

Lemma updated_history_reaches_next_context_witness :
  let m :=
    snd (update_context (fun _ => "") MoreScenarios.alice_manager noon
           MoreScenarios.alice_context [success_result "snowflake_query"]) in
  exists earlier,
    length earlier = 1%nat /\
    build_context (fun _ _ => None) (fun _ => None) m noon "and the views" None
      (Some "alice") None !! "conversation_history"
    = Some (VList (earlier ++
                   [entry_value (entry_of (VStr "2024-05-02T12:00:00")
                                   (VStr "list the tables")
                                   [success_result "snowflake_query"])])).
Proof.
  intros m.
  destruct (updated_history_reaches_next_context (fun _ => "") (fun _ _ => None)
              (fun _ => None) MoreScenarios.alice_manager noon MoreScenarios.alice_context
              [success_result "snowflake_query"] "alice" noon "and the views" None)
    as (earlier & ts & ur & Hts & Hur & Hb);
    [reflexivity | discriminate | vm_compute; discriminate | reflexivity |].
  injection Hts as <-. injection Hur as <-. fold m in Hb.
  exists earlier. split; [| exact Hb].
  assert (build_context (fun _ _ => None) (fun _ => None) m noon "and the views" None
            (Some "alice") None !! "conversation_history"
          = Some (VList [entry_value (entry_of (VStr "2024-05-02T12:00:00")
                                        (VStr "list the tables")
                                        [success_result "snowflake_query"]);
                         entry_value (entry_of (VStr "2024-05-02T12:00:00")
                                        (VStr "list the tables")
                                        [success_result "snowflake_query"])])) as Hc
    by (vm_compute; reflexivity).
  rewrite Hc in Hb. injection Hb as Hb.
  apply (f_equal (@length Value)) in Hb. rewrite length_app in Hb. cbn in Hb. lia.
Defined.

Lemma positive_cap_bounds_sessions_witness :
  (1 <= default_max_history_size)%Z /\
  manager_bounded
    (after_calls (fun _ => "") (new_manager default_max_history_size)
       [plain_call; plain_call]).
Proof.
  assert (1 <= default_max_history_size)%Z as H by (unfold default_max_history_size; lia).
  split; [exact H |].
  exact (ContextFacts.positive_cap_bounds_sessions (fun _ => "")
           default_max_history_size [plain_call; plain_call] H).
Defined.

End SessionFacts.

Module PreferenceFacts.
Import Tools ContextManager ContextOps Observations Scenarios.

Section Preferences.
Variable format_value : Value -> string.

Lemma counter_bump (key key' : string) (d : list (string * Z)) :
  counter key' (bump key d)
  = (counter key' d + if String.eqb key key' then 1 else 0)%Z.
Proof.
  unfold counter, bump. destruct (String.eqb key key') eqn:E.
  - apply String.eqb_eq in E. subst key'.
    rewrite DictFacts.str_assoc_get_set_same.
    destruct (PyList.assoc_get String.eqb key d); lia.
  - rewrite DictFacts.str_assoc_get_set_other.
    + lia.
    + intros C. subst. rewrite String.eqb_refl in E. discriminate.
Qed.

Lemma requested_key_inj (a b : string) :
  requested_key format_value (VStr a) = requested_key format_value (VStr b) -> a = b.
Proof. unfold requested_key. simpl. intros H. injection H. auto. Qed.

Lemma counters_fold (dts : list string) (d : list (string * Z)) (dt : string) :
  counter ("requested_" +:+ dt)
    (fold_left (fun acc data_type => bump (requested_key format_value data_type) acc)
       (List.map VStr dts) d)
  = (counter ("requested_" +:+ dt) d + Z.of_nat (count_occ string_dec dts dt))%Z.
Proof.
  revert d. induction dts as [| x dts IH]; intros d; cbn [List.map fold_left count_occ].
  - lia.
  - rewrite IH.
    change ("requested_" +:+ dt) with (requested_key format_value (VStr dt)).
    rewrite counter_bump.
    destruct (string_dec x dt) as [-> | Hne].
    + rewrite String.eqb_refl. lia.
    + destruct (String.eqb _ _) eqn:E; [| lia].
      apply String.eqb_eq, requested_key_inj in E. contradiction.
Qed.

(** One call counts each topic of the request once per occurrence: the
    counter [requested_<topic>] grows by the number of times the topic is
    listed under [data_types], every other counter is unchanged, and the
    tool combinations are touched only when two or more results
    succeeded. *)
Theorem requested_counters_count_topics (context : gmap string Value)
    (tool_results : list ToolResult) (prefs : Preferences) (topics : list string) :
  context !! "data_types" = Some (VList (List.map VStr topics)) ->
  exists prefs',
    _extract_preferences format_value context tool_results prefs = Returned prefs' /\
    (forall topic,
        requested_count prefs' topic
        = (requested_count prefs topic + Z.of_nat (count_occ string_dec topics topic))%Z) /\
    ((length (List.filter (fun r => status_eqb (status r) SUCCESS) tool_results) <= 1)%nat ->
     tool_combinations prefs' = tool_combinations prefs).
Proof.
  intros Hd. unfold _extract_preferences. rewrite Hd. cbn [py_iter obind].
  eexists. split; [reflexivity |]. split.
  - intros topic. unfold requested_count.
    pose proof (counters_fold topics (requested prefs) topic) as H.
    unfold counter in H. destruct (1 <? _)%nat; cbn [requested]; exact H.
  - intros Hlen.
    assert (List.filter (fun r => String.eqb (status_value (status r)) "success") tool_results
            = List.filter (fun r => status_eqb (status r) SUCCESS) tool_results) as ->.
    { apply filter_ext. intros r. destruct (status r); reflexivity. }
    rewrite length_map.
    destruct (Nat.ltb_spec 1 (length (List.filter (fun r => status_eqb (status r) SUCCESS)
                                        tool_results))) as [H | H]; [lia | reflexivity].
Qed.

End Preferences.

Lemma requested_counters_count_topics_witness :
  let context : gmap string Value :=
    {[ "data_types" := VList (List.map VStr ["summary"; "history"; "summary"]) ]} in
  let prefs := {| requested := [("requested_summary", 4%Z)]; tool_combinations := None |} in
  exists prefs',
    _extract_preferences (fun _ => "") context [success_result "snowflake_query"] prefs
    = Returned prefs' /\
    requested_count prefs' "summary" = 6%Z /\
    requested_count prefs' "history" = 1%Z.
Proof.
  intros context prefs.
  destruct (requested_counters_count_topics (fun _ => "") context
              [success_result "snowflake_query"] prefs ["summary"; "history"; "summary"]
              eq_refl) as (prefs' & H & Hc & _).
  exists prefs'. split; [exact H |].
  rewrite !Hc. split; reflexivity.
Defined.

End PreferenceFacts.

Module BuildFacts.
Import Tools ContextManager ContextOps Observations Scenarios.

Section Build.
Variable re_search : string -> string -> option string.
Variable dateutil_parse : string -> option string.
Variable format_value : Value -> string.

Lemma sublist_map_filter {A B : Type} (f : A -> B) (p : A -> bool) (l : list A) :
  sublist (List.map f (List.filter p l)) (List.map f l).
Proof.
  induction l as [| x l IH]; cbn; [constructor |].
  destruct (p x); cbn; [apply sublist_skip, IH | apply sublist_cons, IH].
Qed.

(** The topics found in a request are labels of the fixed vocabulary,
    each at most once and in the vocabulary's order; a label is found
    exactly when one of its keywords occurs in the lower-cased request; the
    [data_types] entry is absent, never an empty list, when none is
    found; and [date] and [original_date_text] come together. *)
Theorem extract_entities_topics clk (user_request : string) :
  let entities := _extract_entities re_search dateutil_parse clk user_request in
  let found := matching_data_types (PyStr.lower user_request) in
  sublist found data_type_labels /\
  (forall label,
      In label found <->
      exists keywords keyword,
        In (label, keywords) data_type_keywords /\ In keyword keywords /\
        PyStr.contains keyword (PyStr.lower user_request) = true) /\
  entities !! "data_types"
  = (if decide (found = []) then None else Some (VList (List.map VStr found))) /\
  (is_Some (entities !! "date") <-> is_Some (entities !! "original_date_text")).
Proof.
  intros entities found. split; [apply sublist_map_filter |]. split.
  - intros label. subst found. unfold matching_data_types.
    rewrite in_map_iff. split.
    + intros ([l kws] & <- & Hin). apply filter_In in Hin as [Hin Hex].
      apply existsb_exists in Hex as (kw & Hkw & Hc).
      exists kws, kw. cbn. auto.
    + intros (kws & kw & Hin & Hkw & Hc). exists (label, kws). split; [reflexivity |].
      apply filter_In. split; [exact Hin |]. apply existsb_exists. exists kw. auto.
  - subst entities found. unfold _extract_entities.
    destruct (matching_data_types (PyStr.lower user_request)) as [| x l]; cbn [decide].
    + split.
      * destruct (decide _); [| contradiction].
        repeat case_match; simplify_map_eq; reflexivity.
      * repeat case_match; simplify_map_eq; split; intros [? ?]; try discriminate; eauto.
    + split.
      * destruct (decide _); [discriminate |]. simplify_map_eq. reflexivity.
      * repeat case_match; simplify_map_eq; split; intros [? ?]; try discriminate; eauto.
Qed.

Lemma extract_entities_base_key clk user_request k :
  In k ["session_id"; "timestamp"; "user_request"; "user_id"] ->
  _extract_entities re_search dateutil_parse clk user_request !! k = None.
Proof.
  intros Hin. unfold _extract_entities.
  destruct Hin as [<- | [<- | [<- | [<- | []]]]];
    repeat case_match; simplify_map_eq; reflexivity.
Qed.

Lemma extract_entities_data_types_iterable clk user_request :
  match _extract_entities re_search dateutil_parse clk user_request !! "data_types" with
  | Some (VList _) | None => True
  | Some _ => False
  end.
Proof.
  unfold _extract_entities. repeat case_match; simplify_map_eq; exact I.
Qed.

(** The part of a built context that is there before session state and
    additional context are merged in. *)
Lemma build_context_lookup m clk user_request user_id session_id additional_context k :
  ~ In k session_keys ->
  (forall extra, additional_context = Some extra -> extra !! k = None) ->
  build_context re_search dateutil_parse m clk user_request user_id session_id
    additional_context !! k
  = (_extract_entities re_search dateutil_parse clk user_request ∪
     (match user_id with
      | Some uid => if truthy_str user_id
                    then <["user_id" := VStr uid]>
                           (<["session_id" := VStr (session_label session_id)]>
                              (<["timestamp" := VStr (now_iso clk)]>
                                 (<["user_request" := VStr user_request]> ∅)))
                    else <["session_id" := VStr (session_label session_id)]>
                           (<["timestamp" := VStr (now_iso clk)]>
                              (<["user_request" := VStr user_request]> ∅))
      | None => <["session_id" := VStr (session_label session_id)]>
                  (<["timestamp" := VStr (now_iso clk)]>
                     (<["user_request" := VStr user_request]> ∅))
      end)) !! k.
Proof.
  intros Hk Hextra. unfold build_context.
  set (base := _ ∪ _).
  set (with_session := match session_id with Some sid => _ | None => _ end).
  assert (with_session !! k = base !! k) as Hs.
  { subst with_session. destruct session_id as [sid |]; [| reflexivity].
    destruct (truthy_str (Some sid)); [| reflexivity].
    destruct (get_session _ _); [| reflexivity].
    rewrite !lookup_insert_ne; [reflexivity | | |];
      intros <-; apply Hk; cbn; auto. }
  destruct additional_context as [extra |]; [| exact Hs].
  destruct (decide (extra = ∅)); [exact Hs |].
  rewrite lookup_union_r; [exact Hs | apply Hextra; reflexivity].
Qed.

(** A context made by [build_context] can always be folded into the
    session state: unless the additional context replaces one of the
    entries [update_context] relies on, the call returns, and it
    writes to the session named by the [session_id] argument, the
    session "default" when there is none. *)
Theorem built_context_can_be_folded m clk (user_request : string) user_id session_id
    additional_context m' clk' (tool_results : list ToolResult) :
  untouched additional_context ->
  let context :=
    build_context re_search dateutil_parse m clk user_request user_id session_id
      additional_context in
  session_of context = VStr (session_label session_id) /\
  context !! "timestamp" = Some (VStr (now_iso clk)) /\
  context !! "user_request" = Some (VStr user_request) /\
  fst (update_context format_value m' clk' context tool_results) = Returned tt.
Proof.
  intros Hu context.
  assert (forall k, In k ["session_id"; "data_types"; "timestamp"; "user_request"] ->
                    forall extra, additional_context = Some extra -> extra !! k = None)
    as Hextra.
  { intros k Hk extra He. specialize (Hu extra He).
    rewrite Forall_forall in Hu. apply Hu, list_elem_of_In, Hk. }
  assert (forall k, In k ["session_id"; "data_types"; "timestamp"; "user_request"] ->
                    ~ In k session_keys) as Hns.
  { intros k Hk Hs. cbn in Hk, Hs. intuition (subst; discriminate). }
  assert (context !! "session_id" = Some (VStr (session_label session_id))) as Hsid.
  { subst context. rewrite build_context_lookup;
      [| apply Hns; cbn; auto | apply Hextra; cbn; auto].
    rewrite lookup_union_r by (apply extract_entities_base_key; cbn; auto).
    repeat case_match; simplify_map_eq; reflexivity. }
  assert (context !! "timestamp" = Some (VStr (now_iso clk))) as Hts.
  { subst context. rewrite build_context_lookup;
      [| apply Hns; cbn; auto | apply Hextra; cbn; auto].
    rewrite lookup_union_r by (apply extract_entities_base_key; cbn; auto).
    repeat case_match; simplify_map_eq; reflexivity. }
  assert (context !! "user_request" = Some (VStr user_request)) as Hur.
  { subst context. rewrite build_context_lookup;
      [| apply Hns; cbn; auto 6 | apply Hextra; cbn; auto 6].
    rewrite lookup_union_r by (apply extract_entities_base_key; cbn; auto).
    repeat case_match; simplify_map_eq; reflexivity. }
  assert (match context !! "data_types" with
          | Some (VList _) | None => True
          | Some _ => False
          end) as Hdt.
  { subst context. rewrite build_context_lookup;
      [| apply Hns; cbn; auto | apply Hextra; cbn; auto].
    pose proof (extract_entities_data_types_iterable clk user_request) as He.
    destruct (_extract_entities _ _ _ _ !! "data_types") as [v |] eqn:E.
    - erewrite lookup_union_Some_l by exact E. exact He.
    - rewrite lookup_union_r by exact E.
      repeat case_match; simplify_map_eq; exact I. }
  split; [unfold session_of; rewrite Hsid; reflexivity |].
  split; [exact Hts |]. split; [exact Hur |].
  apply LoopFacts.update_context_returns.
  unfold foldable, has_key. rewrite Hsid, Hts, Hur.
  destruct (context !! "data_types") as [[] |]; try contradiction; reflexivity.
Qed.

End Build.

Lemma built_context_can_be_folded_witness :
  let extra : gmap string Value := {[ "channel" := VStr "cli" ]} in
  let context :=
    build_context (fun _ _ => None) (fun _ => None) (new_manager default_max_history_size)
      noon "summary of past activity" (Some "u42") None (Some extra) in
  untouched (Some extra) /\
  session_of context = VStr "default" /\
  fst (update_context (fun _ => "") (new_manager default_max_history_size) noon context [])
  = Returned tt.
Proof.
  intros extra context.
  assert (untouched (Some extra)) as Hu.
  { intros e [= <-]. repeat constructor. }
  split; [exact Hu |].
  destruct (built_context_can_be_folded (fun _ _ => None) (fun _ => None) (fun _ => "")
              (new_manager default_max_history_size) noon "summary of past activity"
              (Some "u42") None (Some extra)
              (new_manager default_max_history_size) noon [] Hu) as (Hs & _ & _ & Hr).
  split; [exact Hs | exact Hr].
Defined.

End BuildFacts.

Module SessionTrackingFacts.
Import Tools ContextManager ContextOps Agent Observations Scenarios.

Section Tracking.
Context {W : Type} (env : Environment W).

Lemma analyze_manager user_request context (s : RunState W) :
  manager (snd (_analyze_and_select_tools env user_request context s)) = manager s.
Proof.
  unfold _analyze_and_select_tools.
  destruct (Selector.select_tools _ _ _ _) as [[| t ts] | e]; try reflexivity.
  unfold _get_tool_actions_from_llm. destruct (_ && _); [| reflexivity].
  unfold mbind, M_bind, emit, outside. cbn.
  destruct (llm_plan env _ _ _ (world s)) as [reply w]. reflexivity.
Qed.

Lemma sufficiency_manager user_request tool_results context (s : RunState W) :
  manager (snd (_has_sufficient_information env user_request tool_results context s))
  = manager s.
Proof.
  unfold _has_sufficient_information.
  destruct tool_results as [| r rs]; [reflexivity |].
  destruct (List.filter _ _) as [| r' rs']; [reflexivity |].
  unfold mbind, M_bind, emit, outside. cbn.
  destruct (llm_sufficiency env _ _ (world s)) as [reply w]. reflexivity.
Qed.

Lemma execute_tools_manager tool_actions context (s : RunState W) :
  manager (snd (_execute_tools env tool_actions context s)) = manager s.
Proof.
  unfold _execute_tools.
  destruct (ExecutorFacts.run_actions_spec env
              (PyList.stable_sort priority_before tool_actions) [] context s)
    as (evs & _ & Hm & _). exact Hm.
Qed.

Lemma conversational_reply_manager label user_request context (s : RunState W) :
  manager (snd (conversational_reply env label user_request context s)) = manager s.
Proof.
  unfold conversational_reply, _generate_conversational_response.
  unfold mbind, M_bind, emit, outside, read_clock, mret, M_ret. cbn.
  destruct (llm_conversation env user_request (world s)). reflexivity.
Qed.

Lemma generate_response_manager user_request results context (s : RunState W) :
  manager (snd (_generate_response env user_request results context s)) = manager s.
Proof.
  unfold _generate_response. destruct (_ && _); [| reflexivity].
  unfold mbind, M_bind, emit, outside, mret, M_ret. cbn.
  destruct (llm_synthesis env user_request results context (world s)). reflexivity.
Qed.

Lemma manager_update_manager context tool_results (s : RunState W) :
  manager (snd (manager_update env context tool_results s))
  = snd (update_context (format_value env) (manager s) (clock env (world s))
           context tool_results) /\
  fst (manager_update env context tool_results s)
  = fst (update_context (format_value env) (manager s) (clock env (world s))
           context tool_results).
Proof.
  unfold manager_update. destruct (update_context _ _ _ _ _). split; reflexivity.
Qed.

Section Invariant.
Variable context : gmap string Value.
Variable P : Manager -> Prop.
Hypothesis update_keeps :
  forall m clk tool_results,
    P m -> P (snd (update_context (format_value env) m clk context tool_results)).

Lemma tool_loop_keeps remaining user_request : forall rs acts (s : RunState W),
  P (manager s) ->
  P (manager (snd (tool_loop env remaining user_request context rs acts s))).
Proof.
  induction remaining as [| n IH]; intros rs acts s Hs; [exact Hs |].
  cbn [tool_loop]. unfold mbind, M_bind, emit. cbn [fst snd].
  set (s0 := {| world := world s; manager := manager s;
                trace := trace s ++ [IterationStarted (max_iterations - n)] |}).
  set (cc := <["previous_results" := _]> context).
  pose proof (analyze_manager user_request cc s0) as H1.
  destruct (_analyze_and_select_tools env user_request cc s0) as [[[| a l] | e] s1];
    cbn [fst snd] in *; try (unfold mret, M_ret; cbn; rewrite H1; exact Hs).
  pose proof (execute_tools_manager (a :: l) cc s1) as H2.
  destruct (_execute_tools env (a :: l) cc s1) as [[exec c2] s2]; cbn [fst snd] in *.
  pose proof (sufficiency_manager user_request (rs ++ exec) c2 s2) as H3.
  destruct (_has_sufficient_information env user_request (rs ++ exec) c2 s2)
    as [[|] s3]; cbn [fst snd] in *.
  - unfold mret, M_ret; cbn. rewrite H3, H2, H1. exact Hs.
  - destruct (manager_update_manager context exec s3) as [H4 _].
    assert (P (manager (snd (manager_update env context exec s3)))) as Hs4.
    { rewrite H4. apply update_keeps. rewrite H3, H2, H1. exact Hs. }
    destruct (manager_update env context exec s3) as [[[] | e] s4]; cbn [fst snd] in *.
    + apply IH, Hs4.
    + exact Hs4.
Qed.

Lemma conclude_keeps user_request looped (s : RunState W) :
  P (manager s) ->
  P (manager (snd (conclude env user_request context looped s))).
Proof.
  intros Hs. destruct looped as [[[| r rs] acts] | e]; cbn [conclude].
  - rewrite conversational_reply_manager. exact Hs.
  - unfold mbind, M_bind.
    pose proof (generate_response_manager user_request (r :: rs) context s) as H1.
    destruct (_generate_response env user_request (r :: rs) context s)
      as [[text | e] s2]; cbn [snd] in H1;
      [| unfold error_reply, mbind, M_bind, read_clock, mret, M_ret; cbn [snd];
         rewrite H1; exact Hs].
    destruct (manager_update_manager context (r :: rs) s2) as [H2 _].
    assert (P (manager (snd (manager_update env context (r :: rs) s2)))) as Hs3.
    { rewrite H2. apply update_keeps. rewrite H1. exact Hs. }
    destruct (manager_update env context (r :: rs) s2) as [[[] | e] s3]; exact Hs3.
  - exact Hs.
Qed.

End Invariant.

(** Whatever [update_context] keeps of the manager when it is given the
    context of the request, a whole request keeps. *)
Lemma process_request_keeps (P : Manager -> Prop) user_request user_id additional_context
    (s : RunState W) :
  (forall m clk tool_results,
      P m ->
      P (snd (update_context (format_value env) m clk
                (reply_context (fst (process_request env user_request user_id
                                       additional_context s)))
                tool_results))) ->
  P (manager s) ->
  P (manager (snd (process_request env user_request user_id additional_context s))).
Proof.
  rewrite ContextFacts.process_request_context.
  set (context := build_context _ _ _ _ _ _ _ _). intros Hup Hs.
  destruct (_is_conversational_request user_request) eqn:Econv.
  - rewrite (LoopFacts.process_request_conversational env _ _ _ _ Econv).
    rewrite conversational_reply_manager. exact Hs.
  - rewrite (LoopFacts.process_request_with_tools env _ _ _ _ Econv). cbn zeta.
    fold context. apply conclude_keeps; [exact Hup |].
    apply tool_loop_keeps; [exact Hup | exact Hs].
Qed.

(** A request reads and writes the session named by its context (the
    session "default" unless the additional context names another)
    and leaves every other session, and the cap, as they were. *)
Theorem process_request_touches_one_session user_request user_id additional_context
    (s : RunState W) (other : Value) :
  let out := process_request env user_request user_id additional_context s in
  key_eqb (session_of (reply_context (fst out))) other = false ->
  get_session other (session_contexts (manager (snd out)))
  = get_session other (session_contexts (manager s)) /\
  max_history_size (manager (snd out)) = max_history_size (manager s).
Proof.
  intros out Hne. subst out.
  apply (process_request_keeps
           (fun m => get_session other (session_contexts m)
                     = get_session other (session_contexts (manager s)) /\
                     max_history_size m = max_history_size (manager s))).
  - intros m clk rs [Hm Hc]. split.
    + rewrite <- Hm. apply SessionFacts.update_context_frame, Hne.
    + rewrite ContextFacts.update_context_keeps_cap. exact Hc.
  - split; reflexivity.
Qed.

(** With a cap of at least 1, a manager whose sessions are within
    bounds still has them within bounds after a request, however the
    request ends. *)
Theorem process_request_keeps_sessions_bounded user_request user_id additional_context
    (s : RunState W) :
  (1 <= max_history_size (manager s))%Z ->
  manager_bounded (manager s) ->
  manager_bounded
    (manager (snd (process_request env user_request user_id additional_context s))).
Proof.
  intros Hcap Hb.
  apply (process_request_keeps
           (fun m => manager_bounded m /\ (1 <= max_history_size m)%Z)).
  - intros m clk rs [Hm Hc]. split.
    + apply ContextFacts.update_context_bounded; assumption.
    + rewrite ContextFacts.update_context_keeps_cap. exact Hc.
  - split; assumption.
Qed.

Section Scenario.
Variables (user_request : string) (context : gmap string Value) (cap : Z).
Hypothesis planner_insists :
  forall results (s1 : RunState W), exists a l s2,
    _analyze_and_select_tools env user_request
      (<["previous_results" := VList (List.map previous_result results)]> context) s1
    = (Returned (a :: l), s2).
Hypothesis judge_says_no :
  forall results c (s1 : RunState W),
    fst (_has_sufficient_information env user_request results c s1) = false.
Hypothesis context_foldable : foldable context = true.
Hypothesis cap_positive : (1 <= cap)%Z.



End Scenario.


End Tracking.

Lemma process_request_touches_one_session_witness :
  let s := initial_state MoreScenarios.alice_manager in
  let out := process_request table_env table_request None None s in
  session_of (reply_context (fst out)) = VStr "default" /\
  is_Some (get_session (VStr "default") (session_contexts (manager (snd out)))) /\
  is_Some (get_session (VStr "alice") (session_contexts (manager s))) /\
  get_session (VStr "alice") (session_contexts (manager (snd out)))
  = get_session (VStr "alice") (session_contexts (manager s)).
Proof.
  intros s out.
  split; [vm_compute; reflexivity |].
  split; [vm_compute; eauto |]. split; [vm_compute; eauto |].
  refine (proj1 (process_request_touches_one_session table_env table_request None None s
                   (VStr "alice") _)).
  vm_compute. reflexivity.
Defined.

Lemma process_request_keeps_sessions_bounded_witness :
  let s := initial_state MoreScenarios.alice_manager in
  let out := process_request table_env table_request None None s in
  manager_bounded (manager s) /\ manager_bounded (manager (snd out)).
Proof.
  intros s out.
  assert (manager_bounded (manager s)) as Hb.
  { apply (ContextFacts.update_context_bounded (fun _ => "")
             (new_manager default_max_history_size));
      [vm_compute; discriminate | constructor]. }
  split; [exact Hb |].
  apply (process_request_keeps_sessions_bounded table_env table_request None None s);
    [vm_compute; discriminate | exact Hb].
Defined.


End SessionTrackingFacts.

Module PlanningFacts.
Import Tools ContextManager Agent Observations Scenarios.

Section Planning.
Context {W : Type} (env : Environment W).

Lemma fallback_actions_names i (tools : list (BaseTool W * Q)) user_request context :
  List.map action_tool_name (fallback_actions i tools user_request context)
  = List.map (fun entry => name (capabilities (fst entry))) tools.
Proof.
  revert i. induction tools as [| [t c] tools IH]; intros i; cbn; [reflexivity |].
  rewrite IH. reflexivity.
Qed.

Lemma fallback_actions_priorities i (tools : list (BaseTool W * Q)) user_request context :
  List.map priority (fallback_actions i tools user_request context)
  = List.map (fun k => Z.of_nat k + 1)%Z (seq i (length tools)).
Proof.
  revert i. induction tools as [| [t c] tools IH]; intros i; cbn; [reflexivity |].
  rewrite IH. reflexivity.
Qed.

Lemma fallback_actions_parameters i (tools : list (BaseTool W * Q)) user_request context :
  Forall (fun a => action_parameters a = _extract_basic_parameters user_request context)
         (fallback_actions i tools user_request context).
Proof.
  revert i. induction tools as [| [t c] tools IH]; intros i; cbn; constructor;
    [reflexivity | apply IH].
Qed.

Lemma fallback_actions_sorted i (tools : list (BaseTool W * Q)) user_request context :
  PyList.stable_sort priority_before (fallback_actions i tools user_request context)
  = fallback_actions i tools user_request context.
Proof.
  revert i. induction tools as [| [t c] tools IH]; intros i; cbn; [reflexivity |].
  rewrite IH. destruct tools as [| [t' c'] tools]; cbn; [reflexivity |].
  unfold priority_before. cbn.
  destruct (Z.ltb_spec (Z.of_nat (S i) + 1) (Z.of_nat i + 1)); [lia | reflexivity].
Qed.

Lemma basic_parameters_lookup user_request context k :
  _extract_basic_parameters user_request context !! k
  = if String.eqb k "query" then Some (VStr user_request)
    else if String.eqb k "user_id" || String.eqb k "date" then context !! k
    else None.
Proof.
  unfold _extract_basic_parameters.
  destruct (String.eqb_spec k "query") as [-> | Hq]; [apply lookup_insert_eq |].
  rewrite lookup_insert_ne by congruence.
  destruct (String.eqb_spec k "user_id") as [-> | Hu]; cbn [orb].
  - destruct (context !! "date"); [rewrite lookup_insert_ne by discriminate |];
      destruct (context !! "user_id"); simplify_map_eq; reflexivity.
  - destruct (String.eqb_spec k "date") as [-> | Hd].
    + destruct (context !! "date"); simplify_map_eq; [reflexivity |].
      destruct (context !! "user_id"); simplify_map_eq; reflexivity.
    + destruct (context !! "date"); [rewrite lookup_insert_ne by congruence |];
        (destruct (context !! "user_id"); [rewrite lookup_insert_ne by congruence |]);
        apply lookup_empty.
Qed.

Lemma forallb_map {A B : Type} (f : B -> bool) (g : A -> B) (l : list A) :
  forallb f (List.map g l) = forallb (fun x => f (g x)) l.
Proof. induction l as [| x l IH]; cbn; [reflexivity | rewrite IH; reflexivity]. Qed.

(** When the planning prompt can be built ([json.dumps] accepts the tool
    descriptions and the context) and the planner gives no usable plan,
    the plan is at most three actions, one for each of the best
    recommended tools in their order, numbered 1, 2, 3; each carries the
    request as [query] and the [user_id] and [date] of the context when
    it has them, and nothing else; and the executor runs them in that
    order. *)
Theorem fallback_plan_follows_recommendation (user_request : string)
    (recommended_tools : list (BaseTool W * Q)) (context : gmap string Value)
    (s : RunState W) :
  match fst (llm_plan env user_request
               (List.map (fun entry => (capabilities (fst entry), snd entry))
                  recommended_tools)
               context (world s)) with
  | Some text => extract_actions env text = None
  | None => True
  end ->
  forallb (fun entry => capability_serializable (capabilities (fst entry)))
    recommended_tools = true ->
  context_serializable context = true ->
  exists plan,
    fst (_get_tool_actions_from_llm env user_request recommended_tools context s)
    = Returned plan /\
    List.map action_tool_name plan
    = List.map (fun entry => name (capabilities (fst entry))) (take 3 recommended_tools) /\
    (length plan <= 3)%nat /\
    List.map priority plan = List.map (fun k => Z.of_nat k + 1)%Z (seq 0 (length plan)) /\
    Forall (fun a => forall k,
                action_parameters a !! k
                = if String.eqb k "query" then Some (VStr user_request)
                  else if String.eqb k "user_id" || String.eqb k "date" then context !! k
                  else None) plan /\
    PyList.stable_sort priority_before plan = plan.
Proof.
  intros Hno Htools Hctx.
  exists (fallback_actions 0 (take 3 recommended_tools) user_request context).
  split.
  { unfold _get_tool_actions_from_llm. rewrite forallb_map. cbn [fst].
    rewrite Htools, Hctx. cbn [andb].
    unfold mbind, M_bind, emit, outside. cbn.
    destruct (llm_plan env _ _ _ (world s)) as [[text |] w]; cbn in *.
    - rewrite Hno. reflexivity.
    - reflexivity. }
  assert (length (fallback_actions 0 (take 3 recommended_tools) user_request context)
          = length (take 3 recommended_tools)) as Hlen.
  { rewrite <- (length_map action_tool_name), fallback_actions_names, length_map.
    reflexivity. }
  split; [apply fallback_actions_names |].
  split; [rewrite Hlen, length_take; lia |].
  split; [rewrite Hlen; apply fallback_actions_priorities |].
  split; [| apply fallback_actions_sorted].
  eapply Forall_impl; [apply fallback_actions_parameters |].
  intros a -> k. apply basic_parameters_lookup.
Qed.

End Planning.

Lemma fallback_plan_follows_recommendation_witness :
  let env := MoreScenarios.offline_env snowflake_registry in
  let context := plain_context table_request in
  exists plan,
    fst (_get_tool_actions_from_llm env table_request
           [(snowflake_tool, should_use snowflake_tool table_request context)]
           context fresh_state) = Returned plan /\
    List.map action_tool_name plan = ["snowflake_query"] /\
    List.map priority plan = [1%Z] /\
    PyList.stable_sort priority_before plan = plan.
Proof.
  intros env context.
  destruct (fallback_plan_follows_recommendation env table_request
              [(snowflake_tool, should_use snowflake_tool table_request context)]
              context fresh_state I eq_refl eq_refl) as (plan & Hret & Hn & Hl & Hp & _ & Hs).
  exists plan. split; [exact Hret |].
  split; [exact Hn |]. split; [| exact Hs].
  rewrite Hp. apply (f_equal (@length string)) in Hn. rewrite length_map in Hn.
  rewrite Hn. reflexivity.
Defined.

End PlanningFacts.

Module ReplyFacts.
Import Tools ContextManager Agent Observations Scenarios.

Section Replies.
Context {W : Type} (env : Environment W).

(** When at least one result succeeded and the call to the judge fails,
    the information counts as sufficient; the judge was asked once. *)
Theorem failed_judge_counts_as_sufficient (user_request : string)
    (tool_results : list ToolResult) (context : gmap string Value) (s : RunState W) :
  (exists r, In r tool_results /\ status r = SUCCESS) ->
  fst (llm_sufficiency env user_request
         (List.map (fun r => (tool_name r, truthy_opt (data r)))
            (List.filter (fun r => status_eqb (status r) SUCCESS) tool_results))
         (world s)) = None ->
  let out := _has_sufficient_information env user_request tool_results context s in
  fst out = true /\
  trace (snd out) = trace s ++ [SufficiencyAsked] /\
  manager (snd out) = manager s.
Proof.
  intros (r & Hin & Hr) Hfail out. subst out. unfold _has_sufficient_information.
  destruct tool_results as [| r0 rs]; [contradiction |].
  destruct (List.filter _ (r0 :: rs)) as [| r' rs'] eqn:E.
  - assert (In r (List.filter (fun r => status_eqb (status r) SUCCESS) (r0 :: rs))) as Hf.
    { apply filter_In. split; [exact Hin | rewrite Hr; reflexivity]. }
    rewrite E in Hf. contradiction.
  - unfold mbind, M_bind, emit, outside. cbn.
    destruct (llm_sufficiency env _ _ (world s)) as [reply w]. cbn in *.
    subst reply. auto.
Qed.


(** Every reply has one of four shapes.  The two conversational ones
    carry empty lists of results and actions; a success carries at least
    one tool result, and the actions; an error carries the text of the
    exception, also inside its response, and no results or actions. *)
Theorem reply_has_one_of_four_shapes (user_request : string) (user_id : option string)
    (additional_context : option (gmap string Value)) (s : RunState W) :
  let reply := fst (process_request env user_request user_id additional_context s) in
  (reply_status reply = "conversational" /\
   _is_conversational_request user_request = true /\
   reply_tool_results reply = Some [] /\ reply_tool_actions reply = Some [] /\
   reply_error reply = None) \/
  (reply_status reply = "conversational_fallback" /\
   reply_tool_results reply = Some [] /\ reply_tool_actions reply = Some [] /\
   reply_error reply = None) \/
  (reply_status reply = "success" /\
   (exists r rs, reply_tool_results reply = Some (r :: rs)) /\
   (exists acts, reply_tool_actions reply = Some acts) /\
   reply_error reply = None) \/
  (reply_status reply = "error" /\
   reply_tool_results reply = None /\ reply_tool_actions reply = None /\
   exists message,
     reply_error reply = Some message /\
     response reply = "I encountered an error while processing your request: " +:+ message).
Proof.
  intros reply. subst reply.
  destruct (_is_conversational_request user_request) eqn:Econv.
  - rewrite (LoopFacts.process_request_conversational env _ _ _ _ Econv).
    left. unfold conversational_reply, mbind, M_bind, read_clock, mret, M_ret.
    destruct (_generate_conversational_response env _ _ s). cbn. auto.
  - rewrite (LoopFacts.process_request_with_tools env _ _ _ _ Econv). cbn zeta.
    set (context := build_context _ _ _ _ _ _ _ _).
    destruct (tool_loop env max_iterations user_request context [] [] s)
      as [[[[| r rs] acts] | e] s1]; cbn [fst snd conclude].
    + right; left.
      unfold conversational_reply, mbind, M_bind, read_clock, mret, M_ret.
      destruct (_generate_conversational_response env _ _ s1). cbn. auto.
    + unfold mbind, M_bind.
      destruct (_generate_response env user_request (r :: rs) context s1)
        as [[text | e] s2]; [| right; right; right; cbn; eauto 10].
      destruct (manager_update env context (r :: rs) s2) as [[[] | e] s3].
      * right; right; left. cbn. eauto 10.
      * right; right; right. cbn. eauto 10.
    + right; right; right. cbn. eauto 10.
Qed.

(** When the selector recommends no tool (an empty registry, or no tool
    scores high enough), a request that is not conversational ends, after
    one iteration that neither asks the planner nor runs a tool, in the
    conversational fallback; the session state is not written. *)
Theorem no_recommendation_falls_back (user_request : string) (user_id : option string)
    (additional_context : option (gmap string Value)) (s : RunState W) :
  let context :=
    build_context (re_search env) (dateutil_parse env) (manager s) (clock env (world s))
      user_request user_id None (Some (or_empty additional_context)) in
  let out := process_request env user_request user_id additional_context s in
  _is_conversational_request user_request = false ->
  Selector.select_tools selector_min_confidence (tool_registry env) user_request
    (<["previous_results" := VList []]> context) = Returned [] ->
  reply_status (fst out) = "conversational_fallback" /\
  trace (snd out) = trace s ++ [IterationStarted 1; ConversationAsked] /\
  manager (snd out) = manager s.
Proof.
  intros context out Econv Hsel. subst out.
  rewrite (LoopFacts.process_request_with_tools env _ _ _ _ Econv). cbn zeta.
  fold context.
  assert (tool_loop env max_iterations user_request context [] [] s
          = (Returned ([], []), advance s (world s) [IterationStarted 1])) as ->.
  { cbn [tool_loop max_iterations]. unfold mbind, M_bind, emit. cbn [fst snd List.map].
    unfold _analyze_and_select_tools. rewrite Hsel. reflexivity. }
  cbn [fst snd conclude].
  unfold conversational_reply, _generate_conversational_response.
  unfold mbind, M_bind, emit, outside, read_clock, mret, M_ret. cbn.
  destruct (llm_conversation env user_request (world s)). cbn.
  rewrite <- app_assoc. auto.
Qed.


End Replies.

Lemma failed_judge_counts_as_sufficient_witness :
  let env := MoreScenarios.offline_env snowflake_registry in
  let out :=
    _has_sufficient_information env table_request [success_result "snowflake_query"]
      (plain_context table_request) fresh_state in
  fst out = true /\ trace (snd out) = [SufficiencyAsked].
Proof.
  intros env out.
  destruct (failed_judge_counts_as_sufficient env table_request
              [success_result "snowflake_query"] (plain_context table_request) fresh_state)
    as (H1 & H2 & _).
  - exists (success_result "snowflake_query"). split; [left; reflexivity | reflexivity].
  - reflexivity.
  - split; [exact H1 | exact H2].
Defined.

Lemma no_recommendation_falls_back_witness :
  let env := MoreScenarios.offline_env [] in
  let out := process_request env table_request None None fresh_state in
  _is_conversational_request table_request = false /\
  reply_status (fst out) = "conversational_fallback" /\
  trace (snd out) = [IterationStarted 1; ConversationAsked].
Proof.
  intros env out.
  assert (_is_conversational_request table_request = false) as Hc by reflexivity.
  split; [exact Hc |].
  destruct (no_recommendation_falls_back env table_request None None fresh_state Hc)
    as (H1 & H2 & _); [reflexivity |].
  split; [exact H1 | exact H2].
Defined.


End ReplyFacts.

Module MCPDatabaseFacts.
Import Tools MCPDatabase.

Lemma matches_safe_nonempty (s : string) : matches_safe s = true -> s <> "".
Proof. destruct s; [discriminate | discriminate]. Qed.

Lemma str_mem_is_In (x : string) (l : list string) : PyList.str_mem x l = true -> In x l.
Proof.
  unfold PyList.str_mem. rewrite existsb_exists.
  intros (y & Hy & E). apply String.eqb_eq in E. subst. exact Hy.
Qed.

Lemma matches_safe_cons (c : ascii) (rest : string) :
  matches_safe (String c rest)
  = safe_char c &&
    (String.eqb rest "" || String.eqb rest (String "010" "") || matches_safe rest).
Proof.
  cbn [matches_safe]. destruct rest as [| c2 rest]; [reflexivity |].
  destruct (safe_char c); [| reflexivity]. cbn [andb].
  destruct (String.eqb_spec (String c2 rest) (String "010" "")) as [E | Hne].
  - injection E as -> ->. reflexivity.
  - cbn [String.eqb orb].
    destruct c2 as [[] [] [] [] [] [] [] []]; try reflexivity.
    destruct rest; [contradiction Hne; reflexivity | reflexivity].
Qed.

(** The strings the pattern lets through: one or more characters of the
    class, alone or followed by a single line feed. *)
Lemma matches_safe_spec (s : string) :
  matches_safe s = true <->
  exists core,
    core <> "" /\ forallb safe_char (list_ascii_of_string core) = true /\
    (s = core \/ s = core +:+ String "010" "").
Proof.
  split.
  - induction s as [| c rest IH]; [discriminate |].
    rewrite matches_safe_cons. intros H.
    apply andb_true_iff in H as [Hc H].
    apply orb_true_iff in H as [H | H]; [apply orb_true_iff in H as [H | H] |].
    + apply String.eqb_eq in H. subst rest. exists (String c "").
      split; [discriminate |]. split; [cbn; rewrite Hc; reflexivity | left; reflexivity].
    + apply String.eqb_eq in H. subst rest. exists (String c "").
      split; [discriminate |]. split; [cbn; rewrite Hc; reflexivity | right; reflexivity].
    + destruct (IH H) as (core & Hne & Hall & Hs).
      exists (String c core). split; [discriminate |].
      split; [cbn; rewrite Hc; exact Hall |].
      destruct Hs as [-> | ->]; [left | right]; reflexivity.
  - intros (core & Hne & Hall & Hs). revert s Hs.
    induction core as [| c core IH]; intros s Hs; [contradiction |].
    cbn in Hall. apply andb_true_iff in Hall as [Hc Hall].
    assert (exists rest, s = String c rest /\
                         (rest = core \/ rest = core +:+ String "010" "")) as (rest & -> & Hr).
    { destruct Hs as [-> | ->]; eexists; (split; [reflexivity |]); auto. }
    rewrite matches_safe_cons, Hc. cbn [andb].
    destruct core as [| c2 core].
    + destruct Hr as [-> | ->]; reflexivity.
    + rewrite (IH ltac:(discriminate) Hall rest Hr). apply orb_true_r.
Qed.

Section Validation.
Context {W : Type}.
Variable format_value : Value -> string.
Variable strptime_ok : string -> bool.
Variable run_query : string -> Value -> Value -> W -> Outcome (list Value) * W.

(** What a successful validation has checked, step by step. *)
Lemma validate_inversion (kwargs validated : gmap string Value) :
  MCP_validate_parameters format_value strptime_ok kwargs = Returned validated ->
  exists vu vd q,
    validate_user_id format_value kwargs ∅ = Returned vu /\
    validate_date strptime_ok kwargs vu = Returned vd /\
    query_type_of kwargs = VStr q /\
    PyList.str_mem q predefined_queries = true /\
    validated = <["query_type" := VStr q]> vd.
Proof.
  unfold MCP_validate_parameters.
  destruct (validate_user_id format_value kwargs ∅) as [vu | e] eqn:Eu; cbn [obind];
    [| discriminate].
  destruct (validate_date strptime_ok kwargs vu) as [vd | e] eqn:Ed; cbn [obind];
    [| discriminate].
  unfold validate_query_type.
  destruct (query_type_of kwargs) as [| | | q | | |] eqn:Eq; try discriminate.
  destruct (PyList.str_mem q predefined_queries) eqn:E; [| discriminate].
  intros [= <-]. exists vu, vd, q. repeat split; assumption || reflexivity.
Qed.

Lemma validate_user_id_spec (kwargs vu : gmap string Value) :
  validate_user_id format_value kwargs ∅ = Returned vu ->
  (vu = ∅ /\ truthy_opt (kwargs !! "user_id") = false) \/
  (exists u text,
      kwargs !! "user_id" = Some u /\ truthy u = true /\
      user_id_text u = Some text /\ matches_safe text = true /\
      vu = {[ "user_id" := VStr text ]}).
Proof.
  unfold validate_user_id.
  destruct (kwargs !! "user_id") as [u |]; [| intros [= <-]; left; auto].
  cbn [truthy_opt]. destruct (truthy u) eqn:Et; [| intros [= <-]; left; auto].
  destruct (user_id_text u) as [text |] eqn:Eu; [| discriminate].
  destruct (matches_safe text) eqn:Em; [| discriminate].
  intros [= <-]. right. exists u, text. auto.
Qed.

Lemma validate_date_spec (kwargs vu vd : gmap string Value) :
  validate_date strptime_ok kwargs vu = Returned vd ->
  (vd = vu /\ truthy_opt (kwargs !! "date") = false) \/
  (exists text,
      kwargs !! "date" = Some (VStr text) /\ text <> "" /\ strptime_ok text = true /\
      vd = <["date" := VStr text]> vu).
Proof.
  unfold validate_date.
  destruct (kwargs !! "date") as [d |]; [| intros [= <-]; left; auto].
  cbn [truthy_opt]. destruct (truthy d) eqn:Et; [| intros [= <-]; left; auto].
  destruct d as [| | | text | | |]; try discriminate.
  destruct (strptime_ok text) eqn:Es; [| discriminate].
  intros [= <-]. right. exists text. repeat split; try reflexivity; [| exact Es].
  intros ->. discriminate.
Qed.

(** Whatever it is given, a validation that returns hands on only the
    keys [user_id], [date] and [query_type]: the user id as a string of
    the safe character class (possibly followed by one line feed, which the
    pattern's [$] lets through), the date as a string [strptime] accepted,
    and a query type that is always there and predefined
    ([user_activity] when none was given). *)
Theorem validated_parameters_are_clean (kwargs validated : gmap string Value) :
  MCP_validate_parameters format_value strptime_ok kwargs = Returned validated ->
  (forall k, is_Some (validated !! k) -> In k ["user_id"; "date"; "query_type"]) /\
  (exists q, validated !! "query_type" = Some (VStr q) /\ In q predefined_queries /\
             (kwargs !! "query_type" = None -> q = "user_activity")) /\
  (forall u, validated !! "user_id" = Some u ->
             exists text, u = VStr text /\ matches_safe text = true) /\
  (forall d, validated !! "date" = Some d ->
             exists text, d = VStr text /\ strptime_ok text = true /\
                          kwargs !! "date" = Some d).
Proof.
  intros H. destruct (validate_inversion _ _ H) as (vu & vd & q & Hu & Hd & Hq & Hm & ->).
  apply validate_user_id_spec in Hu. apply validate_date_spec in Hd.
  split; [| split; [| split]].
  - intros k [v Hk].
    destruct (String.eqb_spec k "query_type") as [-> | Hn1]; [cbn; auto |].
    rewrite lookup_insert_ne in Hk by congruence.
    destruct (String.eqb_spec k "date") as [-> | Hn2]; [cbn; auto |].
    destruct (String.eqb_spec k "user_id") as [-> | Hn3]; [cbn; auto |].
    exfalso.
    destruct Hd as [[-> _] | (t & _ & _ & _ & ->)];
      [| rewrite lookup_insert_ne in Hk by congruence];
      (destruct Hu as [[-> _] | (u & t' & _ & _ & _ & _ & ->)];
       [rewrite lookup_empty in Hk; discriminate |
        rewrite lookup_singleton_ne in Hk by congruence; discriminate]).
  - exists q. split; [apply lookup_insert_eq |]. split; [apply str_mem_is_In, Hm |].
    intros Hnone. unfold query_type_of in Hq. rewrite Hnone in Hq. congruence.
  - intros u Hk. rewrite lookup_insert_ne in Hk by discriminate.
    destruct Hd as [[-> _] | (t & _ & _ & _ & ->)];
      [| rewrite lookup_insert_ne in Hk by discriminate];
      (destruct Hu as [[-> _] | (u' & t' & _ & _ & _ & Hsafe & ->)];
       [rewrite lookup_empty in Hk; discriminate |
        rewrite lookup_singleton_eq in Hk; injection Hk as <-; eauto]).
  - intros d Hk. rewrite lookup_insert_ne in Hk by discriminate.
    destruct Hd as [[-> _] | (t & Hkw & _ & Hok & ->)].
    + destruct Hu as [[-> _] | (u' & t' & _ & _ & _ & _ & ->)];
        [rewrite lookup_empty in Hk; discriminate |
         rewrite lookup_singleton_ne in Hk by discriminate; discriminate].
    + rewrite lookup_insert_eq in Hk. injection Hk as <-. eauto.
Qed.

(** A user id given as a string passes validation exactly when it is one
    or more characters of the safe class, alone or followed by a single
    line feed: the pattern ends in [$], which also matches in front of
    a line feed that ends the string, and the line feed is kept in the
    validated value. *)
Theorem string_user_ids_that_pass (kwargs : gmap string Value) (text : string) :
  kwargs !! "user_id" = Some (VStr text) ->
  text <> "" ->
  validate_user_id format_value kwargs ∅ = Returned {[ "user_id" := VStr text ]} <->
  exists core,
    core <> "" /\ forallb safe_char (list_ascii_of_string core) = true /\
    (text = core \/ text = core +:+ String "010" "").
Proof.
  intros Hk Hne. rewrite <- matches_safe_spec.
  unfold validate_user_id. rewrite Hk. cbn [truthy user_id_text].
  apply String.eqb_neq in Hne. rewrite Hne. cbn [negb].
  destruct (matches_safe text); split; try discriminate; reflexivity.
Qed.

(** Validated parameters pass validation unchanged. *)
Theorem validation_is_idempotent (kwargs validated : gmap string Value) :
  MCP_validate_parameters format_value strptime_ok kwargs = Returned validated ->
  MCP_validate_parameters format_value strptime_ok validated = Returned validated.
Proof.
  intros H. destruct (validate_inversion _ _ H) as (vu & vd & q & Hu & Hd & Hq & Hm & ->).
  apply validate_user_id_spec in Hu. apply validate_date_spec in Hd.
  unfold MCP_validate_parameters, validate_user_id, validate_date, validate_query_type,
    query_type_of.
  rewrite lookup_insert_eq, Hm.
  rewrite !(lookup_insert_ne _ "query_type") by discriminate.
  destruct Hd as [[-> _] | (t & _ & Hne & Hok & ->)];
    destruct Hu as [[-> _] | (u & t' & _ & _ & _ & Hsafe & ->)].
  - rewrite !lookup_empty. reflexivity.
  - rewrite lookup_singleton_eq, lookup_singleton_ne by discriminate.
    cbn [truthy user_id_text obind].
    pose proof (matches_safe_nonempty _ Hsafe) as Hne.
    apply String.eqb_neq in Hne. rewrite Hne, Hsafe. cbn [negb obind].
    rewrite insert_empty. reflexivity.
  - rewrite lookup_insert_eq, lookup_insert_ne, lookup_empty by discriminate.
    cbn [truthy obind]. apply String.eqb_neq in Hne. rewrite Hne, Hok. cbn [negb obind].
    reflexivity.
  - rewrite lookup_insert_eq, lookup_insert_ne, lookup_singleton_eq by discriminate.
    cbn [truthy user_id_text obind].
    pose proof (matches_safe_nonempty _ Hsafe) as Hne'.
    apply String.eqb_neq in Hne, Hne'. rewrite Hne, Hne', Hsafe, Hok. cbn [negb obind].
    rewrite insert_empty. reflexivity.
Qed.

(** [execute] never raises and always answers with a result named
    after the tool: a success only when the tool is initialized, [user_id]
    and [date] are given and the query type is predefined; in every other
    case an error result that carries a message and no data, built without
    consulting the database. *)
Theorem execute_answers_with_a_result (initialized : bool) (kwargs : gmap string Value)
    (w : W) :
  let out := MCP_execute format_value run_query initialized kwargs w in
  let ready :=
    initialized && truthy_opt (kwargs !! "user_id") && truthy_opt (kwargs !! "date")
    && match query_type_of kwargs with
       | VStr q => PyList.str_mem q predefined_queries
       | _ => false
       end in
  exists r,
    fst out = Returned r /\
    tool_name r = "database_query" /\
    (status r = SUCCESS /\ error r = None /\ is_Some (data r) /\ ready = true \/
     status r = ERROR /\ is_Some (error r) /\ data r = None) /\
    (ready = false -> snd out = w).
Proof.
  intros out ready. subst out ready. unfold MCP_execute.
  destruct initialized; cbn [negb andb];
    [| eexists; repeat split; [right; cbn; eauto] ].
  destruct (truthy_opt (kwargs !! "user_id")); cbn [negb andb];
    [| eexists; repeat split; [right; cbn; eauto] ].
  destruct (truthy_opt (kwargs !! "date")); cbn [negb andb];
    [| eexists; repeat split; [right; cbn; eauto] ].
  destruct (query_type_of kwargs) as [| | | q | | |];
    try (eexists; repeat split; [right; cbn; eauto]).
  destruct (PyList.str_mem q predefined_queries);
    [| eexists; repeat split; [right; cbn; eauto] ].
  destruct (run_query q _ _ w) as [[rows | e] w'].
  - eexists. repeat split; [left; cbn; eauto | discriminate].
  - eexists. repeat split; [right; cbn; eauto | discriminate].
Qed.

(** Validation does not insist on the parameters execution needs: it
    accepts a call without [user_id] or [date], and execution then
    answers with the matching error result without consulting the
    database.  After a validation that returned, the only other thing
    execution does is to run the validated query: the unknown query type
    cannot occur. *)
Theorem execute_after_validation (kwargs validated : gmap string Value) (w : W) :
  MCP_validate_parameters format_value strptime_ok kwargs = Returned validated ->
  let out := MCP_execute format_value run_query true validated w in
  if negb (truthy_opt (kwargs !! "user_id"))
  then out = (Returned (mcp_error "user_id parameter is required"), w)
  else if negb (truthy_opt (kwargs !! "date"))
  then out = (Returned (mcp_error "date parameter is required"), w)
  else exists q user_id date,
      validated !! "query_type" = Some (VStr q) /\
      validated !! "user_id" = Some (VStr user_id) /\
      validated !! "date" = Some (VStr date) /\
      out = (match fst (run_query q (VStr user_id) (VStr date) w) with
             | Returned rows => Returned (mcp_success q (VStr user_id) (VStr date) rows)
             | Raised e => Returned (mcp_error (exn_message e))
             end,
             snd (run_query q (VStr user_id) (VStr date) w)).
Proof.
  intros H out. subst out.
  destruct (validate_inversion _ _ H) as (vu & vd & q & Hu & Hd & Hq & Hm & ->).
  apply validate_user_id_spec in Hu. apply validate_date_spec in Hd.
  unfold MCP_execute, query_type_of. cbn [negb].
  rewrite lookup_insert_eq, Hm.
  rewrite !(lookup_insert_ne _ "query_type") by discriminate.
  destruct Hu as [[-> Hfalse] | (u & t' & Hk & Ht & _ & Hsafe & ->)].
  - rewrite Hfalse. cbn [negb].
    destruct Hd as [[-> _] | (t & _ & _ & _ & ->)].
    + rewrite lookup_empty. reflexivity.
    + rewrite lookup_insert_ne, lookup_empty by discriminate. reflexivity.
  - rewrite Hk. cbn [truthy_opt]. rewrite Ht. cbn [negb].
    pose proof (matches_safe_nonempty _ Hsafe) as Hne'. apply String.eqb_neq in Hne'.
    destruct Hd as [[-> Hfalse] | (t & Hkd & Hne & Hok & ->)].
    + rewrite Hfalse. cbn [negb].
      rewrite lookup_singleton_eq, lookup_singleton_ne by discriminate.
      cbn [truthy_opt truthy]. rewrite Hne'. reflexivity.
    + rewrite Hkd. cbn [truthy_opt truthy]. apply String.eqb_neq in Hne. rewrite Hne.
      cbn [negb].
      rewrite lookup_insert_eq, lookup_insert_ne, lookup_singleton_eq by discriminate.
      cbn [truthy_opt truthy]. rewrite Hne, Hne'. cbn [negb].
      exists q, t', t. split; [reflexivity |]. split; [reflexivity |].
      split; [reflexivity |].
      destruct (run_query q (VStr t') (VStr t) w) as [[rows | e] w']; reflexivity.
Qed.

End Validation.

Lemma validated_parameters_are_clean_witness :
  let kwargs : gmap string Value :=
    {[ "user_id" := VInt 42; "date" := VStr "2024-05-02"; "query" := VStr "my activity" ]} in
  let validated : gmap string Value :=
    {[ "user_id" := VStr "42"; "date" := VStr "2024-05-02";
       "query_type" := VStr "user_activity" ]} in
  MCP_validate_parameters (fun _ => "") (String.eqb "2024-05-02") kwargs = Returned validated /\
  validated !! "query" = None.
Proof.
  intros kwargs validated.
  assert (MCP_validate_parameters (fun _ => "") (String.eqb "2024-05-02") kwargs
          = Returned validated) as H by (vm_compute; reflexivity).
  split; [exact H |].
  destruct (validated_parameters_are_clean (fun _ => "") (String.eqb "2024-05-02")
              kwargs validated H) as (Hkeys & _).
  destruct (validated !! "query") eqn:E; [| reflexivity].
  destruct (Hkeys "query" (ex_intro _ _ E)) as [C | [C | [C | []]]]; discriminate.
Defined.

Lemma string_user_ids_that_pass_witness :
  let text := "u42" +:+ String "010" "" in
  let kwargs : gmap string Value := {[ "user_id" := VStr text ]} in
  forallb safe_char (list_ascii_of_string "u42") = true /\
  validate_user_id (fun _ => "") kwargs ∅ = Returned {[ "user_id" := VStr text ]}.
Proof.
  intros text kwargs. split; [reflexivity |].
  apply (string_user_ids_that_pass (fun _ => "") kwargs text);
    [reflexivity | discriminate |].
  exists "u42". split; [discriminate |]. split; [reflexivity | right; reflexivity].
Defined.

Lemma validation_is_idempotent_witness :
  let kwargs : gmap string Value :=
    {[ "user_id" := VInt 42; "date" := VStr "2024-05-02"; "query" := VStr "my activity" ]} in
  exists validated,
    MCP_validate_parameters (fun _ => "") (String.eqb "2024-05-02") kwargs
    = Returned validated /\
    MCP_validate_parameters (fun _ => "") (String.eqb "2024-05-02") validated
    = Returned validated.
Proof.
  intros kwargs. eexists. split; [vm_compute; reflexivity |].
  apply (validation_is_idempotent (fun _ => "") (String.eqb "2024-05-02") kwargs).
  vm_compute. reflexivity.
Defined.

Lemma execute_after_validation_witness :
  let kwargs : gmap string Value := {[ "query" := VStr "my activity" ]} in
  exists validated,
    MCP_validate_parameters (fun _ => "") (String.eqb "2024-05-02") kwargs
    = Returned validated /\
    MCP_execute (fun _ => "") (fun _ _ _ w => (Returned [], w)) true validated tt
    = (Returned (mcp_error "user_id parameter is required"), tt).
Proof.
  intros kwargs. eexists. split; [vm_compute; reflexivity |].
  apply (execute_after_validation (fun _ => "") (String.eqb "2024-05-02")
           (fun _ _ _ w => (Returned [], w)) kwargs).
  vm_compute. reflexivity.
Defined.

End MCPDatabaseFacts.
